(** * DeepSpeed on AzureML: the notebooks and their two configuration files

    The repository is a sequence of Jupyter notebooks that drive the AzureML,
    HuggingFace and DeepSpeed libraries, together with [src/config.yml] and
    [src/deepspeed_config.json].  The code cells are embedded as programs of a
    small monad over the notebook kernel: the kernel's global names, the names
    bound by [import], and the chronological record of every request made to a
    library and of every printed line.  What a library answers is not part of
    the repository; it is supplied by a [World], over which the theorems
    quantify. *)

From Stdlib Require Import String Ascii ZArith List Bool Lia DecimalString.
From stdpp Require Import base option gmap strings list fin_maps.
Import ListNotations.

Set Warnings "-register-all".

Local Open Scope string_scope.
Local Open Scope Z_scope.

(** ** Python values *)

(** The values that occur in the cells.  [VObj h] is an object owned by a
    library (a workspace, a run, a dataset, a float returned by a metric
    query, ...): the notebook can only pass it on, read its attributes and
    call its methods.  Dictionaries keep the insertion order, as Python's
    do. *)
Inductive value : Type :=
| VNone
| VBool (b : bool)
| VInt (n : Z)
| VStr (s : string)
| VTuple (items : list value)
| VList (items : list value)
| VDict (entries : list (string * value))
| VObj (h : nat)
| VFun (name : string).

Definition kwargs := list (string * value).

Inductive exn : Type :=
| NameError (name : string)
| KeyError (key : value)
| IndexError
| TypeError (what : string)
| AttributeError (attr : string)
| ValueError (what : string)
| Raised (cls : string).   (* an exception class of a library, by qualified name *)

(** ** Requests to the libraries *)

Inductive request : Type :=
| RImport (module : string)
| RCall (callee : string) (args : list value) (kw : kwargs)
| RInvoke (obj : value) (args : list value) (kw : kwargs)
| RMethod (recv : value) (method : string) (args : list value) (kw : kwargs)
| RGetAttr (recv : value) (attr : string)
| RSetAttr (recv : value) (attr : string) (v : value).

Inductive outcome : Type :=
| Returns (v : value)
| Raises (e : exn).

Inductive event : Type :=
| EReq (r : request) (o : outcome)
| EPrint (line : string).

(** The world outside the notebook: what a library answers to a request,
    given everything that happened before, and the text [str()] gives to a
    container or a library object. *)
Class World : Type := {
  respond : list event -> request -> outcome;
  render : value -> string
}.

(** ** The kernel *)

Record kernel : Type := Kernel {
  globals : gmap string value;     (* names bound by assignment, [def], [for], [with] *)
  imported : gmap string string;   (* names bound by [import], with what they denote *)
  trace : list event
}.

Definition fresh : kernel := Kernel ∅ ∅ [].

Inductive result (A : Type) : Type :=
| Ok (a : A)
| Err (e : exn).
Arguments Ok {A} a.
Arguments Err {A} e.

Definition py (A : Type) : Type := kernel -> result A * kernel.

Definition ret {A} (a : A) : py A := fun k => (Ok a, k).

Definition raise {A} (e : exn) : py A := fun k => (Err e, k).

Definition bind {A B} (m : py A) (f : A -> py B) : py B :=
  fun k => match m k with
           | (Ok a, k') => f a k'
           | (Err e, k') => (Err e, k')
           end.

Declare Scope py_scope.
Delimit Scope py_scope with py.
Notation "x <- m ;; f" := (bind m (fun x => f))
  (at level 100, m at next level, right associativity) : py_scope.
Notation "m ;;; f" := (bind m (fun _ => f))
  (at level 100, right associativity) : py_scope.
Local Open Scope py_scope.

(** Name lookup and assignment in the kernel's global namespace. *)
Definition load (x : string) : py value :=
  fun k => match globals k !! x with
           | Some v => (Ok v, k)
           | None => (Err (NameError x), k)
           end.

Definition store (x : string) (v : value) : py unit :=
  fun k => (Ok tt, Kernel (<[x:=v]> (globals k)) (imported k) (trace k)).

(** [ext x attrs] is the expression [x.a1.a2...] where [x] was bound by an
    import: the qualified name of what it denotes. *)
Definition ext (x : string) (attrs : list string) : py string :=
  fun k => match imported k !! x with
           | Some q => (Ok (String.concat "." (q :: attrs)), k)
           | None => (Err (NameError x), k)
           end.

Definition print (line : string) : py unit :=
  fun k => (Ok tt, Kernel (globals k) (imported k) (trace k ++ [EPrint line])).

Section Requests.
Context {W : World}.

Definition ask (r : request) : py value :=
  fun k => let o := respond (trace k) r in
           (match o with Returns v => Ok v | Raises e => Err e end,
            Kernel (globals k) (imported k) (trace k ++ [EReq r o])).

(** [import m] and [import m.sub] bind the top-level package name;
    [from m import x] binds [x] to [m.x]. *)
Definition import_ (module name denotes : string) : py unit :=
  ask (RImport module) ;;;
  fun k => (Ok tt, Kernel (globals k) (<[name:=denotes]> (imported k)) (trace k)).

(** A call [f(args, kw)] where [f] is a qualified library name. *)
Definition call (f : string) (args : list value) (kw : kwargs) : py value :=
  ask (RCall f args kw).

(** A call [v(args, kw)] of a value. *)
Definition invoke (v : value) (args : list value) (kw : kwargs) : py value :=
  match v with
  | VObj _ | VFun _ => ask (RInvoke v args kw)
  | _ => raise (TypeError "object is not callable")
  end.

Definition getattr (v : value) (a : string) : py value :=
  match v with
  | VObj _ => ask (RGetAttr v a)
  | _ => raise (AttributeError a)
  end.

Definition setattr (v : value) (a : string) (x : value) : py unit :=
  match v with
  | VObj _ => ask (RSetAttr v a x) ;;; ret tt
  | _ => raise (AttributeError a)
  end.
End Requests.

(** ** Built-in operations on values *)

Definition dict_get (entries : list (string * value)) (key : string) : option value :=
  snd <$> List.find (fun kv => String.eqb (fst kv) key) entries.

(** [seq[i]] with Python's negative indices. *)
Definition index {A} (xs : list A) (i : Z) : option A :=
  let n := Z.of_nat (length xs) in
  let j := if i <? 0 then i + n else i in
  if (0 <=? j) && (j <? n) then nth_error xs (Z.to_nat j) else None.

(** [str.split(sep)] for a non-empty separator: [skip] counts the characters
    of a separator occurrence still to be dropped. *)
Fixpoint split_from (sep : string) (skip : nat) (s : string) : list string :=
  match s with
  | EmptyString => [EmptyString]
  | String a r =>
      match skip with
      | S n => split_from sep n r
      | O =>
          if String.prefix sep s
          then EmptyString :: split_from sep (String.length sep - 1) r
          else match split_from sep 0 r with
               | h :: t => String a h :: t
               | [] => [String a EmptyString]
               end
      end
  end.

Definition split (sep s : string) : list string := split_from sep 0 s.

(** The characters of a string, each a string of length one. *)
Fixpoint chars (s : string) : list value :=
  match s with
  | EmptyString => []
  | String a r => VStr (String a EmptyString) :: chars r
  end.

Definition decimal (n : Z) : string := NilZero.string_of_int (Z.to_int n).

Section Builtins.
Context {W : World}.

(** [str(v)], also what an f-string field without a format gives. *)
Definition py_str (v : value) : string :=
  match v with
  | VNone => "None"
  | VBool true => "True"
  | VBool false => "False"
  | VInt n => decimal n
  | VStr s => s
  | _ => render v
  end.

(** [v[key]] *)
Definition subscript (v key : value) : py value :=
  match v, key with
  | VDict entries, VStr s =>
      match dict_get entries s with
      | Some x => ret x
      | None => raise (KeyError key)
      end
  | VDict _, _ => raise (KeyError key)
  | VTuple xs, VInt i | VList xs, VInt i =>
      match index xs i with
      | Some x => ret x
      | None => raise IndexError
      end
  | VStr s, VInt i =>
      match index (chars s) i with
      | Some c => ret c
      | None => raise IndexError
      end
  | VObj _, _ => ask (RMethod v "__getitem__" [key] [])
  | _, _ => raise (TypeError "object is not subscriptable")
  end.

(** [recv.method(args, kw)] *)
Definition call_method (recv : value) (method : string)
    (args : list value) (kw : kwargs) : py value :=
  match recv with
  | VObj _ => ask (RMethod recv method args kw)
  | VStr s =>
      if String.eqb method "split" then
        match args, kw with
        | [VStr sep], [] =>
            if String.eqb sep "" then raise (ValueError "empty separator")
            else ret (VList (map VStr (split sep s)))
        | _, _ => raise (TypeError "split")
        end
      else raise (AttributeError method)
  | VDict entries =>
      if String.eqb method "keys" then
        match args, kw with
        | [], [] => ret (VList (map (fun kv => VStr (fst kv)) entries))
        | _, _ => raise (TypeError "keys")
        end
      else raise (AttributeError method)
  | _ => raise (AttributeError method)
  end.

(** [a + b] *)
Definition py_add (a b : value) : py value :=
  match a, b with
  | VStr s, VStr t => ret (VStr (s +:+ t))
  | VInt m, VInt n => ret (VInt (m + n))
  | _, _ => raise (TypeError "unsupported operand type(s) for +")
  end.

(** An f-string field [{v:spec}] with a non-empty format: the formatting
    belongs to the type of [v]. *)
Definition format_spec (v : value) (spec : string) : py string :=
  r <- ask (RMethod v "__format__" [VStr spec] []) ;;
  match r with
  | VStr s => ret s
  | _ => raise (TypeError "__format__ must return a str")
  end.

(** [**v] in a call *)
Definition unpack (v : value) : py kwargs :=
  match v with
  | VDict entries => ret entries
  | _ => raise (TypeError "argument after ** must be a mapping")
  end.
End Builtins.

(** ** Control flow *)

Definition truthy (v : value) : bool :=
  match v with
  | VNone | VBool false | VInt 0 | VStr EmptyString
  | VTuple [] | VList [] | VDict [] => false
  | _ => true
  end.

Definition exn_class (e : exn) : string :=
  match e with
  | NameError _ => "NameError"
  | KeyError _ => "KeyError"
  | IndexError => "IndexError"
  | TypeError _ => "TypeError"
  | AttributeError _ => "AttributeError"
  | ValueError _ => "ValueError"
  | Raised cls => cls
  end.

(** [isinstance e cls] for a library class [cls] named in an [except] clause. *)
Definition isinstance (e : exn) (cls : string) : bool :=
  match e with
  | Raised c => String.eqb c cls
  | _ => false
  end.

(** [try: body / except cls: handler].  The class expression is evaluated only
    when the body raises. *)
Definition try_except {A} (body : py A) (cls : py string) (handler : py A) : py A :=
  fun k => match body k with
           | (Ok a, k1) => (Ok a, k1)
           | (Err e, k1) =>
               match cls k1 with
               | (Ok c, k2) => if isinstance e c then handler k2 else (Err e, k2)
               | (Err e', k2) => (Err e', k2)
               end
           end.

Fixpoint for_items (x : string) (xs : list value) (body : py unit) : py unit :=
  match xs with
  | [] => ret tt
  | v :: rest => store x v ;;; body ;;; for_items x rest body
  end.

Section Statements.
Context {W : World}.

(** [with ctx as x: body].  On the way out [__exit__] receives the class of
    the exception in flight, if any, and may swallow it. *)
Definition with_as (ctx : py value) (x : string) (body : py unit) : py unit :=
  mgr <- ctx ;;
  v <- call_method mgr "__enter__" [] [] ;;
  store x v ;;;
  fun k => match body k with
           | (Ok _, k1) =>
               (call_method mgr "__exit__" [VNone; VNone; VNone] [] ;;; ret tt) k1
           | (Err e, k1) =>
               (swallow <- call_method mgr "__exit__"
                             [VStr (exn_class e); VStr (exn_class e); VNone] [] ;;
                if truthy swallow then ret tt else raise e) k1
           end.

Definition items_of (v : value) : py (list value) :=
  match v with
  | VTuple xs | VList xs => ret xs
  | VDict entries => ret (map (fun kv => VStr (fst kv)) entries)
  | VStr s => ret (chars s)
  | VObj _ =>
      r <- ask (RMethod v "__iter__" [] []) ;;
      match r with
      | VTuple xs | VList xs => ret xs
      | _ => raise (TypeError "iter() returned non-iterator")
      end
  | _ => raise (TypeError "object is not iterable")
  end.

(** [for x in it: body] *)
Definition for_each (x : string) (it : py value) (body : py unit) : py unit :=
  v <- it ;;
  xs <- items_of v ;;
  for_items x xs body.

(** The statement every notebook uses to read its settings:
    [with open('src/config.yml', 'r') as f: config = yaml.safe_load(f)] *)
Definition load_config : py unit :=
  with_as (call "open" [VStr "src/config.yml"; VStr "r"] []) "f"
    (safe_load <- ext "yaml" ["safe_load"] ;;
     f <- load "f" ;;
     config <- call safe_load [f] [] ;;
     store "config" config).

(** [config[key]] *)
Definition config_at (key : string) : py value :=
  config <- load "config" ;;
  subscript config (VStr key).
End Statements.

(** ** Notebooks *)

(** A notebook is its code cells, top to bottom. *)
Definition notebook : Type := list (py unit).

(** Running one cell: whatever it bound, requested and printed before it
    stopped stays in the kernel, also when it stops with an exception. *)
Definition exec (c : py unit) (k : kernel) : kernel := snd (c k).

(** "Run All": the cells in order, stopping at the first exception. *)
Fixpoint run_all (cells : notebook) : py unit :=
  match cells with
  | [] => ret tt
  | c :: rest => c ;;; run_all rest
  end.

(** The kernels a user can reach from a fresh one by running cells of the
    notebook, in any order and any number of times. *)
Inductive session (nb : notebook) : kernel -> Prop :=
| session_fresh : session nb fresh
| session_exec (c : py unit) (k : kernel) :
    session nb k -> In c nb -> session nb (exec c k).

Definition requests (t : list event) : list request :=
  omap (fun ev => match ev with EReq r _ => Some r | EPrint _ => None end) t.

Definition printed (t : list event) : list string :=
  omap (fun ev => match ev with EPrint s => Some s | EReq _ _ => None end) t.

(** What happened since the trace had length [n]. *)
Definition since (n : nat) (t : list event) : list event := drop n t.

Definition dq : string := String "034"%char EmptyString.
Definition nl : string := String "010"%char EmptyString.

(** ** The settings document, [src/config.yml]

    The document as [yaml.safe_load] reads it: a mapping in file order, the
    comments dropped, [true] a boolean and the bare numbers integers. *)
Definition config_yml : value :=
  VDict [
    ("model", VStr "distilbert-base-uncased");
    ("task", VStr "cola");
    ("task_dataset_version", VInt 1);
    ("experiment", VStr "training-quickstart");
    ("description", VStr "distilbert for linguistic acceptability");
    ("metric", VStr "matthews_correlation");
    ("val_key", VStr "validation");
    ("data_dir", VStr "data/glue/cola");
    ("source_directory", VStr "src");
    ("environment", VStr "deepspeed-transformers");
    ("environment_dockerfile", VStr "src/dockerfile");
    ("training_command", VStr "python train.py");
    ("compute_target", VStr "gpu-K80-1");
    ("compute_size", VStr "STANDARD_NC4AS_T4_V3");
    ("compute_node_count", VInt 2);
    ("model_output_dir", VStr "outputs/model");
    ("registered_model_name", VStr "distilbert-base-uncased-cola");
    ("pytorch_configuration", VDict [
       ("node_count", VInt 2);
       ("process_count", VInt 2)]);
    ("training_args", VDict [
       ("output_dir", VStr "outputs");
       ("overwrite_output_dir", VBool true);
       ("do_eval", VBool true);
       ("evaluation_strategy", VStr "epoch");
       ("num_train_epochs", VInt 3);
       ("per_device_train_batch_size", VInt 16);
       ("per_device_eval_batch_size", VInt 16);
       ("disable_tqdm", VBool true);
       ("report_to", VStr "azure_ml");
       ("deepspeed", VStr "deepspeed_config.json")])
  ].

(** [v[k1][k2]...] on plain data, [None] where Python raises. *)
Fixpoint at_path (path : list string) (v : value) : option value :=
  match path with
  | [] => Some v
  | key :: rest =>
      match v with
      | VDict entries =>
          match dict_get entries key with
          | Some x => at_path rest x
          | None => None
          end
      | _ => None
      end
  end.

Definition keys (v : value) : list string :=
  match v with
  | VDict entries => map fst entries
  | _ => []
  end.

(** The keys the specification lists for the settings document. *)
Definition recognized_keys : list string :=
  ["model"; "task"; "experiment"; "metric"; "data_dir"; "source_directory";
   "environment"; "environment_dockerfile"; "training_command";
   "compute_target"; "compute_size"; "compute_node_count";
   "registered_model_name"; "pytorch_configuration"; "training_args"].

Definition mem (x : string) (xs : list string) : bool :=
  existsb (String.eqb x) xs.

(** ** The accelerator settings, [src/deepspeed_config.json] *)

(** A JSON number is kept as written: [JNum m e] is [m * 10^e]. *)
Inductive json : Type :=
| JBool (b : bool)
| JNum (mantissa exponent : Z)
| JStr (s : string)
| JArr (items : list json)
| JObj (members : list (string * json)).

Definition deepspeed_config_json : json :=
  JObj [
    ("fp16", JObj [
       ("enabled", JBool false);
       ("loss_scale", JNum 0 0);
       ("loss_scale_window", JNum 1000 0);
       ("initial_scale_power", JNum 32 0);
       ("hysteresis", JNum 2 0);
       ("min_loss_scale", JNum 1 0)]);
    ("zero_optimization", JObj [
       ("stage", JNum 2 0);
       ("allgather_partitions", JBool true);
       ("allgather_bucket_size", JNum 2 8);
       ("overlap_comm", JBool true);
       ("reduce_scatter", JBool true);
       ("reduce_bucket_size", JNum 2 8);
       ("contiguous_gradients", JBool true);
       ("cpu_offload", JBool true)]);
    ("zero_allow_untested_optimizer", JBool true);
    ("optimizer", JObj [
       ("type", JStr "AdamW");
       ("params", JObj [
          ("lr", JNum 5 (-5));
          ("betas", JArr [JNum 9 (-1); JNum 999 (-3)]);
          ("eps", JNum 1 (-8));
          ("weight_decay", JNum 0 (-1))])]);
    ("scheduler", JObj [
       ("type", JStr "WarmupLR");
       ("params", JObj [
          ("warmup_min_lr", JNum 0 0);
          ("warmup_max_lr", JNum 5 (-5));
          ("warmup_num_steps", JNum 0 0)])]);
    ("steps_per_print", JNum 2000 0);
    ("wall_clock_breakdown", JBool false);
    ("train_batch_size", JStr "auto");
    ("gradient_accumulation", JNum 1 0);
    ("train_micro_batch_size_per_gpu", JStr "auto")
  ].

Definition member (members : list (string * json)) (key : string) : option json :=
  snd <$> List.find (fun kv => String.eqb (fst kv) key) members.

Fixpoint json_at (path : list string) (j : json) : option json :=
  match path with
  | [] => Some j
  | key :: rest =>
      match j with
      | JObj members =>
          match member members key with
          | Some x => json_at rest x
          | None => None
          end
      | _ => None
      end
  end.

Definition is_object (j : json) : bool :=
  match j with JObj _ => true | _ => false end.

(** ** Notebook 01: create a compute target and check the install *)

Module CreateCompute.
Section Cells.
Context {W : World}.

(** [import onnx / import transformers] *)
Definition check_requirements : py unit :=
  import_ "onnx" "onnx" "onnx" ;;;
  import_ "transformers" "transformers" "transformers".

Definition read_settings : py unit :=
  import_ "yaml" "yaml" "yaml" ;;;
  import_ "azureml.core" "azureml" "azureml" ;;;
  load_config.

(** [workspace = azureml.core.Workspace.from_config()] *)
Definition connect_workspace : py unit :=
  from_config <- ext "azureml" ["core"; "Workspace"; "from_config"] ;;
  workspace <- call from_config [] [] ;;
  store "workspace" workspace.

(** The body of the [try]: look the cluster up by name. *)
Definition find_cluster : py unit :=
  ComputeTarget <- ext "azureml" ["core"; "compute"; "ComputeTarget"] ;;
  workspace <- load "workspace" ;;
  name <- config_at "compute_target" ;;
  cluster <- call ComputeTarget [] [("workspace", workspace); ("name", name)] ;;
  store "cluster" cluster ;;;
  print "Found existing compute cluster".

(** The body of the [except]: provision a cluster under that name. *)
Definition create_cluster : py unit :=
  provisioning_configuration <-
    ext "azureml" ["core"; "compute"; "AmlCompute"; "provisioning_configuration"] ;;
  vm_size <- config_at "compute_size" ;;
  max_nodes <- config_at "compute_node_count" ;;
  compute_config <-
    call provisioning_configuration [] [("vm_size", vm_size); ("max_nodes", max_nodes)] ;;
  store "compute_config" compute_config ;;;
  create <- ext "azureml" ["core"; "compute"; "ComputeTarget"; "create"] ;;
  workspace <- load "workspace" ;;
  name <- config_at "compute_target" ;;
  compute_config <- load "compute_config" ;;
  cluster <-
    call create [] [("workspace", workspace); ("name", name);
                    ("provisioning_configuration", compute_config)] ;;
  store "cluster" cluster.

(** "Does the cluster exist? If not, then create it" *)
Definition find_or_create_cluster : py unit :=
  try_except find_cluster
    (ext "azureml" ["core"; "compute_target"; "ComputeTargetException"])
    create_cluster ;;;
  cluster <- load "cluster" ;;
  call_method cluster "wait_for_completion" [] [("show_output", VBool true)] ;;;
  ret tt.

Definition cells : notebook :=
  [check_requirements; read_settings; connect_workspace; find_or_create_cluster].
End Cells.
End CreateCompute.

(** ** Notebook 02: create and test an environment supporting DeepSpeed *)

Module PrepareEnvironment.
Section Cells.
Context {W : World}.

Definition read_settings : py unit :=
  import_ "subprocess" "subprocess" "subprocess" ;;;
  import_ "yaml" "yaml" "yaml" ;;;
  import_ "pathlib" "Path" "pathlib.Path" ;;;
  import_ "azureml.core" "azureml" "azureml" ;;;
  load_config.

Definition connect_workspace : py unit :=
  from_config <- ext "azureml" ["core"; "Workspace"; "from_config"] ;;
  workspace <- call from_config [] [] ;;
  store "workspace" workspace.

(** [environment.python.user_managed_dependencies = True]
    [environment.python.interpreter_path = "/opt/miniconda/bin/python"]
    [environment = environment.register(workspace)] *)
Definition configure_and_register : py unit :=
  environment <- load "environment" ;;
  python <- getattr environment "python" ;;
  setattr python "user_managed_dependencies" (VBool true) ;;;
  environment <- load "environment" ;;
  python <- getattr environment "python" ;;
  setattr python "interpreter_path" (VStr "/opt/miniconda/bin/python") ;;;
  environment <- load "environment" ;;
  workspace <- load "workspace" ;;
  registered <- call_method environment "register" [workspace] [] ;;
  store "environment" registered.

Definition register_environment : py unit :=
  from_dockerfile <- ext "azureml" ["core"; "Environment"; "from_dockerfile"] ;;
  name <- config_at "environment" ;;
  Path <- ext "Path" [] ;;
  file <- config_at "environment_dockerfile" ;;
  path <- call Path [file] [] ;;
  dockerfile <- call_method path "read_text" [] [] ;;
  environment <- call from_dockerfile [] [("name", name); ("dockerfile", dockerfile)] ;;
  store "environment" environment ;;;
  configure_and_register ;;;
  environment <- load "environment" ;;
  name <- getattr environment "name" ;;
  environment <- load "environment" ;;
  version <- getattr environment "version" ;;
  workspace <- load "workspace" ;;
  workspace_name <- getattr workspace "name" ;;
  print (py_str name +:+ " version " +:+ py_str version +:+
         " registered in " +:+ py_str workspace_name).

(** [build = environment.build(workspace)]
    [print(f"Current status is {build.status}.")] *)
Definition start_build : py unit :=
  environment <- load "environment" ;;
  workspace <- load "workspace" ;;
  build <- call_method environment "build" [workspace] [] ;;
  store "build" build ;;;
  build <- load "build" ;;
  status <- getattr build "status" ;;
  print ("Current status is " +:+ py_str status +:+ ".").

Definition print_build_status : py unit :=
  build <- load "build" ;;
  status <- getattr build "status" ;;
  build <- load "build" ;;
  log_url <- getattr build "log_url" ;;
  print ("Current status is " +:+ py_str status +:+
         ". We can track the build process at " +:+ nl +:+ " " +:+ py_str log_url).

(** [acr_name = workspace.get_details()["containerRegistry"].split("/")[-1]]
    [container_name = f"{acr_name}.azurecr.io/{config['experiment']}/{config['environment']}"] *)
Definition name_container : py unit :=
  workspace <- load "workspace" ;;
  details <- call_method workspace "get_details" [] [] ;;
  registry <- subscript details (VStr "containerRegistry") ;;
  parts <- call_method registry "split" [VStr "/"] [] ;;
  acr_name <- subscript parts (VInt (-1)) ;;
  store "acr_name" acr_name ;;;
  acr_name <- load "acr_name" ;;
  experiment <- config_at "experiment" ;;
  environment <- config_at "environment" ;;
  store "container_name"
    (VStr (py_str acr_name +:+ ".azurecr.io/" +:+ py_str experiment +:+ "/" +:+
           py_str environment)).

Definition print_line : py unit :=
  line <- load "line" ;;
  print (py_str line).

Definition print_build_commands : py unit :=
  source_directory <- config_at "source_directory" ;;
  container_name <- load "container_name" ;;
  store "cmds"
    (VTuple [VStr ("docker build " +:+ py_str source_directory +:+ " .");
             VStr ("LATEST=`docker images --format " +:+ dq +:+ "{{.ID}}" +:+ dq +:+
                   " | head -n 1`");
             VStr ("docker tag $LATEST " +:+ py_str container_name)]) ;;;
  for_each "line" (load "cmds") print_line.

Definition print_run_command : py unit :=
  container_name <- load "container_name" ;;
  print ("docker run -it " +:+ py_str container_name +:+ " bash").

(** [cmds = (f"az login", f"az acr login --name {acr_name}",
             f"docker push {container_name}:latest")]
    [for line in docker_build_commands: print(line)] *)
Definition print_push_commands : py unit :=
  acr_name <- load "acr_name" ;;
  container_name <- load "container_name" ;;
  store "cmds"
    (VTuple [VStr "az login";
             VStr ("az acr login --name " +:+ py_str acr_name);
             VStr ("docker push " +:+ py_str container_name +:+ ":latest")]) ;;;
  for_each "line" (load "docker_build_commands") print_line.

Definition environment_from_image : py unit :=
  Environment <- ext "azureml" ["core"; "Environment"] ;;
  name <- config_at "environment" ;;
  environment <- call Environment [name] [] ;;
  store "environment" environment ;;;
  container_name <- load "container_name" ;;
  environment <- load "environment" ;;
  docker <- getattr environment "docker" ;;
  setattr docker "base_image" (VStr (py_str container_name +:+ ":latest")) ;;;
  configure_and_register ;;;
  environment <- load "environment" ;;
  workspace <- load "workspace" ;;
  call_method environment "build" [workspace] [] ;;;
  ret tt.

Definition empty_cell : py unit := ret tt.

(** The notebook as checkpointed, and the copy with a trailing empty cell. *)
Definition cells : notebook :=
  [read_settings; connect_workspace; register_environment; start_build;
   print_build_status; name_container; print_build_commands;
   print_run_command; print_push_commands; environment_from_image].

Definition cells_amltmp : notebook := (cells ++ [empty_cell])%list.
End Cells.
End PrepareEnvironment.

(** ** Notebook 03: prepare a dataset for use in a training task *)

Module PrepareData.
Section Cells.
Context {W : World}.

Definition imports : py unit :=
  import_ "yaml" "yaml" "yaml" ;;;
  import_ "azureml.core" "azureml" "azureml" ;;;
  import_ "datasets" "datasets" "datasets" ;;;
  import_ "transformers" "transformers" "transformers".

Definition read_settings : py unit := load_config.

(** [data = datasets.load_dataset("glue", config['task'])] *)
Definition download : py unit :=
  load_dataset <- ext "datasets" ["load_dataset"] ;;
  task <- config_at "task" ;;
  data <- call load_dataset [VStr "glue"; task] [] ;;
  store "data" data.

(** [def tokenizer_function(examples):]
    [    return tokenizer(examples['sentence'], padding="max_length", truncation=True)] *)
Definition tokenizer_function (examples : value) : py value :=
  tokenizer <- load "tokenizer" ;;
  sentences <- subscript examples (VStr "sentence") ;;
  invoke tokenizer [sentences] [("padding", VStr "max_length"); ("truncation", VBool true)].

Definition tokenize_and_save : py unit :=
  from_pretrained <- ext "transformers" ["AutoTokenizer"; "from_pretrained"] ;;
  model <- config_at "model" ;;
  tokenizer <- call from_pretrained [model] [] ;;
  store "tokenizer" tokenizer ;;;
  store "tokenizer_function" (VFun "tokenizer_function") ;;;
  data <- load "data" ;;
  f <- load "tokenizer_function" ;;
  mapped <- call_method data "map" [f] [("batched", VBool true)] ;;
  store "data" mapped ;;;
  data <- load "data" ;;
  data_dir <- config_at "data_dir" ;;
  call_method data "save_to_disk" [data_dir] [] ;;;
  ret tt.

Definition connect_datastore : py unit :=
  from_config <- ext "azureml" ["core"; "Workspace"; "from_config"] ;;
  workspace <- call from_config [] [] ;;
  store "workspace" workspace ;;;
  workspace <- load "workspace" ;;
  datastore <- call_method workspace "get_default_datastore" [] [] ;;
  store "datastore" datastore.

Definition upload : py unit :=
  datastore <- load "datastore" ;;
  src_dir <- config_at "data_dir" ;;
  target_path <- config_at "data_dir" ;;
  call_method datastore "upload" []
    [("src_dir", src_dir); ("target_path", target_path); ("overwrite", VBool true)] ;;;
  ret tt.

Definition register : py unit :=
  name <- config_at "task" ;;
  store "name" name ;;;
  task <- config_at "task" ;;
  model <- config_at "model" ;;
  store "description"
    (VStr ("Glue dataset for " +:+ py_str task +:+ ", tokenized for " +:+ py_str model)) ;;;
  task <- config_at "task" ;;
  model <- config_at "model" ;;
  store "tags" (VDict [("task", task); ("model", model)]) ;;;
  datastore <- load "datastore" ;;
  data_dir <- config_at "data_dir" ;;
  path <- call_method datastore "path" [data_dir] [] ;;
  store "path" path ;;;
  from_files <- ext "azureml" ["core"; "Dataset"; "File"; "from_files"] ;;
  path <- load "path" ;;
  amldataset <- call from_files [path] [] ;;
  store "amldataset" amldataset ;;;
  amldataset <- load "amldataset" ;;
  workspace <- load "workspace" ;;
  name <- load "name" ;;
  description <- load "description" ;;
  tags <- load "tags" ;;
  registered <-
    call_method amldataset "register" [workspace; name; description; tags; VBool true] [] ;;
  store "amldataset" registered.

(** [amldataset.version] *)
Definition show_version : py unit :=
  amldataset <- load "amldataset" ;;
  getattr amldataset "version" ;;;
  ret tt.

Definition cells : notebook :=
  [imports; read_settings; download; tokenize_and_save; connect_datastore;
   upload; register; show_version].
End Cells.
End PrepareData.

(** ** Notebook 04: train a model *)

Module TrainModel.
Section Cells.
Context {W : World}.

Definition imports : py unit :=
  import_ "yaml" "yaml" "yaml" ;;;
  import_ "azureml.core" "azureml" "azureml" ;;;
  import_ "transformers" "transformers" "transformers".

Definition read_settings : py unit := load_config.

Definition connect_workspace : py unit :=
  from_config <- ext "azureml" ["core"; "Workspace"; "from_config"] ;;
  workspace <- call from_config [] [] ;;
  store "workspace" workspace.

(** [azureml.core.Environment.list(workspace).keys()] *)
Definition list_environments : py unit :=
  list_ <- ext "azureml" ["core"; "Environment"; "list"] ;;
  workspace <- load "workspace" ;;
  environments <- call list_ [workspace] [] ;;
  call_method environments "keys" [] [] ;;;
  ret tt.

(** The notebook as first written:
    [environment = azureml.core.Environment.get(workspace, config['environment'])] *)
Definition get_environment_from_settings : py unit :=
  get <- ext "azureml" ["core"; "Environment"; "get"] ;;
  workspace <- load "workspace" ;;
  name <- config_at "environment" ;;
  environment <- call get [workspace; name] [] ;;
  store "environment" environment.

(** The working copy:
    [# environment = azureml.core.Environment.get(workspace, config['environment'])]
    [env_name = "deepspeed-transformers-datasets"]
    [environment = azureml.core.Environment.get(workspace, name=env_name)]
    [print(environment)] *)
Definition get_environment : py unit :=
  store "env_name" (VStr "deepspeed-transformers-datasets") ;;;
  get <- ext "azureml" ["core"; "Environment"; "get"] ;;
  workspace <- load "workspace" ;;
  env_name <- load "env_name" ;;
  environment <- call get [workspace] [("name", env_name)] ;;
  store "environment" environment ;;;
  environment <- load "environment" ;;
  print (py_str environment).

Definition get_experiment : py unit :=
  Experiment <- ext "azureml" ["core"; "Experiment"] ;;
  workspace <- load "workspace" ;;
  name <- config_at "experiment" ;;
  experiment <- call Experiment [workspace; name] [] ;;
  store "experiment" experiment.

Definition configure_run : py unit :=
  PyTorchConfiguration <- ext "azureml" ["core"; "runconfig"; "PyTorchConfiguration"] ;;
  pytorch_configuration <- config_at "pytorch_configuration" ;;
  kw <- unpack pytorch_configuration ;;
  distributed_job_config <- call PyTorchConfiguration [] kw ;;
  store "distributed_job_config" distributed_job_config ;;;
  ScriptRunConfig <- ext "azureml" ["core"; "ScriptRunConfig"] ;;
  source_directory <- config_at "source_directory" ;;
  command <- config_at "training_command" ;;
  environment <- load "environment" ;;
  compute_target <- config_at "compute_target" ;;
  distributed_job_config <- load "distributed_job_config" ;;
  aml_config <-
    call ScriptRunConfig []
      [("source_directory", source_directory); ("command", command);
       ("environment", environment); ("compute_target", compute_target);
       ("distributed_job_config", distributed_job_config)] ;;
  store "aml_config" aml_config.

(** The dictionary literal given to [run.set_tags]. *)
Definition run_tags : py value :=
  model <- config_at "model" ;;
  task <- config_at "task" ;;
  metric <- config_at "metric" ;;
  environment <- config_at "environment" ;;
  training_args <- config_at "training_args" ;;
  num_train_epochs <- subscript training_args (VStr "num_train_epochs") ;;
  training_args <- config_at "training_args" ;;
  batch_size <- subscript training_args (VStr "per_device_train_batch_size") ;;
  ret (VDict [("model", model); ("task", task); ("metric", metric);
              ("environment", environment);
              ("num_train_epochs", VStr (py_str num_train_epochs));
              ("batch_size", VStr (py_str batch_size))]).

Definition print_portal_url : py unit :=
  run <- load "run" ;;
  url <- call_method run "get_portal_url" [] [] ;;
  print ("View run details:" +:+ nl +:+ py_str url).

Definition submit : py unit :=
  experiment <- load "experiment" ;;
  aml_config <- load "aml_config" ;;
  run <- call_method experiment "submit" [aml_config] [] ;;
  store "run" run ;;;
  run <- load "run" ;;
  tags <- run_tags ;;
  call_method run "set_tags" [tags] [] ;;;
  print_portal_url.

(** [print(f"Run status: {run.get_status()}")] *)
Definition print_run_status : py unit :=
  run <- load "run" ;;
  status <- call_method run "get_status" [] [] ;;
  print ("Run status: " +:+ py_str status).

Definition print_metric : py unit :=
  metric <- config_at "metric" ;;
  run <- load "run" ;;
  metrics <- call_method run "get_metrics" [] [] ;;
  metric' <- config_at "metric" ;;
  key <- py_add (VStr "eval_") metric' ;;
  series <- subscript metrics key ;;
  final <- subscript series (VInt (-1)) ;;
  text <- format_spec final ".2f" ;;
  print ("Ending " +:+ py_str metric +:+ ": " +:+ text) ;;;
  print_portal_url.

Definition download_model : py unit :=
  Model <- ext "azureml" ["core"; "Model"] ;;
  workspace <- load "workspace" ;;
  run <- load "run" ;;
  tags <- getattr run "tags" ;;
  name <- subscript tags (VStr "registered_model_name") ;;
  run <- load "run" ;;
  tags <- getattr run "tags" ;;
  version <- subscript tags (VStr "registered_model_version") ;;
  aml_model <- call Model [workspace] [("name", name); ("version", version)] ;;
  store "aml_model" aml_model ;;;
  aml_model <- load "aml_model" ;;
  call_method aml_model "download" [] [("exist_ok", VBool true)] ;;;
  ret tt.

Definition load_pipeline : py unit :=
  from_pretrained <- ext "transformers" ["AutoTokenizer"; "from_pretrained"] ;;
  tokenizer <- call from_pretrained [VStr "model"] [] ;;
  store "tokenizer" tokenizer ;;;
  from_pretrained <-
    ext "transformers" ["AutoModelForSequenceClassification"; "from_pretrained"] ;;
  model <-
    call from_pretrained [VStr "model"]
      [("id2label", VList [VStr "negative"; VStr "positive"])] ;;
  store "model" model ;;;
  TextClassificationPipeline <- ext "transformers" ["TextClassificationPipeline"] ;;
  model <- load "model" ;;
  tokenizer <- load "tokenizer" ;;
  pipeline <- call TextClassificationPipeline [] [("model", model); ("tokenizer", tokenizer)] ;;
  store "pipeline" pipeline.

Definition classify_sentence : py unit :=
  sentence <- load "sentence" ;;
  pipeline <- load "pipeline" ;;
  sentence' <- load "sentence" ;;
  answers <- invoke pipeline [sentence'] [] ;;
  answer <- subscript answers (VInt 0) ;;
  label <- subscript answer (VStr "label") ;;
  print ("Is '" +:+ py_str sentence +:+ "' grammatical?: " +:+ py_str label).

Definition classify : py unit :=
  store "sentences" (VTuple [VStr "i like pie"; VStr "books sent other the students"]) ;;;
  for_each "sentence" (load "sentences") classify_sentence.

(** The notebook as first written. *)
Definition cells_original : notebook :=
  [imports; read_settings; connect_workspace; get_environment_from_settings;
   get_experiment; configure_run; submit; print_run_status; print_metric;
   download_model; load_pipeline; classify].

(** The working copy, [04 train model.ipynb.amltmp]. *)
Definition cells : notebook :=
  [imports; read_settings; connect_workspace; list_environments; get_environment;
   get_experiment; configure_run; submit; print_run_status; print_metric;
   download_model; load_pipeline; classify].
End Cells.
End TrainModel.

(** * Vocabulary of the properties *)

(** ** Reading a request *)

(** The function, method or attribute a request names. *)
Definition names (r : request) (n : string) : bool :=
  match r with
  | RCall f _ _ => String.eqb f n
  | RMethod _ m _ _ => String.eqb m n
  | RGetAttr _ a => String.eqb a n
  | _ => false
  end.

Definition args_of (r : request) : list value :=
  match r with
  | RCall _ args _ | RInvoke _ args _ | RMethod _ _ args _ => args
  | _ => []
  end.

Definition kwargs_of (r : request) : kwargs :=
  match r with
  | RCall _ _ kw | RInvoke _ _ kw | RMethod _ _ _ kw => kw
  | _ => []
  end.

(** [needle in hay] *)
Fixpoint contains (needle hay : string) : bool :=
  String.prefix needle hay ||
  match hay with
  | EmptyString => false
  | String _ rest => contains needle rest
  end.

(** Some string inside [v] contains [needle]. *)
Fixpoint mentions (needle : string) (v : value) : bool :=
  match v with
  | VStr s => contains needle s
  | VTuple items | VList items => existsb (mentions needle) items
  | VDict entries =>
      existsb (fun kv => contains needle (fst kv) || mentions needle (snd kv)) entries
  | _ => false
  end.

(** The request names [needle], as a callee, a method, an attribute or
    somewhere in its arguments. *)
Definition request_mentions (needle : string) (r : request) : bool :=
  match r with
  | RImport m => contains needle m
  | RCall f _ _ => contains needle f
  | RMethod _ m _ _ => contains needle m
  | RGetAttr _ a | RSetAttr _ a _ => contains needle a
  | RInvoke _ _ _ => false
  end
  || existsb (mentions needle) (args_of r)
  || existsb (fun kv => mentions needle (snd kv)) (kwargs_of r)
  || match r with RSetAttr _ _ v => mentions needle v | _ => false end.

(** Running every cell in order, going on after a cell that failed. *)
Definition run_each (cells : notebook) (k : kernel) : kernel :=
  foldl (fun k c => exec c k) k cells.

(** ** Requests of the notebooks *)

(** What the lookup of the cluster raises when there is none. *)
Definition cluster_not_found : exn :=
  Raised "azureml.core.compute_target.ComputeTargetException".

(** The two requests that provision a cluster. *)
Definition provisions (r : request) : bool :=
  match r with
  | RCall f _ _ =>
      String.eqb f "azureml.core.compute.AmlCompute.provisioning_configuration"
      || String.eqb f "azureml.core.compute.ComputeTarget.create"
  | _ => false
  end.

Definition lookup_request (workspace name : value) : request :=
  RCall "azureml.core.compute.ComputeTarget" [] [("workspace", workspace); ("name", name)].

Definition configure_request (vm_size max_nodes : value) : request :=
  RCall "azureml.core.compute.AmlCompute.provisioning_configuration" []
    [("vm_size", vm_size); ("max_nodes", max_nodes)].

Definition create_request (workspace name compute_config : value) : request :=
  RCall "azureml.core.compute.ComputeTarget.create" []
    [("workspace", workspace); ("name", name);
     ("provisioning_configuration", compute_config)].

Definition wait_request (cluster : value) : request :=
  RMethod cluster "wait_for_completion" [] [("show_output", VBool true)].


(** The tags of a run, as the training notebook writes them. *)
Definition expected_run_tags {W : World}
    (model task metric environment epochs batch : value) : value :=
  VDict [("model", model); ("task", task); ("metric", metric);
         ("environment", environment);
         ("num_train_epochs", VStr (py_str epochs));
         ("batch_size", VStr (py_str batch))].

(** A request and the value it was answered with. *)
Definition answered (r : request) (v : value) : event := EReq r (Returns v).

(** Everything that happens when the data notebook is run from top to
    bottom, in order: each request with its answer.  A later request that
    names an earlier answer is made of that very answer: the dataset that is
    mapped is the one that was downloaded, the one that is saved is the one
    the mapping returned, the files that are registered are the ones found
    at the path in the datastore. *)
Definition prepare_data_events {W : World}
    (settings : list (string * value)) (task model data_dir : value)
    (yaml azureml datasets transformers : value)
    (file : nat) (stream closed : value)
    (data : nat) (tokenizer : value) (tokenized : nat) (saved : value)
    (workspace datastore : nat) (uploaded path : value)
    (files registered : nat) (version : value) : list event :=
  [answered (RImport "yaml") yaml;
   answered (RImport "azureml.core") azureml;
   answered (RImport "datasets") datasets;
   answered (RImport "transformers") transformers;
   answered (RCall "open" [VStr "src/config.yml"; VStr "r"] []) (VObj file);
   answered (RMethod (VObj file) "__enter__" [] []) stream;
   answered (RCall "yaml.safe_load" [stream] []) (VDict settings);
   answered (RMethod (VObj file) "__exit__" [VNone; VNone; VNone] []) closed;
   answered (RCall "datasets.load_dataset" [VStr "glue"; task] []) (VObj data);
   answered (RCall "transformers.AutoTokenizer.from_pretrained" [model] []) tokenizer;
   answered (RMethod (VObj data) "map" [VFun "tokenizer_function"]
               [("batched", VBool true)]) (VObj tokenized);
   answered (RMethod (VObj tokenized) "save_to_disk" [data_dir] []) saved;
   answered (RCall "azureml.core.Workspace.from_config" [] []) (VObj workspace);
   answered (RMethod (VObj workspace) "get_default_datastore" [] []) (VObj datastore);
   answered (RMethod (VObj datastore) "upload" []
               [("src_dir", data_dir); ("target_path", data_dir);
                ("overwrite", VBool true)]) uploaded;
   answered (RMethod (VObj datastore) "path" [data_dir] []) path;
   answered (RCall "azureml.core.Dataset.File.from_files" [path] []) (VObj files);
   answered (RMethod (VObj files) "register"
               [VObj workspace; task;
                VStr ("Glue dataset for " +:+ py_str task +:+ ", tokenized for " +:+
                      py_str model);
                VDict [("task", task); ("model", model)];
                VBool true] []) (VObj registered);
   answered (RGetAttr (VObj registered) "version") version].

(** The requests whose answer the data notebook calls a method on or reads
    an attribute of. *)
Definition receivers_of_prepare_data : list string :=
  ["open"; "datasets.load_dataset"; "map"; "azureml.core.Workspace.from_config";
   "get_default_datastore"; "azureml.core.Dataset.File.from_files"; "register"].

(** The request names one of the given functions or methods. *)
Definition names_one_of (functions : list string) (r : request) : bool :=
  existsb (names r) functions.

(** ** Imports, concurrency and waiting *)

(** Everything the cells import, with what each bound name denotes. *)
Definition import_table : gmap string string :=
  list_to_map
    [("onnx", "onnx"); ("transformers", "transformers"); ("yaml", "yaml");
     ("azureml", "azureml"); ("subprocess", "subprocess");
     ("Path", "pathlib.Path"); ("datasets", "datasets")].

(** The top-level package of a dotted name. *)
Definition package (name : string) : string := hd "" (split "." name).

(** The standard modules through which Python code starts a thread, a pool,
    a lock, a queue or an event loop. *)
Definition concurrency_packages : list string :=
  ["threading"; "_thread"; "multiprocessing"; "concurrent"; "asyncio"; "queue"; "sched"].

(** The standard modules through which it starts a process. *)
Definition process_packages : list string := ["subprocess"; "os"].

(** A request that brings in one of the concurrency modules or calls into
    one. *)
Definition concurrent (r : request) : bool :=
  match r with
  | RImport m => mem (package m) concurrency_packages
  | RCall f _ _ => mem (package f) concurrency_packages
  | _ => false
  end.

(** A request that calls into one of the process modules.  Importing such a
    module creates no process: [import subprocess], which the environment
    notebook contains, is not counted here but listed among the imports of
    that notebook below. *)
Definition starts_process (r : request) : bool :=
  match r with
  | RCall f _ _ => mem (package f) process_packages
  | _ => false
  end.

Definition spawns (r : request) : bool := concurrent r || starts_process r.

(** The modules each notebook imports, and the requests that import nothing
    else. *)
Definition modules_of_create_compute : list string :=
  ["onnx"; "transformers"; "yaml"; "azureml.core"].
Definition modules_of_prepare_environment : list string :=
  ["subprocess"; "yaml"; "pathlib"; "azureml.core"].
Definition modules_of_prepare_data : list string :=
  ["yaml"; "azureml.core"; "datasets"; "transformers"].
Definition modules_of_train_model : list string :=
  ["yaml"; "azureml.core"; "transformers"].

Definition imports_within (modules : list string) (r : request) : bool :=
  match r with
  | RImport m => mem m modules
  | _ => true
  end.

Definition imports_only (modules : list string) (k : kernel) : Prop :=
  forallb (imports_within modules) (requests (trace k)) = true.

(** The blocking calls of the SDK: [wait_for_completion] and its kin. *)
Definition waits (r : request) : bool :=
  match r with
  | RMethod _ m _ _ => String.prefix "wait" m
  | _ => false
  end.

Definition orderly (may_wait : bool) (r : request) : bool :=
  negb (spawns r) && (negb (waits r) || may_wait).

(** The requests that start a remote operation which outlives the call:
    creating a cluster, building an environment, submitting a run. *)
Definition starts_operation (r : request) : bool :=
  match r with
  | RCall f _ _ => String.eqb f "azureml.core.compute.ComputeTarget.create"
  | RMethod _ m _ _ => String.eqb m "build" || String.eqb m "submit"
  | _ => false
  end.

(** Every operation that was started is followed, sooner or later, by a
    blocking call. *)
Fixpoint awaits_operations (t : list event) : bool :=
  match t with
  | [] => true
  | EReq r (Returns _) :: rest =>
      (negb (starts_operation r) || existsb waits (requests rest))
      && awaits_operations rest
  | _ :: rest => awaits_operations rest
  end.

(** ** Invariants of the kernel *)

(** The one name the second notebook reads and no cell binds. *)
Definition hidden : string := "docker_build_commands".

Definition inv (may_wait : bool) (k : kernel) : Prop :=
  imported k ⊆ import_table /\
  globals k !! hidden = None /\
  forallb (orderly may_wait) (requests (trace k)) = true.

Definition keeps (P : kernel -> Prop) {A} (m : py A) : Prop :=
  forall k, P k -> P (snd (m k)).

(** ** Failures *)

Definition raising (ev : event) : bool :=
  match ev with
  | EReq _ (Raises _) => true
  | _ => false
  end.

(** What a computation adds to the trace, for a given result: no request
    fails when it returns; when it stops with [e], either nothing failed (the
    exception is the notebook's own, such as a [NameError]) or the failed
    request is the last event and [e] is what it raised. *)
Definition fail_stop {A} (res : result A) (new : list event) : Prop :=
  match res with
  | Ok _ => existsb raising new = false
  | Err e =>
      existsb raising new = false \/
      exists before r, new = (before ++ [EReq r (Raises e)])%list /\
                       existsb raising before = false
  end.

(** [m] handles no failure: the first request that raises ends it. *)
Definition stops_on_failure {A} (m : py A) : Prop :=
  forall k, exists new,
    trace (snd (m k)) = (trace k ++ new)%list /\ fail_stop (fst (m k)) new.

(** ** The pretrained tokenizer

    The tokenizer belongs to the transformers library, not to the repository.
    What its [padding] and [truncation] arguments do is modelled here after
    their documented meaning, over an arbitrary encoding of sentences into
    token ids: [truncation=True] cuts a sequence down to the model's maximum
    length, [padding="max_length"] fills it up to that length and
    [padding=True] or ["longest"] up to the longest sequence of the batch. *)
Section Tokenizer.
Variable encode : string -> list Z.
Variable model_max_length : nat.
Variable pad_token_id : Z.

Definition truncate (truncation : value) (ids : list Z) : list Z :=
  if truthy truncation then take model_max_length ids else ids.

Definition padded_length (padding : value) (batch : list (list Z)) : option nat :=
  match padding with
  | VStr s =>
      if String.eqb s "max_length" then Some model_max_length
      else if String.eqb s "longest" then Some (foldr Nat.max 0%nat (map length batch))
      else None
  | VBool true => Some (foldr Nat.max 0%nat (map length batch))
  | _ => None
  end.

Definition pad_to (n : nat) (ids : list Z) : list Z :=
  (ids ++ replicate (n - length ids) pad_token_id)%list.

Definition tokenize (padding truncation : value) (sentences : list string) : list (list Z) :=
  let cut := map (fun s => truncate truncation (encode s)) sentences in
  match padded_length padding cut with
  | Some n => map (pad_to n) cut
  | None => cut
  end.

Definition batch_encoding (rows : list (list Z)) : value :=
  VDict [("input_ids", VList (map (fun row => VList (map VInt row)) rows))].

Fixpoint strings_of (vs : list value) : option (list string) :=
  match vs with
  | [] => Some []
  | VStr s :: rest => cons s <$> strings_of rest
  | _ :: _ => None
  end.

Definition keyword (kw : kwargs) (name : string) (default : value) : value :=
  match dict_get kw name with
  | Some v => v
  | None => default
  end.

(** [tokenizer(sentences, padding=..., truncation=...)] on a batch. *)
Definition tokenizer_answer (args : list value) (kw : kwargs) : outcome :=
  match args with
  | [VList sentences] =>
      match strings_of sentences with
      | Some ss =>
          Returns (batch_encoding
                     (tokenize (keyword kw "padding" (VBool false))
                               (keyword kw "truncation" VNone) ss))
      | None => Raises (TypeError "text input must be of type str")
      end
  | _ => Raises (TypeError "text input must be a batch of str")
  end.
End Tokenizer.

(** ** Worlds to run the notebooks in *)

(** A world in which every request succeeds: the settings are those of
    [src/config.yml], a build is still running when asked, a run has failed
    when asked, and every other answer is a new library object. *)
Definition obliging_answer (h : list event) (r : request) : outcome :=
  if names r "yaml.safe_load" then Returns config_yml
  else if names r "get_details" then
    Returns (VDict [("containerRegistry", VStr "/subscriptions/s/registries/acr42")])
  else if names r "status" then Returns (VStr "Running")
  else if names r "get_status" then Returns (VStr "Failed")
  else if names r "__format__" then Returns (VStr "0.52")
  else if names r "tags" then
    Returns (VDict [("registered_model_name", VStr "distilbert-base-uncased-cola");
                    ("registered_model_version", VInt 1)])
  else Returns (VObj (length h)).

Definition obliging : World :=
  {| respond := obliging_answer; render := fun _ => "<object>" |}.

(** The same world before the cluster exists. *)
Definition without_cluster : World :=
  {| respond := fun h r =>
       if names r "azureml.core.compute.ComputeTarget" then Raises cluster_not_found
       else obliging_answer h r;
     render := fun _ => "<object>" |}.

(** A world in which the settings are those of [src/config.yml], a request
    whose answer the data notebook uses as an object gets a new object, the
    version of a dataset is a number, and every other answer is [None], as
    it is for [save_to_disk] or [__exit__]. *)
Definition answering_the_data_notebook : World :=
  {| respond := fun h r =>
       if names_one_of receivers_of_prepare_data r then Returns (VObj (length h))
       else if names r "yaml.safe_load" then Returns config_yml
       else if names r "version" then Returns (VInt 1)
       else Returns VNone;
     render := fun _ => "<object>" |}.

(** A world whose tokenizer knows one token per character and sequences of
    at most eight. *)
Definition with_small_tokenizer : World :=
  {| respond := fun h r =>
       match r with
       | RInvoke _ args kw =>
           tokenizer_answer (fun s => map (fun _ => 7) (chars s)) 8 0 args kw
       | _ => Returns (VObj (length h))
       end;
     render := fun _ => "<object>" |}.

(** * Vocabulary of the further properties *)

(** ** Requests of the environment notebook *)

Definition details_request (workspace : value) : request :=
  RMethod workspace "get_details" [] [].

Definition image_request (name : value) : request :=
  RCall "azureml.core.Environment" [name] [].

(** ** Requests of the training notebook *)

Definition tags_request (run : value) : request := RGetAttr run "tags".
Definition metrics_request (run : value) : request := RMethod run "get_metrics" [] [].
Definition format_request (v : value) (spec : string) : request :=
  RMethod v "__format__" [VStr spec] [].
Definition submit_request (experiment aml_config : value) : request :=
  RMethod experiment "submit" [aml_config] [].
Definition classify_request (pipeline : value) (sentence : string) : request :=
  RInvoke pipeline [VStr sentence] [].

(** ** More worlds *)

(** A workspace whose details name no container registry. *)
Definition without_registry : World :=
  {| respond := fun _ r =>
       if names r "get_details" then Returns (VDict [("id", VStr "ws")])
       else Returns VNone;
     render := fun _ => "<object>" |}.

(** The world in which every request succeeds, with a run whose tags are the
    ones the training notebook sets from [src/config.yml]. *)
Definition tagged_by_notebook : World :=
  {| respond := fun h r =>
       if names r "tags" then
         Returns (expected_run_tags (W := obliging)
                    (VStr "distilbert-base-uncased") (VStr "cola")
                    (VStr "matthews_correlation") (VStr "deepspeed-transformers")
                    (VInt 3) (VInt 16))
       else obliging_answer h r;
     render := fun _ => "<object>" |}.

(** A run that logged two values of the evaluation metric, formatted by the
    library as [2.00]. *)
Definition reporting_metrics : World :=
  {| respond := fun _ r =>
       if names r "get_metrics" then
         Returns (VDict [("eval_matthews_correlation", VList [VInt 1; VInt 2])])
       else Returns (VStr "2.00");
     render := fun _ => "<object>" |}.

(** A pipeline that finds every sentence acceptable. *)
Definition approving : World :=
  {| respond := fun _ _ => Returns (VList [VDict [("label", VStr "positive")]]);
     render := fun _ => "<object>" |}.

(** ** Cells that need the cells before them *)

(** Every cell that neither imports a module nor reads the settings. *)
Definition dependent_cells {W : World} : notebook :=
  (drop 2 CreateCompute.cells ++ tail PrepareEnvironment.cells ++
   drop 2 PrepareData.cells ++ drop 2 TrainModel.cells ++
   drop 2 TrainModel.cells_original)%list.

(** A kernel in which no name is bound, whatever happened before. *)
Definition restarted (t : list event) : kernel := Kernel ∅ ∅ t.

(** [c] stops on [k] with a [NameError] without a request or a print. *)
Definition needs_a_name (c : py unit) (k : kernel) : Prop :=
  exists x, fst (c k) = Err (NameError x) /\ trace (exec c k) = trace k.

(** ** Reading the settings *)

Definition open_request : request := RCall "open" [VStr "src/config.yml"; VStr "r"] [].
Definition enter_request (file : value) : request := RMethod file "__enter__" [] [].
Definition parse_request (stream : value) : request := RCall "yaml.safe_load" [stream] [].

(** Leaving a [with] block. *)
Definition leaves (r : request) : bool :=
  match r with
  | RMethod _ m _ _ => String.eqb m "__exit__"
  | _ => false
  end.

(** The world before the cluster exists, in which creating one is refused. *)
Definition out_of_quota : World :=
  {| respond := fun h r =>
       if names r "azureml.core.compute.ComputeTarget" then Raises cluster_not_found
       else if names r "azureml.core.compute.ComputeTarget.create" then
         Raises (Raised "QuotaExceeded")
       else obliging_answer h r;
     render := fun _ => "<object>" |}.

(** ** Registering an environment *)

Definition returned (o : outcome) : bool :=
  match o with Returns _ => true | Raises _ => false end.

(** [<object>.user_managed_dependencies = True] *)
Definition sets_user_managed (r : request) : bool :=
  match r with
  | RSetAttr _ a (VBool true) => String.eqb a "user_managed_dependencies"
  | _ => false
  end.

(** [<object>.interpreter_path = "/opt/miniconda/bin/python"] *)
Definition sets_interpreter (r : request) : bool :=
  match r with
  | RSetAttr _ a (VStr path) =>
      String.eqb a "interpreter_path" && String.eqb path "/opt/miniconda/bin/python"
  | _ => false
  end.

(** [<object>.register(...)] *)
Definition registers (r : request) : bool :=
  match r with
  | RMethod _ m _ _ => String.eqb m "register"
  | _ => false
  end.

(** Going through what happened in order: whenever [register] is asked of an
    object, both settings have been made before, and accepted. *)
Fixpoint registered_as_configured (user_managed interpreter : bool)
    (t : list event) : bool :=
  match t with
  | [] => true
  | EReq r o :: rest =>
      (negb (registers r) || (user_managed && interpreter))
      && registered_as_configured
           (user_managed || (sets_user_managed r && returned o))
           (interpreter || (sets_interpreter r && returned o)) rest
  | EPrint _ :: rest => registered_as_configured user_managed interpreter rest
  end.

Definition docker_request (environment : value) : request := RGetAttr environment "docker".
Definition base_image_request (docker : value) (image : string) : request :=
  RSetAttr docker "base_image" (VStr image).

(** A world with one library object, which is the answer to everything. *)
Definition single_object : World :=
  {| respond := fun _ _ => Returns (VObj 0); render := fun _ => "<object>" |}.

(** ** Where the names of a session come from *)

(** The names the [import] statements of the notebooks bind. *)
Definition import_names : list string :=
  ["onnx"; "transformers"; "yaml"; "azureml"; "subprocess"; "Path"; "datasets"].

(** Every imported name denotes what the table says, and no assignment has
    taken such a name. *)
Definition imports_intact (k : kernel) : Prop :=
  imported k ⊆ import_table /\
  forall x, mem x import_names = true -> globals k !! x = None.

(** [config] holds something [yaml.safe_load] returned. *)
Definition settings_as_read (k : kernel) : Prop :=
  forall c, globals k !! "config" = Some c ->
    exists stream, In (EReq (parse_request stream) (Returns c)) (trace k).

Definition well_named (k : kernel) : Prop := imports_intact k /\ settings_as_read k.

(** The names a cell may assign to without disturbing this. *)
Definition assignable (x : string) : bool :=
  negb (String.eqb x "config") && negb (mem x import_names).

(** ** Requests of the data notebook *)

Definition tokenizer_request (model : value) : request :=
  RCall "transformers.AutoTokenizer.from_pretrained" [model] [].
Definition map_request (data : value) : request :=
  RMethod data "map" [VFun "tokenizer_function"] [("batched", VBool true)].

(** ** Requests of the first notebook *)

(** Everything that happens when the first notebook is run from top to
    bottom and finds no cluster, in order: each request with its answer.  The
    workspace that is searched and in which the cluster is created is the
    one [from_config] returned, the configuration given to [create] is the
    one [provisioning_configuration] returned, and the cluster that is
    waited for is the one [create] returned. *)
Definition create_compute_events (settings : list (string * value))
    (name vm_size max_nodes : value)
    (onnx transformers yaml azureml : value)
    (file : nat) (stream closed workspace compute_config : value)
    (cluster : nat) (waited : value) : list event :=
  [answered (RImport "onnx") onnx;
   answered (RImport "transformers") transformers;
   answered (RImport "yaml") yaml;
   answered (RImport "azureml.core") azureml;
   answered open_request (VObj file);
   answered (enter_request (VObj file)) stream;
   answered (parse_request stream) (VDict settings);
   answered (RMethod (VObj file) "__exit__" [VNone; VNone; VNone] []) closed;
   answered (RCall "azureml.core.Workspace.from_config" [] []) workspace;
   EReq (lookup_request workspace name) (Raises cluster_not_found);
   answered (configure_request vm_size max_nodes) compute_config;
   answered (create_request workspace name compute_config) (VObj cluster);
   answered (wait_request (VObj cluster)) waited].

(** The requests whose answer the first notebook calls a method on. *)
Definition receivers_of_create_compute : list string :=
  ["open"; "azureml.core.compute.ComputeTarget.create"].

(** A world without the cluster, in which the settings are those of
    [src/config.yml], a request whose answer the first notebook uses as an
    object gets a new object, and every other answer is [None]. *)
Definition without_cluster_answering : World :=
  {| respond := fun h r =>
       if names_one_of receivers_of_create_compute r then Returns (VObj (length h))
       else if names r "yaml.safe_load" then Returns config_yml
       else if names r "azureml.core.compute.ComputeTarget" then Raises cluster_not_found
       else Returns VNone;
     render := fun _ => "<object>" |}.

(** ** Requests that build an environment *)

Definition path_request (file : value) : request := RCall "pathlib.Path" [file] [].
Definition read_text_request (path : value) : request := RMethod path "read_text" [] [].
Definition from_dockerfile_request (name dockerfile : value) : request :=
  RCall "azureml.core.Environment.from_dockerfile" []
    [("name", name); ("dockerfile", dockerfile)].
Definition register_request (environment workspace : value) : request :=
  RMethod environment "register" [workspace] [].

(** A workspace [ws] in which registering an environment gives its seventh
    version. *)
Definition registry_of_environments : World :=
  {| respond := fun _ r =>
       match r with
       | RCall f _ _ =>
           if String.eqb f "pathlib.Path" then Returns (VObj 1) else Returns (VObj 2)
       | RMethod _ m _ _ =>
           if String.eqb m "read_text" then Returns (VStr "FROM nvidia/cuda")
           else Returns (VObj 4)
       | RGetAttr recv a =>
           if String.eqb a "python" then Returns (VObj 3)
           else if String.eqb a "version" then Returns (VInt 7)
           else match recv with
                | VObj 4 => Returns (VStr "deepspeed-transformers")
                | _ => Returns (VStr "ws")
                end
       | _ => Returns VNone
       end;
     render := fun _ => "<object>" |}.

(** ** Reading a status *)




(** ** Requests that attach tags *)

Definition set_tags_request (run tags : value) : request :=
  RMethod run "set_tags" [tags] [].

Definition datastore_path_request (datastore data_dir : value) : request :=
  RMethod datastore "path" [data_dir] [].

Definition from_files_request (path : value) : request :=
  RCall "azureml.core.Dataset.File.from_files" [path] [].

(** [amldataset.register(workspace, name, description, tags, True)] with the
    name, the description and the tags the notebook makes of the settings. *)
Definition register_dataset_request {W : World}
    (files workspace task model : value) : request :=
  RMethod files "register"
    [workspace; task;
     VStr ("Glue dataset for " +:+ py_str task +:+ ", tokenized for " +:+ py_str model);
     VDict [("task", task); ("model", model)];
     VBool true] [].

(** * Properties *)

(** ** Built-in operations *)

Example split_registry_id :
  split "/" "/subscriptions/s/registries/acr42" = [""; "subscriptions"; "s"; "registries"; "acr42"].
Proof. reflexivity. Qed.

Example split_long_separator : split "::" "a::b:c::" = ["a"; "b:c"; ""].
Proof. reflexivity. Qed.

Example decimal_examples : decimal 3 = "3" /\ decimal 16 = "16" /\ decimal 0 = "0" /\ decimal (-7) = "-7".
Proof. repeat split; reflexivity. Qed.

Lemma requests_snoc_req t r o : requests (t ++ [EReq r o]) = (requests t ++ [r])%list.
Proof. unfold requests. by rewrite omap_app. Qed.

Lemma requests_snoc_print t s : requests (t ++ [EPrint s]) = requests t.
Proof. unfold requests. rewrite omap_app. cbn. by rewrite app_nil_r. Qed.

Lemma printed_snoc_req t r o : printed (t ++ [EReq r o]) = printed t.
Proof. unfold printed. rewrite omap_app. cbn. by rewrite app_nil_r. Qed.

Lemma printed_snoc_print t s : printed (t ++ [EPrint s]) = (printed t ++ [s])%list.
Proof. unfold printed. by rewrite omap_app. Qed.

(** ** Invariants of the kernel *)

Section Keeps.
Context {W : World}.
Variable may_wait : bool.
Local Abbreviation I := (inv may_wait).

Lemma inv_fresh : I fresh.
Proof.
  split; [apply map_empty_subseteq | by split].
Qed.

Lemma keeps_ret {A} (a : A) : keeps I (ret a).
Proof. by intros k Hk. Qed.

Lemma keeps_raise {A} (e : exn) : keeps I (@raise A e).
Proof. by intros k Hk. Qed.

Lemma keeps_bind {A B} (m : py A) (f : A -> py B) :
  keeps I m -> (forall a, keeps I (f a)) -> keeps I (bind m f).
Proof.
  intros Hm Hf k Hk. unfold bind. specialize (Hm k Hk).
  destruct (m k) as [[a|e] k1]; cbn in *; [by apply Hf | done].
Qed.

Lemma keeps_load x : keeps I (load x).
Proof. intros k Hk. unfold load. by destruct (globals k !! x). Qed.

Lemma keeps_store x v : String.eqb x hidden = false -> keeps I (store x v).
Proof.
  intros Hx k (Hi & Hh & Ht). repeat split; cbn; [done | | done].
  rewrite lookup_insert_ne; [done |]. intros ->. by rewrite String.eqb_refl in Hx.
Qed.

Lemma keeps_print s : keeps I (print s).
Proof.
  intros k (Hi & Hh & Ht). repeat split; cbn; [done | done |].
  by rewrite requests_snoc_print.
Qed.

Lemma keeps_ask r : orderly may_wait r = true -> keeps I (ask r).
Proof.
  intros Hr k (Hi & Hh & Ht). repeat split; cbn; [done | done |].
  rewrite requests_snoc_req, forallb_app, Ht. cbn. by rewrite Hr.
Qed.

Lemma keeps_import m x q :
  orderly may_wait (RImport m) = true -> import_table !! x = Some q ->
  keeps I (import_ m x q).
Proof.
  intros Hm Hq. apply keeps_bind; [by apply keeps_ask |].
  intros _ k (Hi & Hh & Ht). repeat split; cbn; [| done | done].
  by apply insert_subseteq_l.
Qed.

(** A qualified name is one of the table's, whatever the kernel went through. *)
Lemma keeps_ext_bind {B} x attrs (f : string -> py B) :
  (forall q, import_table !! x = Some q -> keeps I (f (String.concat "." (q :: attrs)))) ->
  keeps I (bind (ext x attrs) f).
Proof.
  intros Hf k Hk. unfold bind, ext.
  destruct (imported k !! x) as [q|] eqn:E; cbn; [| done].
  apply Hf; [| done]. destruct Hk as (Hi & _). by eapply lookup_weaken.
Qed.

Lemma keeps_ext x attrs : keeps I (ext x attrs).
Proof. intros k Hk. unfold ext. by destruct (imported k !! x). Qed.

Lemma keeps_call f args kw :
  orderly may_wait (RCall f args kw) = true -> keeps I (call f args kw).
Proof. apply keeps_ask. Qed.

Lemma keeps_invoke v args kw : keeps I (invoke v args kw).
Proof. destruct v; first [by apply keeps_ask | apply keeps_raise]. Qed.

Lemma keeps_getattr v a : keeps I (getattr v a).
Proof. destruct v; first [by apply keeps_ask | apply keeps_raise]. Qed.

Lemma keeps_setattr v a x : keeps I (setattr v a x).
Proof.
  destruct v; try apply keeps_raise.
  apply keeps_bind; [by apply keeps_ask | intros; apply keeps_ret].
Qed.

Lemma keeps_subscript v key : keeps I (subscript v key).
Proof.
  destruct v, key; cbn;
    repeat case_match; first [apply keeps_ret | apply keeps_raise | by apply keeps_ask].
Qed.

Lemma keeps_call_method recv m args kw :
  (negb (String.prefix "wait" m) || may_wait) = true ->
  keeps I (call_method recv m args kw).
Proof.
  intros Hm. destruct recv; cbn;
    repeat case_match; try first [apply keeps_ret | apply keeps_raise].
  apply keeps_ask. unfold orderly. by cbn.
Qed.

Lemma keeps_py_add a b : keeps I (py_add a b).
Proof. destruct a, b; first [apply keeps_ret | apply keeps_raise]. Qed.

Lemma keeps_format_spec v spec : keeps I (format_spec v spec).
Proof.
  apply keeps_bind; [by apply keeps_ask |].
  intros r. destruct r; first [apply keeps_ret | apply keeps_raise].
Qed.

Lemma keeps_unpack v : keeps I (unpack v).
Proof. destruct v; first [apply keeps_ret | apply keeps_raise]. Qed.

Lemma keeps_config_at key : keeps I (config_at key).
Proof. apply keeps_bind; [apply keeps_load | intros; apply keeps_subscript]. Qed.

Lemma keeps_try_except {A} (body : py A) cls handler :
  keeps I body -> keeps I cls -> keeps I handler -> keeps I (try_except body cls handler).
Proof.
  intros Hb Hc Hh k Hk. unfold try_except. specialize (Hb k Hk).
  destruct (body k) as [[a|e] k1]; cbn in *; [done |].
  specialize (Hc k1 Hb). destruct (cls k1) as [[c|e'] k2]; cbn in *; [| done].
  destruct (isinstance e c); [by apply Hh | done].
Qed.

Lemma keeps_with_as ctx x body :
  String.eqb x hidden = false ->
  keeps I ctx -> keeps I body -> keeps I (with_as ctx x body).
Proof.
  intros Hx Hc Hb. unfold with_as.
  apply keeps_bind; [done | intros mgr].
  apply keeps_bind; [by apply keeps_call_method | intros v].
  apply keeps_bind; [by apply keeps_store | intros _].
  intros k Hk. specialize (Hb k Hk).
  destruct (body k) as [[u|e] k1]; cbn in Hb.
  - revert k1 Hb. apply keeps_bind; [by apply keeps_call_method | intros; apply keeps_ret].
  - revert k1 Hb. apply keeps_bind; [by apply keeps_call_method |].
    intros s. destruct (truthy s); [apply keeps_ret | apply keeps_raise].
Qed.

Lemma keeps_for_items x xs body :
  String.eqb x hidden = false -> keeps I body -> keeps I (for_items x xs body).
Proof.
  intros Hx Hb. induction xs as [|v xs IH]; cbn; [apply keeps_ret |].
  apply keeps_bind; [by apply keeps_store | intros _].
  apply keeps_bind; [done | by intros _].
Qed.

Lemma keeps_items_of v : keeps I (items_of v).
Proof.
  destruct v; cbn; try first [apply keeps_ret | apply keeps_raise].
  apply keeps_bind; [by apply keeps_ask |].
  intros r. destruct r; first [apply keeps_ret | apply keeps_raise].
Qed.

Lemma keeps_for_each x it body :
  String.eqb x hidden = false -> keeps I it -> keeps I body ->
  keeps I (for_each x it body).
Proof.
  intros Hx Hi Hb. apply keeps_bind; [done | intros v].
  apply keeps_bind; [apply keeps_items_of | intros xs]. by apply keeps_for_items.
Qed.

Lemma keeps_run_all (cells : notebook) :
  Forall (keeps I) cells -> keeps I (run_all cells).
Proof.
  induction 1 as [|c cells Hc _ IH]; cbn; [apply keeps_ret |].
  apply keeps_bind; [done | by intros _].
Qed.

(** An invariant of every cell holds throughout every session. *)
Lemma session_inv (nb : notebook) k :
  Forall (keeps I) nb -> session nb k -> I k.
Proof.
  intros Hnb. induction 1 as [|c k Hs IH Hin]; [apply inv_fresh |].
  rewrite Forall_forall in Hnb. apply (Hnb c); [by apply list_elem_of_In | done].
Qed.
End Keeps.

Ltac head_of t :=
  lazymatch t with
  | ?f _ => head_of f
  | _ => t
  end.

Ltac keep_step :=
  lazymatch goal with
  | |- keeps _ (bind (ext _ _) _) =>
      let q := fresh "q" in
      let Hq := fresh "Hq" in
      apply keeps_ext_bind; intros q Hq; vm_compute in Hq; injection Hq as <-
  | |- keeps _ (bind _ _) => apply keeps_bind; [ | intros ? ]
  | |- keeps _ (ret _) => apply keeps_ret
  | |- keeps _ (raise _) => apply keeps_raise
  | |- keeps _ (load _) => apply keeps_load
  | |- keeps _ (print _) => apply keeps_print
  | |- keeps _ (store _ _) => apply keeps_store; reflexivity
  | |- keeps _ (import_ _ _ _) => apply keeps_import; reflexivity
  | |- keeps _ (config_at _) => apply keeps_config_at
  | |- keeps _ (call _ _ _) => apply keeps_call; reflexivity
  | |- keeps _ (call_method _ _ _ _) => apply keeps_call_method; reflexivity
  | |- keeps _ (invoke _ _ _) => apply keeps_invoke
  | |- keeps _ (getattr _ _) => apply keeps_getattr
  | |- keeps _ (setattr _ _ _) => apply keeps_setattr
  | |- keeps _ (subscript _ _) => apply keeps_subscript
  | |- keeps _ (py_add _ _) => apply keeps_py_add
  | |- keeps _ (format_spec _ _) => apply keeps_format_spec
  | |- keeps _ (unpack _) => apply keeps_unpack
  | |- keeps _ (ext _ _) => apply keeps_ext
  | |- keeps _ (for_each _ _ _) => apply keeps_for_each; [reflexivity | | ]
  | |- keeps _ (with_as _ _ _) => apply keeps_with_as; [reflexivity | | ]
  | |- keeps _ (try_except _ _ _) => apply keeps_try_except
  | |- keeps _ ?m => let h := head_of m in unfold h
  end.

Ltac keep := repeat keep_step.

Ltac each_cell :=
  repeat lazymatch goal with
         | |- Forall _ (_ :: _) => apply List.Forall_cons
         | |- Forall _ [] => apply List.Forall_nil
         end.

Section NotebooksKeep.
Context {W : World}.

Lemma create_compute_keeps : Forall (keeps (inv true)) CreateCompute.cells.
Proof. unfold CreateCompute.cells. each_cell; keep. Qed.

Lemma prepare_environment_keeps :
  Forall (keeps (inv false)) PrepareEnvironment.cells_amltmp.
Proof.
  unfold PrepareEnvironment.cells_amltmp, PrepareEnvironment.cells. cbn [app].
  each_cell; keep.
Qed.

Lemma prepare_data_keeps : Forall (keeps (inv false)) PrepareData.cells.
Proof. unfold PrepareData.cells. each_cell; keep. Qed.

Lemma train_model_keeps :
  Forall (keeps (inv false)) (TrainModel.cells ++ TrainModel.cells_original).
Proof.
  unfold TrainModel.cells, TrainModel.cells_original. cbn [app].
  each_cell; keep.
Qed.
End NotebooksKeep.

(** ** Failures are not handled *)

Section StopsOnFailure.
Context {W : World}.

Lemma stops_silent {A} (m : py A) :
  (forall k, trace (snd (m k)) = trace k) ->
  stops_on_failure m.
Proof.
  intros Hm k. exists []. rewrite app_nil_r. split; [apply Hm |].
  unfold fail_stop. destruct (fst (m k)); [done | by left].
Qed.

Lemma stops_ret {A} (a : A) : stops_on_failure (ret a).
Proof. by apply stops_silent. Qed.

Lemma stops_raise {A} (e : exn) : stops_on_failure (@raise A e).
Proof. by apply stops_silent. Qed.

Lemma stops_load x : stops_on_failure (load x).
Proof. apply stops_silent. intros k. unfold load. by destruct (globals k !! x). Qed.

Lemma stops_store x v : stops_on_failure (store x v).
Proof. by apply stops_silent. Qed.

Lemma stops_ext x attrs : stops_on_failure (ext x attrs).
Proof. apply stops_silent. intros k. unfold ext. by destruct (imported k !! x). Qed.

Lemma stops_print s : stops_on_failure (print s).
Proof. intros k. exists [EPrint s]. by split. Qed.

Lemma stops_ask r : stops_on_failure (ask r).
Proof.
  intros k. exists [EReq r (respond (trace k) r)]. split; [done |].
  unfold ask. cbn. destruct (respond (trace k) r) as [v|e]; cbn; [done |].
  right. by exists [], r.
Qed.

Lemma stops_bind {A B} (m : py A) (f : A -> py B) :
  stops_on_failure m -> (forall a, stops_on_failure (f a)) -> stops_on_failure (bind m f).
Proof.
  intros Hm Hf k. destruct (Hm k) as (new1 & Ht1 & Hr1). unfold bind.
  destruct (m k) as [[a|e] k1]; cbn in *; [| by exists new1].
  destruct (Hf a k1) as (new2 & Ht2 & Hr2).
  exists (new1 ++ new2)%list. rewrite Ht2, Ht1, app_assoc. split; [done |].
  destruct (fst (f a k1)) as [b|e]; cbn in *.
  - by rewrite existsb_app, Hr1, Hr2.
  - destruct Hr2 as [Hr2 | (before & r & -> & Hb)].
    + left. by rewrite existsb_app, Hr1, Hr2.
    + right. exists (new1 ++ before)%list, r. rewrite app_assoc. split; [done |].
      by rewrite existsb_app, Hr1, Hb.
Qed.

Lemma stops_import m x q : stops_on_failure (import_ m x q).
Proof. apply stops_bind; [apply stops_ask | intros _; by apply stops_silent]. Qed.

Lemma stops_call f args kw : stops_on_failure (call f args kw).
Proof. apply stops_ask. Qed.

Lemma stops_invoke v args kw : stops_on_failure (invoke v args kw).
Proof. destruct v; first [apply stops_ask | apply stops_raise]. Qed.

Lemma stops_getattr v a : stops_on_failure (getattr v a).
Proof. destruct v; first [apply stops_ask | apply stops_raise]. Qed.

Lemma stops_setattr v a x : stops_on_failure (setattr v a x).
Proof.
  destruct v; try apply stops_raise.
  apply stops_bind; [apply stops_ask | intros; apply stops_ret].
Qed.

Lemma stops_subscript v key : stops_on_failure (subscript v key).
Proof.
  destruct v, key; cbn;
    repeat case_match; first [apply stops_ret | apply stops_raise | apply stops_ask].
Qed.

Lemma stops_call_method recv m args kw : stops_on_failure (call_method recv m args kw).
Proof.
  destruct recv; cbn;
    repeat case_match; first [apply stops_ret | apply stops_raise | apply stops_ask].
Qed.

Lemma stops_py_add a b : stops_on_failure (py_add a b).
Proof. destruct a, b; first [apply stops_ret | apply stops_raise]. Qed.

Lemma stops_format_spec v spec : stops_on_failure (format_spec v spec).
Proof.
  apply stops_bind; [apply stops_ask |].
  intros r. destruct r; first [apply stops_ret | apply stops_raise].
Qed.

Lemma stops_unpack v : stops_on_failure (unpack v).
Proof. destruct v; first [apply stops_ret | apply stops_raise]. Qed.

Lemma stops_config_at key : stops_on_failure (config_at key).
Proof. apply stops_bind; [apply stops_load | intros; apply stops_subscript]. Qed.

Lemma stops_items_of v : stops_on_failure (items_of v).
Proof.
  destruct v; cbn; try first [apply stops_ret | apply stops_raise].
  apply stops_bind; [apply stops_ask |].
  intros r. destruct r; first [apply stops_ret | apply stops_raise].
Qed.

Lemma stops_for_items x xs body :
  stops_on_failure body -> stops_on_failure (for_items x xs body).
Proof.
  intros Hb. induction xs as [|v xs IH]; cbn; [apply stops_ret |].
  apply stops_bind; [apply stops_store | intros _].
  apply stops_bind; [done | by intros _].
Qed.

Lemma stops_for_each x it body :
  stops_on_failure it -> stops_on_failure body -> stops_on_failure (for_each x it body).
Proof.
  intros Hi Hb. apply stops_bind; [done | intros v].
  apply stops_bind; [apply stops_items_of | intros xs]. by apply stops_for_items.
Qed.
End StopsOnFailure.

Ltac stop_step :=
  lazymatch goal with
  | |- stops_on_failure (bind _ _) => apply stops_bind; [ | intros ? ]
  | |- stops_on_failure (ret _) => apply stops_ret
  | |- stops_on_failure (raise _) => apply stops_raise
  | |- stops_on_failure (load _) => apply stops_load
  | |- stops_on_failure (print _) => apply stops_print
  | |- stops_on_failure (store _ _) => apply stops_store
  | |- stops_on_failure (import_ _ _ _) => apply stops_import
  | |- stops_on_failure (config_at _) => apply stops_config_at
  | |- stops_on_failure (call _ _ _) => apply stops_call
  | |- stops_on_failure (call_method _ _ _ _) => apply stops_call_method
  | |- stops_on_failure (invoke _ _ _) => apply stops_invoke
  | |- stops_on_failure (getattr _ _) => apply stops_getattr
  | |- stops_on_failure (setattr _ _ _) => apply stops_setattr
  | |- stops_on_failure (subscript _ _) => apply stops_subscript
  | |- stops_on_failure (py_add _ _) => apply stops_py_add
  | |- stops_on_failure (format_spec _ _) => apply stops_format_spec
  | |- stops_on_failure (unpack _) => apply stops_unpack
  | |- stops_on_failure (ext _ _) => apply stops_ext
  | |- stops_on_failure (for_each _ _ _) => apply stops_for_each
  | |- stops_on_failure ?m => let h := head_of m in unfold h
  end.

Ltac stop := repeat stop_step.

Section NotebooksStop.
Context {W : World}.

(** Every cell of the environment notebook after the one that reads the
    settings. *)
Lemma prepare_environment_stops :
  Forall stops_on_failure (tail PrepareEnvironment.cells).
Proof. unfold PrepareEnvironment.cells. cbn [tail]. each_cell; stop. Qed.

(** Every cell of the training notebook, in both copies, from the one that
    connects to the workspace on. *)
Lemma train_model_stops :
  Forall stops_on_failure (drop 2 TrainModel.cells ++ drop 2 TrainModel.cells_original).
Proof.
  unfold TrainModel.cells, TrainModel.cells_original. cbn [drop app]. each_cell; stop.
Qed.
End NotebooksStop.

(** ** Running a cell on a kernel that is only partly known *)

Lemma since_app t new : since (length t) (t ++ new) = new.
Proof. unfold since. by rewrite drop_app_length. Qed.

Lemma since_all t : since (length t) t = [].
Proof. unfold since. apply drop_all. Qed.

Lemma isinstance_spec e cls : isinstance e cls = true <-> e = Raised cls.
Proof.
  destruct e; cbn; try (split; [discriminate | congruence]).
  rewrite String.eqb_eq. split; congruence.
Qed.

Lemma ask_eq {W : World} (r : request) (k : kernel) :
  ask r k
  = (match respond (trace k) r with Returns v => Ok v | Raises e => Err e end,
     Kernel (globals k) (imported k) (trace k ++ [EReq r (respond (trace k) r)])).
Proof. reflexivity. Qed.

Lemma run_all_cons (c : py unit) (rest : notebook) (k : kernel) :
  run_all (c :: rest) k
  = match c k with
    | (Ok _, k') => run_all rest k'
    | (Err e, k') => (Err e, k')
    end.
Proof. reflexivity. Qed.

Lemma lookup_store_same {A} (m : gmap string A) (x : string) (v : A) :
  <[x:=v]> m !! x = Some v.
Proof. apply lookup_insert_eq. Qed.

Lemma lookup_store_other {A} (m : gmap string A) (x y : string) (v : A) :
  String.eqb x y = false -> <[x:=v]> m !! y = m !! y.
Proof. intros Hxy. apply lookup_insert_ne. intros ->. by rewrite String.eqb_refl in Hxy. Qed.

Lemma run_all_nil (k : kernel) : run_all [] k = (Ok tt, k).
Proof. reflexivity. Qed.

(** Everything but the requests is evaluated; a request waits for its answer. *)
Ltac unfold_py :=
  cbv beta iota zeta delta
    [bind ret raise load store ext print call invoke getattr setattr
     subscript call_method config_at try_except py_add unpack format_spec
     items_of for_each for_items with_as import_ load_config
     globals imported trace fst snd exec].

Ltac no_variable t :=
  match t with
  | context [?v] => is_var v; fail 1
  | _ => idtac
  end.

(** A dotted name whose parts are all known is written out. *)
Ltac join_names :=
  match goal with
  | |- context [String.concat ?sep ?parts] =>
      no_variable parts;
      let name := eval vm_compute in (String.concat sep parts) in
      change (String.concat sep parts) with name
  end.

Ltac use_hyp :=
  match goal with
  | H : ?lhs = _ |- context [match ?lhs with _ => _ end] => rewrite H
  end.

(** The next cell, or a block of statements a cell names, is opened only when
    the kernel it runs on is known. *)
Ltac unfold_block :=
  match goal with
  | |- context [match ?m ?k with _ => _ end] =>
      lazymatch type of k with kernel => idtac end;
      let h := head_of m in
      lazymatch h with
      | @ask => fail
      | @run_all => fail
      | _ => unfold h
      end
  end.

Ltac step_ask :=
  match goal with
  | |- context [ask ?r ?k] => rewrite (ask_eq r k)
  end.

Ltac step_lookup :=
  match goal with
  | |- context [<[?x:=?v]> ?m !! ?y] =>
      first [ constr_eq x y; rewrite (lookup_store_same m x v)
            | rewrite (lookup_store_other m x y v eq_refl) ]
  end.

Ltac step_cell :=
  match goal with
  | |- context [run_all (?c :: ?rest) ?k] => rewrite (run_all_cons c rest k)
  | |- context [run_all [] ?k] => rewrite (run_all_nil k)
  end.

Ltac run_py :=
  repeat first
    [ progress unfold_py
    | progress cbn [String.eqb Ascii.eqb Bool.eqb truthy]
    | join_names
    | step_ask
    | use_hyp
    | step_lookup
    | step_cell
    | unfold_block ].

Ltac split_response :=
  match goal with
  | |- context [match respond ?h ?r with _ => _ end] =>
      let E := fresh "E" in destruct (respond h r) eqn:E
  end.

Ltac split_value :=
  match goal with
  | |- context [match ?v with _ => _ end] =>
      is_var v;
      lazymatch type of v with
      | value => destruct v
      end
  end.

Ltac explore := repeat first [progress run_py | split_response | split_value].

Ltac tidy_trace :=
  rewrite <- ?app_assoc; cbn [app]; rewrite ?since_app, ?since_all.

Ltac split_lookup :=
  match goal with
  | |- context [match ?o with _ => _ end] =>
      lazymatch o with
      | _ !! _ => let E := fresh "E" in destruct o eqn:E
      | dict_get _ _ => let E := fresh "E" in destruct o eqn:E
      | isinstance _ _ => let E := fresh "E" in destruct o eqn:E
      end
  end.

Ltac explore_all :=
  repeat first [progress run_py | split_response | split_value | split_lookup].

(** ** Failures under Run All *)

Section RunAllStops.
Context {W : World}.

Lemma stops_run_all (cells : notebook) :
  Forall stops_on_failure cells -> stops_on_failure (run_all cells).
Proof.
  induction 1 as [|c cells Hc _ IH]; cbn [run_all]; [apply stops_ret |].
  apply stops_bind; [done | by intros _].
Qed.

(** Every cell of the data notebook after the one that reads the settings. *)
Lemma prepare_data_stops : Forall stops_on_failure (drop 2 PrepareData.cells).
Proof. unfold PrepareData.cells. cbn [drop]. each_cell; stop. Qed.
End RunAllStops.

(** ** Invariants of a session, in general *)

(** A property of the kernel that survives assignments to the names in
    [free], printing, the imports of the table and the requests in
    [allowed] survives every computation built from these. *)
Section Preserved.
Context {W : World}.
Variable P : kernel -> Prop.
Variable free : string -> bool.
Variable allowed : request -> bool.
Hypothesis P_store : forall k x v,
  free x = true -> P k -> P (Kernel (<[x:=v]> (globals k)) (imported k) (trace k)).
Hypothesis P_print : forall k s,
  P k -> P (Kernel (globals k) (imported k) (trace k ++ [EPrint s])).
Hypothesis P_request : forall k r o,
  allowed r = true -> P k -> P (Kernel (globals k) (imported k) (trace k ++ [EReq r o])).
Hypothesis P_import : forall k x q,
  import_table !! x = Some q -> P k ->
  P (Kernel (globals k) (<[x:=q]> (imported k)) (trace k)).

Lemma kept_ret {A} (a : A) : keeps P (ret a).
Proof. by intros k Hk. Qed.

Lemma kept_raise {A} (e : exn) : keeps P (@raise A e).
Proof. by intros k Hk. Qed.

Lemma kept_bind {A B} (m : py A) (f : A -> py B) :
  keeps P m -> (forall a, keeps P (f a)) -> keeps P (bind m f).
Proof.
  intros Hm Hf k Hk. unfold bind. specialize (Hm k Hk).
  destruct (m k) as [[a|e] k1]; cbn in *; [by apply Hf | done].
Qed.

Lemma kept_load x : keeps P (load x).
Proof. intros k Hk. unfold load. by destruct (globals k !! x). Qed.

Lemma kept_ext x attrs : keeps P (ext x attrs).
Proof. intros k Hk. unfold ext. by destruct (imported k !! x). Qed.

Lemma kept_store x v : free x = true -> keeps P (store x v).
Proof. intros Hx k Hk. by apply P_store. Qed.

Lemma kept_print s : keeps P (print s).
Proof. intros k Hk. by apply P_print. Qed.

Lemma kept_ask r : allowed r = true -> keeps P (ask r).
Proof. intros Hr k Hk. by apply P_request. Qed.

Lemma kept_import m x q :
  allowed (RImport m) = true -> import_table !! x = Some q -> keeps P (import_ m x q).
Proof.
  intros Hm Hq. apply kept_bind; [by apply kept_ask |].
  intros _ k Hk. by apply P_import.
Qed.

Lemma kept_invoke v args kw :
  allowed (RInvoke v args kw) = true -> keeps P (invoke v args kw).
Proof. intros Hr. destruct v; first [by apply kept_ask | apply kept_raise]. Qed.

Lemma kept_getattr v a : allowed (RGetAttr v a) = true -> keeps P (getattr v a).
Proof. intros Hr. destruct v; first [by apply kept_ask | apply kept_raise]. Qed.

Lemma kept_setattr v a x : allowed (RSetAttr v a x) = true -> keeps P (setattr v a x).
Proof.
  intros Hr. destruct v; try apply kept_raise.
  apply kept_bind; [by apply kept_ask | intros; apply kept_ret].
Qed.

Lemma kept_subscript v key :
  allowed (RMethod v "__getitem__" [key] []) = true -> keeps P (subscript v key).
Proof.
  intros Hr. destruct v, key; cbn;
    repeat case_match; first [apply kept_ret | apply kept_raise | by apply kept_ask].
Qed.

Lemma kept_call_method recv m args kw :
  allowed (RMethod recv m args kw) = true -> keeps P (call_method recv m args kw).
Proof.
  intros Hr. destruct recv; cbn;
    repeat case_match; first [apply kept_ret | apply kept_raise | by apply kept_ask].
Qed.

Lemma kept_py_add a b : keeps P (py_add a b).
Proof. destruct a, b; first [apply kept_ret | apply kept_raise]. Qed.

Lemma kept_format_spec v spec :
  allowed (RMethod v "__format__" [VStr spec] []) = true -> keeps P (format_spec v spec).
Proof.
  intros Hr. apply kept_bind; [by apply kept_ask |].
  intros r. destruct r; first [apply kept_ret | apply kept_raise].
Qed.

Lemma kept_unpack v : keeps P (unpack v).
Proof. destruct v; first [apply kept_ret | apply kept_raise]. Qed.

Lemma kept_config_at key :
  (forall v, allowed (RMethod v "__getitem__" [VStr key] []) = true) ->
  keeps P (config_at key).
Proof.
  intros Hr. apply kept_bind; [apply kept_load | intros; by apply kept_subscript].
Qed.

Lemma kept_try_except {A} (body : py A) cls handler :
  keeps P body -> keeps P cls -> keeps P handler -> keeps P (try_except body cls handler).
Proof.
  intros Hb Hc Hh k Hk. unfold try_except. specialize (Hb k Hk).
  destruct (body k) as [[a|e] k1]; cbn in *; [done |].
  specialize (Hc k1 Hb). destruct (cls k1) as [[c|e'] k2]; cbn in *; [| done].
  destruct (isinstance e c); [by apply Hh | done].
Qed.

Lemma kept_with_as ctx x body :
  free x = true ->
  (forall mgr args, allowed (RMethod mgr "__enter__" args []) = true) ->
  (forall mgr args, allowed (RMethod mgr "__exit__" args []) = true) ->
  keeps P ctx -> keeps P body -> keeps P (with_as ctx x body).
Proof.
  intros Hx Henter Hexit Hc Hb. unfold with_as.
  apply kept_bind; [done | intros mgr].
  apply kept_bind; [by apply kept_call_method | intros v].
  apply kept_bind; [by apply kept_store | intros _].
  intros k Hk. specialize (Hb k Hk).
  destruct (body k) as [[u|e] k1]; cbn in Hb.
  - revert k1 Hb. apply kept_bind; [by apply kept_call_method | intros; apply kept_ret].
  - revert k1 Hb. apply kept_bind; [by apply kept_call_method |].
    intros s. destruct (truthy s); [apply kept_ret | apply kept_raise].
Qed.

Lemma kept_items_of v :
  allowed (RMethod v "__iter__" [] []) = true -> keeps P (items_of v).
Proof.
  intros Hr. destruct v; cbn; try first [apply kept_ret | apply kept_raise].
  apply kept_bind; [by apply kept_ask |].
  intros r. destruct r; first [apply kept_ret | apply kept_raise].
Qed.

Lemma kept_for_items x xs body :
  free x = true -> keeps P body -> keeps P (for_items x xs body).
Proof.
  intros Hx Hb. induction xs as [|v xs IH]; cbn; [apply kept_ret |].
  apply kept_bind; [by apply kept_store | intros _].
  apply kept_bind; [done | by intros _].
Qed.

Lemma kept_for_each x it body :
  free x = true ->
  (forall v, allowed (RMethod v "__iter__" [] []) = true) ->
  keeps P it -> keeps P body -> keeps P (for_each x it body).
Proof.
  intros Hx Hr Hi Hb. apply kept_bind; [done | intros v].
  apply kept_bind; [by apply kept_items_of | intros xs]. by apply kept_for_items.
Qed.

Lemma kept_run_all (cells : notebook) :
  Forall (keeps P) cells -> keeps P (run_all cells).
Proof.
  induction 1 as [|c cells Hc _ IH]; cbn [run_all]; [apply kept_ret |].
  apply kept_bind; [done | by intros _].
Qed.

(** What every cell keeps and a fresh kernel has, holds throughout every
    session. *)
Lemma session_kept (nb : notebook) k :
  P fresh -> Forall (keeps P) nb -> session nb k -> P k.
Proof.
  intros Hf Hnb. induction 1 as [|c k Hs IH Hin]; [done |].
  rewrite Forall_forall in Hnb. apply (Hnb c); [by apply list_elem_of_In | done].
Qed.
End Preserved.

(** The side conditions are found among the hypotheses or computed. *)
Ltac side := first [eassumption | reflexivity | intros; reflexivity].

Ltac preserve_step :=
  lazymatch goal with
  | |- keeps _ load_config => first [eassumption | unfold load_config]
  | |- keeps _ (bind _ _) => apply kept_bind; [ | intros ? ]
  | |- keeps _ (ret _) => apply kept_ret
  | |- keeps _ (raise _) => apply kept_raise
  | |- keeps _ (load _) => apply kept_load
  | |- keeps _ (ext _ _) => apply kept_ext
  | |- keeps _ (py_add _ _) => apply kept_py_add
  | |- keeps _ (unpack _) => apply kept_unpack
  | |- keeps _ (print _) => eapply kept_print; side
  | |- keeps _ (store _ _) => eapply kept_store; side
  | |- keeps _ (import_ _ _ _) => eapply kept_import; side
  | |- keeps _ (config_at _) => eapply kept_config_at; side
  | |- keeps _ (call _ _ _) => eapply kept_ask; side
  | |- keeps _ (call_method _ _ _ _) => eapply kept_call_method; side
  | |- keeps _ (invoke _ _ _) => eapply kept_invoke; side
  | |- keeps _ (getattr _ _) => eapply kept_getattr; side
  | |- keeps _ (setattr _ _ _) => eapply kept_setattr; side
  | |- keeps _ (subscript _ _) => eapply kept_subscript; side
  | |- keeps _ (format_spec _ _) => eapply kept_format_spec; side
  | |- keeps _ (for_each _ _ _) =>
      eapply kept_for_each;
      [side .. | | ]
  | |- keeps _ (with_as _ _ _) =>
      eapply kept_with_as;
      [side .. | | ]
  | |- keeps _ (try_except _ _ _) => apply kept_try_except
  | |- keeps _ ?m => let h := head_of m in unfold h
  end.

Ltac preserve := repeat preserve_step.

(** ** Notebook 01: find the cluster or create it *)

Section FindOrCreate.
Context {W : World}.
Variables (g : gmap string value) (im : gmap string string) (t : list event).
Variables (workspace name vm_size max_nodes : value).
Variable settings : list (string * value).
Hypothesis Hazureml : im !! "azureml" = Some "azureml".
Hypothesis Hworkspace : g !! "workspace" = Some workspace.
Hypothesis Hconfig : g !! "config" = Some (VDict settings).
Hypothesis Hname : dict_get settings "compute_target" = Some name.
Hypothesis Hsize : dict_get settings "compute_size" = Some vm_size.
Hypothesis Hcount : dict_get settings "compute_node_count" = Some max_nodes.

Let k := Kernel g im t.
Let k' := exec CreateCompute.find_or_create_cluster k.
Let new := since (length t) (trace k').

Ltac open_cell :=
  subst new k' k;
  unfold CreateCompute.find_or_create_cluster, CreateCompute.find_cluster,
    CreateCompute.create_cluster, lookup_request, configure_request,
    create_request, wait_request, cluster_not_found in *.

Lemma cluster_found c :
  respond t (lookup_request workspace name) = Returns c ->
  globals k' !! "cluster" = Some c /\
  existsb provisions (requests new) = false /\
  printed new = ["Found existing compute cluster"] /\
  forall h, c = VObj h -> last (requests new) = Some (wait_request c).
Proof.
  intros Hc. open_cell. run_py. destruct c; explore; tidy_trace.
  all: (split; [done |]); (split; [reflexivity |]); (split; [reflexivity |]).
  all: intros h' [=]; subst; reflexivity.
Qed.

Lemma cluster_missing :
  respond t (lookup_request workspace name) = Raises cluster_not_found ->
  exists o rest,
    new = EReq (lookup_request workspace name) (Raises cluster_not_found)
          :: EReq (configure_request vm_size max_nodes) o :: rest /\
    forall compute_config, o = Returns compute_config ->
      exists o' rest',
        rest = EReq (create_request workspace name compute_config) o' :: rest' /\
        forall c, o' = Returns c -> globals k' !! "cluster" = Some c.
Proof.
  intros Hc. open_cell. run_py. cbn [isinstance]. explore.
  all: tidy_trace.
  all: do 2 eexists; (split; [reflexivity |]); intros pc Hpc;
    first [discriminate Hpc | injection Hpc as <-].
  all: do 2 eexists; (split; [reflexivity |]); intros c' Hc';
    first [discriminate Hc' | injection Hc' as <-]; done.
Qed.

Lemma cluster_lookup_fails e :
  respond t (lookup_request workspace name) = Raises e ->
  isinstance e "azureml.core.compute_target.ComputeTargetException" = false ->
  new = [EReq (lookup_request workspace name) (Raises e)] /\
  fst (CreateCompute.find_or_create_cluster k) = Err e.
Proof.
  intros Hc Hne. open_cell. run_py. by tidy_trace.
Qed.

Lemma provisions_iff_missing :
  existsb provisions (requests new) = true <->
  respond t (lookup_request workspace name) = Raises cluster_not_found.
Proof.
  destruct (respond t (lookup_request workspace name)) as [c | e] eqn:Hl.
  - destruct (cluster_found c Hl) as (_ & -> & _). split; discriminate.
  - destruct (isinstance e "azureml.core.compute_target.ComputeTargetException") eqn:He.
    + apply isinstance_spec in He as ->.
      destruct (cluster_missing Hl) as (o & rest & -> & _). by cbn.
    + destruct (cluster_lookup_fails e Hl He) as [-> _]. cbn.
      split; [discriminate |]. intros [= ->]. discriminate He.
Qed.
End FindOrCreate.

(** C1: the compute-setup cell provisions a cluster exactly when looking up
    [config['compute_target']] raises [ComputeTargetException]; it then asks
    for a provisioning configuration with [vm_size = config['compute_size']]
    and [max_nodes = config['compute_node_count']] and creates the cluster
    under the same name with it; when the lookup succeeds no provisioning
    request is made, and the cluster found is the one bound and waited for. *)
Theorem cluster_provisioned_iff_lookup_fails {W : World} (k : kernel)
    (workspace name vm_size max_nodes : value) (settings : list (string * value)) :
  imported k !! "azureml" = Some "azureml" ->
  globals k !! "workspace" = Some workspace ->
  globals k !! "config" = Some (VDict settings) ->
  dict_get settings "compute_target" = Some name ->
  dict_get settings "compute_size" = Some vm_size ->
  dict_get settings "compute_node_count" = Some max_nodes ->
  let k' := exec CreateCompute.find_or_create_cluster k in
  let new := since (length (trace k)) (trace k') in
  let lookup := lookup_request workspace name in
  (existsb provisions (requests new) = true <->
   respond (trace k) lookup = Raises cluster_not_found) /\
  (respond (trace k) lookup = Raises cluster_not_found ->
   exists o rest,
     new = EReq lookup (Raises cluster_not_found)
           :: EReq (configure_request vm_size max_nodes) o :: rest /\
     forall compute_config, o = Returns compute_config ->
       exists o' rest',
         rest = EReq (create_request workspace name compute_config) o' :: rest' /\
         forall c, o' = Returns c -> globals k' !! "cluster" = Some c) /\
  (forall c, respond (trace k) lookup = Returns c ->
     globals k' !! "cluster" = Some c /\
     existsb provisions (requests new) = false /\
     printed new = ["Found existing compute cluster"] /\
     forall h, c = VObj h -> last (requests new) = Some (wait_request c)).
Proof.
  destruct k as [g im t]. cbn [globals imported trace].
  intros Hazureml Hworkspace Hconfig Hname Hsize Hcount.
  split; [| split].
  - by eapply provisions_iff_missing.
  - by eapply cluster_missing.
  - intros c. by eapply cluster_found.
Qed.

Lemma cluster_provisioned_iff_lookup_fails_witness :
  let W := without_cluster in
  let k := exec CreateCompute.connect_workspace
             (exec CreateCompute.read_settings
                (exec CreateCompute.check_requirements fresh)) in
  existsb provisions
    (requests (since (length (trace k))
                 (trace (exec CreateCompute.find_or_create_cluster k))))
  = true.
Proof.
  intros W k.
  apply (proj1 (cluster_provisioned_iff_lookup_fails (W := W) k
                  (VObj 8) (VStr "gpu-K80-1") (VStr "STANDARD_NC4AS_T4_V3") (VInt 2)
                  match config_yml with VDict entries => entries | _ => [] end
                  eq_refl eq_refl eq_refl eq_refl eq_refl eq_refl)).
  reflexivity.
Defined.

(** ** The two configuration files *)

(** C2, as stated, fails: the settings document has top-level keys outside the
    recognized list, [val_key] for one. *)
Lemma config_yml_unrecognized_key :
  ~ (forall key, In key (keys config_yml) -> In key recognized_keys).
Proof.
  intros H. specialize (H "val_key").
  assert (Hin : In "val_key" (keys config_yml)) by (cbn; tauto).
  apply H in Hin. cbn in Hin.
  repeat (destruct Hin as [Hin | Hin]; [discriminate Hin |]). exact Hin.
Qed.

(** C2, amended: [src/config.yml] holds every recognized key,
    [pytorch_configuration] gives the node and process counts and
    [training_args] the epoch count, the batch size and the evaluation
    strategy; its top-level keys outside the recognized list are exactly
    [task_dataset_version], [description], [val_key] and [model_output_dir]. *)
Theorem config_yml_keys :
  (forall key, In key recognized_keys -> In key (keys config_yml)) /\
  at_path ["pytorch_configuration"; "node_count"] config_yml = Some (VInt 2) /\
  at_path ["pytorch_configuration"; "process_count"] config_yml = Some (VInt 2) /\
  at_path ["training_args"; "num_train_epochs"] config_yml = Some (VInt 3) /\
  at_path ["training_args"; "per_device_train_batch_size"] config_yml = Some (VInt 16) /\
  at_path ["training_args"; "evaluation_strategy"] config_yml = Some (VStr "epoch") /\
  filter (fun key => negb (mem key recognized_keys)) (keys config_yml)
    = ["task_dataset_version"; "description"; "val_key"; "model_output_dir"].
Proof.
  split; [| repeat split; reflexivity].
  intros key Hin. cbn in Hin.
  repeat (destruct Hin as [<- | Hin]; [cbn; tauto |]). destruct Hin.
Qed.

(** C5: the accelerator file names an optimizer type and learning rate, a
    gradient-partitioning stage, a communication-overlap flag and an [fp16]
    section; the settings document refers to that file by name only, as the
    [deepspeed] entry of the arguments meant for the training script, and with
    the shipped settings no cell of any notebook asks a library for anything
    that names the file. *)
Theorem deepspeed_config_fields :
  json_at ["optimizer"; "type"] deepspeed_config_json = Some (JStr "AdamW") /\
  json_at ["optimizer"; "params"; "lr"] deepspeed_config_json = Some (JNum 5 (-5)) /\
  json_at ["zero_optimization"; "stage"] deepspeed_config_json = Some (JNum 2 0) /\
  json_at ["zero_optimization"; "overlap_comm"] deepspeed_config_json = Some (JBool true) /\
  (is_object <$> json_at ["fp16"] deepspeed_config_json) = Some true /\
  json_at ["fp16"; "enabled"] deepspeed_config_json = Some (JBool false) /\
  at_path ["training_args"; "deepspeed"] config_yml = Some (VStr "deepspeed_config.json") /\
  let W := obliging in
  forallb
    (fun cells =>
       negb (existsb (request_mentions "deepspeed_config")
               (requests (trace (run_each cells fresh)))))
    [CreateCompute.cells; PrepareEnvironment.cells_amltmp; PrepareData.cells;
     TrainModel.cells; TrainModel.cells_original]
  = true.
Proof. repeat split; vm_compute; reflexivity. Qed.

(** ** Notebook 03: what is done to the dataset *)

(** The next request is answered as the hypotheses on the libraries say:
    with the settings, with an object, or with some value. *)
Ltac answer Hload Hobj Hret :=
  first
    [ rewrite Hload
    | match goal with
      | |- context [match respond ?h ?r with _ => _ end] =>
          let n := fresh "n" in
          let E := fresh "E" in
          first [ destruct (Hobj h r eq_refl) as [n E]
                | destruct (Hret h r) as [n E] ];
          rewrite E; clear E
      end ].

(** C3: run from top to bottom in a world where the libraries answer, the data
    notebook completes, and what happens is, in this order and with nothing
    else: the imports and the reading of the settings; the download of the
    GLUE dataset named by [config['task']]; the loading of the tokenizer for
    [config['model']]; one [map] of [tokenizer_function] in batches over the
    dataset that was downloaded; [save_to_disk] at [config['data_dir']] of
    the dataset the mapping returned; the connection to the workspace and
    its default datastore; the upload of that directory to it; and the
    registration, under the task's name, of the files found at that path of
    the datastore.  From that cell on [data] is the tokenized dataset, and
    what [tokenizer_function] does to a batch is one call of the tokenizer
    that was loaded, on the batch's sentences, with [padding="max_length"]
    and [truncation=True]. *)
Theorem prepare_data_operations {W : World}
    (settings : list (string * value)) (task model data_dir : value) :
  dict_get settings "task" = Some task ->
  dict_get settings "model" = Some model ->
  dict_get settings "data_dir" = Some data_dir ->
  (forall h args kw, respond h (RCall "yaml.safe_load" args kw) = Returns (VDict settings)) ->
  (forall h r, names_one_of receivers_of_prepare_data r = true ->
     exists n, respond h r = Returns (VObj n)) ->
  (forall h r, exists v, respond h r = Returns v) ->
  fst (run_all PrepareData.cells fresh) = Ok tt /\
  exists yaml azureml datasets transformers file stream closed data tokenizer tokenized
         saved workspace datastore uploaded path files registered version,
    trace (exec (run_all PrepareData.cells) fresh)
    = prepare_data_events settings task model data_dir
        yaml azureml datasets transformers file stream closed data tokenizer tokenized
        saved workspace datastore uploaded path files registered version /\
    globals (exec (run_all PrepareData.cells) fresh) !! "data" = Some (VObj tokenized) /\
    globals (exec (run_all PrepareData.cells) fresh) !! "amldataset"
    = Some (VObj registered) /\
    globals (exec (run_all PrepareData.cells) fresh) !! "tokenizer_function"
    = Some (VFun "tokenizer_function") /\
    forall columns sentences,
      dict_get columns "sentence" = Some sentences ->
      PrepareData.tokenizer_function (VDict columns)
        (exec (run_all PrepareData.cells) fresh)
      = invoke tokenizer [sentences]
          [("padding", VStr "max_length"); ("truncation", VBool true)]
          (exec (run_all PrepareData.cells) fresh).
Proof.
  intros Htask Hmodel Hdir Hload Hobj Hret.
  assert (exists yaml azureml datasets transformers file stream closed data tokenizer
                 tokenized saved workspace datastore uploaded path files registered
                 version g im,
            run_all PrepareData.cells fresh
            = (Ok tt,
               Kernel g im
                 (prepare_data_events settings task model data_dir
                    yaml azureml datasets transformers file stream closed data tokenizer
                    tokenized saved workspace datastore uploaded path files registered
                    version)) /\
            g !! "data" = Some (VObj tokenized) /\
            g !! "amldataset" = Some (VObj registered) /\
            g !! "tokenizer_function" = Some (VFun "tokenizer_function") /\
            g !! "tokenizer" = Some tokenizer)
    as (yaml & azureml & datasets & transformers & file & stream & closed & data &
        tokenizer & tokenized & saved & workspace & datastore & uploaded & path &
        files & registered & version & g & im & Hrun & Hdata & Hreg & Hfun & Htok).
  { unfold PrepareData.cells, fresh.
    repeat first [progress run_py | answer Hload Hobj Hret].
    tidy_trace. do 20 eexists. split; [reflexivity |].
    repeat split; by run_py. }
  unfold exec. rewrite Hrun. cbn [fst snd globals trace]. split; [reflexivity |].
  exists yaml, azureml, datasets, transformers, file, stream, closed, data, tokenizer,
    tokenized, saved, workspace, datastore, uploaded, path, files, registered, version.
  repeat split; try done.
  intros columns sentences Hs. unfold PrepareData.tokenizer_function. by run_py.
Qed.

Lemma prepare_data_operations_witness :
  let W := answering_the_data_notebook in
  fst (run_all PrepareData.cells fresh) = Ok tt /\
  last (trace (exec (run_all PrepareData.cells) fresh))
  = Some (answered (RGetAttr (VObj 17) "version") (VInt 1)).
Proof.
  intros W.
  assert (Hobj : forall h r, names_one_of receivers_of_prepare_data r = true ->
                   exists n, respond h r = Returns (VObj n)).
  { intros h r Hr. exists (length h).
    unfold respond, W, answering_the_data_notebook. by rewrite Hr. }
  assert (Hret : forall h r, exists v, respond h r = Returns v).
  { intros h r. cbn. repeat case_match; by eexists. }
  split.
  - exact (proj1 (prepare_data_operations (W := W)
                    match config_yml with VDict entries => entries | _ => [] end
                    (VStr "cola") (VStr "distilbert-base-uncased") (VStr "data/glue/cola")
                    eq_refl eq_refl eq_refl (fun h args kw => eq_refl) Hobj Hret)).
  - vm_compute. reflexivity.
Defined.

(** ** Notebook 04: what is passed on from the settings *)

Section Verbatim.
Context {W : World}.
Variables (g : gmap string value) (im : gmap string string) (t : list event).
Variable settings : list (string * value).
Hypothesis Hazureml : im !! "azureml" = Some "azureml".
Hypothesis Hconfig : g !! "config" = Some (VDict settings).

(** The first copy looks the environment up under the name in the settings. *)
Lemma original_environment_from_settings workspace name :
  g !! "workspace" = Some workspace ->
  dict_get settings "environment" = Some name ->
  requests (since (length t)
              (trace (exec TrainModel.get_environment_from_settings (Kernel g im t))))
  = [RCall "azureml.core.Environment.get" [workspace; name] []].
Proof.
  intros Hw Hn. unfold TrainModel.get_environment_from_settings.
  explore; by tidy_trace.
Qed.

(** The working copy looks it up under a fixed name, whatever the settings. *)
Lemma working_copy_environment_fixed workspace :
  g !! "workspace" = Some workspace ->
  requests (since (length t) (trace (exec TrainModel.get_environment (Kernel g im t))))
  = [RCall "azureml.core.Environment.get" [workspace]
       [("name", VStr "deepspeed-transformers-datasets")]].
Proof.
  intros Hw. unfold TrainModel.get_environment.
  explore; by tidy_trace.
Qed.

(** The run configuration takes the source directory, the command, the
    compute target and the distributed-job arguments as the settings give
    them, and the environment as it was looked up. *)
Lemma run_configuration_verbatim source_directory command compute_target arguments environment :
  dict_get settings "pytorch_configuration" = Some (VDict arguments) ->
  dict_get settings "source_directory" = Some source_directory ->
  dict_get settings "training_command" = Some command ->
  dict_get settings "compute_target" = Some compute_target ->
  g !! "environment" = Some environment ->
  exists o rest,
    since (length t) (trace (exec TrainModel.configure_run (Kernel g im t)))
    = EReq (RCall "azureml.core.runconfig.PyTorchConfiguration" [] arguments) o :: rest /\
    forall distributed_job_config, o = Returns distributed_job_config ->
      requests rest
      = [RCall "azureml.core.ScriptRunConfig" []
           [("source_directory", source_directory); ("command", command);
            ("environment", environment); ("compute_target", compute_target);
            ("distributed_job_config", distributed_job_config)]].
Proof.
  intros Hp Hs Hc Ht He. unfold TrainModel.configure_run.
  explore; tidy_trace.
  all: do 2 eexists; (split; [reflexivity |]); intros d Hd;
    first [discriminate Hd | injection Hd as <-]; reflexivity.
Qed.
End Verbatim.

(** C4 at the shipped settings: the first copy of the training notebook looks
    the environment up under [config['environment']], which is
    [deepspeed-transformers]; the working copy looks it up under the fixed
    name [deepspeed-transformers-datasets], runs the job in what it got, and
    still tags the run with the name from the settings.  The source
    directory, the command, the compute target and the distributed-job
    arguments reach [ScriptRunConfig] as the settings give them. *)
Theorem working_copy_environment_not_from_settings :
  let W := obliging in
  let working := requests (trace (exec (run_all TrainModel.cells) fresh)) in
  let original := requests (trace (exec (run_all TrainModel.cells_original) fresh)) in
  at_path ["environment"] config_yml = Some (VStr "deepspeed-transformers") /\
  List.filter (fun r => names r "azureml.core.Environment.get") original
  = [RCall "azureml.core.Environment.get" [VObj 7; VStr "deepspeed-transformers"] []] /\
  List.filter (fun r => names r "azureml.core.Environment.get") working
  = [RCall "azureml.core.Environment.get" [VObj 7]
       [("name", VStr "deepspeed-transformers-datasets")]] /\
  List.filter (fun r => names r "azureml.core.runconfig.PyTorchConfiguration") working
  = [RCall "azureml.core.runconfig.PyTorchConfiguration" []
       [("node_count", VInt 2); ("process_count", VInt 2)]] /\
  List.filter (fun r => names r "azureml.core.ScriptRunConfig") working
  = [RCall "azureml.core.ScriptRunConfig" []
       [("source_directory", VStr "src"); ("command", VStr "python train.py");
        ("environment", VObj 10); ("compute_target", VStr "gpu-K80-1");
        ("distributed_job_config", VObj 13)]] /\
  (args_of <$> List.filter (fun r => names r "set_tags") working)
  = [[VDict [("model", VStr "distilbert-base-uncased"); ("task", VStr "cola");
             ("metric", VStr "matthews_correlation");
             ("environment", VStr "deepspeed-transformers");
             ("num_train_epochs", VStr "3"); ("batch_size", VStr "16")]]].
Proof. repeat split; vm_compute; reflexivity. Qed.

(** ** Tags *)

(** C6, as stated, fails: the run's [num_train_epochs] tag is the text ["3"],
    not the number the settings hold. *)
Lemma epoch_tag_is_text :
  let W := obliging in
  let k := exec (run_all (take 2 TrainModel.cells)) fresh in
  exists tags,
    fst (TrainModel.run_tags k) = Ok (VDict tags) /\
    dict_get tags "num_train_epochs" = Some (VStr "3") /\
    at_path ["training_args"; "num_train_epochs"] config_yml = Some (VInt 3) /\
    dict_get tags "num_train_epochs"
    <> at_path ["training_args"; "num_train_epochs"] config_yml.
Proof.
  intros W k. eexists. split; [vm_compute; reflexivity |].
  split; [reflexivity |]. split; [reflexivity |]. cbn. discriminate.
Qed.

Section Tags.
Context {W : World}.
Variables (g : gmap string value) (im : gmap string string) (t : list event).
Variables (settings training_args : list (string * value)).
Variables (model task metric environment epochs batch : value).
Hypothesis Hconfig : g !! "config" = Some (VDict settings).
Hypothesis Hmodel : dict_get settings "model" = Some model.
Hypothesis Htask : dict_get settings "task" = Some task.

Section RunTags.
Hypothesis Hmetric : dict_get settings "metric" = Some metric.
Hypothesis Henvironment : dict_get settings "environment" = Some environment.
Hypothesis Hargs : dict_get settings "training_args" = Some (VDict training_args).
Hypothesis Hepochs : dict_get training_args "num_train_epochs" = Some epochs.
Hypothesis Hbatch : dict_get training_args "per_device_train_batch_size" = Some batch.

Lemma run_tags_value :
  TrainModel.run_tags (Kernel g im t)
  = (Ok (expected_run_tags model task metric environment epochs batch), Kernel g im t).
Proof. unfold TrainModel.run_tags, expected_run_tags. by run_py. Qed.

Lemma set_tags_argument :
  Forall (fun r => names r "set_tags" = true ->
                   args_of r = [expected_run_tags model task metric environment epochs batch])
    (requests (since (length t) (trace (exec TrainModel.submit (Kernel g im t))))).
Proof.
  unfold TrainModel.submit, TrainModel.run_tags, TrainModel.print_portal_url,
    expected_run_tags.
  explore_all; tidy_trace; cbn; repeat constructor; cbn; congruence.
Qed.

(** The run that [submit] returned is the one that gets the tags. *)
Lemma run_tagged e aml_config run :
  g !! "experiment" = Some (VObj e) ->
  g !! "aml_config" = Some aml_config ->
  respond t (submit_request (VObj e) aml_config) = Returns (VObj run) ->
  exists o rest,
    since (length t) (trace (exec TrainModel.submit (Kernel g im t)))
    = EReq (submit_request (VObj e) aml_config) (Returns (VObj run))
      :: EReq (set_tags_request (VObj run)
                 (expected_run_tags model task metric environment epochs batch)) o
      :: rest.
Proof.
  intros He Ha Hs.
  unfold TrainModel.submit, TrainModel.run_tags, TrainModel.print_portal_url,
    expected_run_tags, submit_request, set_tags_request in *.
  explore; tidy_trace; by do 2 eexists.
Qed.
End RunTags.

Lemma dataset_tags_argument :
  im !! "azureml" = Some "azureml" ->
  Forall (fun r => names r "register" = true ->
                   args_of r !! 3%nat = Some (VDict [("task", task); ("model", model)]))
    (requests (since (length t) (trace (exec PrepareData.register (Kernel g im t))))).
Proof.
  intros Hazureml. unfold PrepareData.register.
  explore_all; tidy_trace; cbn; repeat constructor; cbn; congruence.
Qed.

(** The files found at the uploaded path are registered with the tags. *)
Lemma dataset_tagged d workspace data_dir path files :
  im !! "azureml" = Some "azureml" ->
  g !! "datastore" = Some (VObj d) ->
  g !! "workspace" = Some workspace ->
  dict_get settings "data_dir" = Some data_dir ->
  respond t (datastore_path_request (VObj d) data_dir) = Returns path ->
  respond (t ++ [EReq (datastore_path_request (VObj d) data_dir) (Returns path)])
    (from_files_request path) = Returns (VObj files) ->
  exists o,
    since (length t) (trace (exec PrepareData.register (Kernel g im t)))
    = [EReq (datastore_path_request (VObj d) data_dir) (Returns path);
       EReq (from_files_request path) (Returns (VObj files));
       EReq (register_dataset_request (VObj files) workspace task model) o].
Proof.
  intros Hazureml Hd Hw Hdir Hp Hf.
  unfold PrepareData.register, datastore_path_request, from_files_request,
    register_dataset_request in *.
  explore; tidy_trace; by eexists.
Qed.
End Tags.

(** C6, amended: the tags of a run are [model], [task], [metric] and
    [environment] exactly as the settings give them, and [num_train_epochs]
    and [batch_size] as the text [str()] makes of the two training arguments.
    The cell that submits the run calls [set_tags] with this dictionary on
    the run that [submit] returned, right after the submission, and no
    [set_tags] of that cell gets anything else.  The cell that registers the
    dataset calls [register] on the files found at the uploaded path, with
    the task as name and with tags that are [task] and [model] exactly as the
    settings give them, and no [register] of that cell gets other tags. *)
Theorem tags_from_settings {W : World} (k : kernel)
    (settings training_args : list (string * value))
    (model task metric environment epochs batch : value) :
  imported k !! "azureml" = Some "azureml" ->
  globals k !! "config" = Some (VDict settings) ->
  dict_get settings "model" = Some model ->
  dict_get settings "task" = Some task ->
  dict_get settings "metric" = Some metric ->
  dict_get settings "environment" = Some environment ->
  dict_get settings "training_args" = Some (VDict training_args) ->
  dict_get training_args "num_train_epochs" = Some epochs ->
  dict_get training_args "per_device_train_batch_size" = Some batch ->
  TrainModel.run_tags k
  = (Ok (expected_run_tags model task metric environment epochs batch), k) /\
  Forall (fun r => names r "set_tags" = true ->
                   args_of r = [expected_run_tags model task metric environment epochs batch])
    (requests (since (length (trace k)) (trace (exec TrainModel.submit k)))) /\
  Forall (fun r => names r "register" = true ->
                   args_of r !! 3%nat = Some (VDict [("task", task); ("model", model)]))
    (requests (since (length (trace k)) (trace (exec PrepareData.register k)))) /\
  (forall e aml_config run,
     globals k !! "experiment" = Some (VObj e) ->
     globals k !! "aml_config" = Some aml_config ->
     respond (trace k) (submit_request (VObj e) aml_config) = Returns (VObj run) ->
     exists o rest,
       since (length (trace k)) (trace (exec TrainModel.submit k))
       = EReq (submit_request (VObj e) aml_config) (Returns (VObj run))
         :: EReq (set_tags_request (VObj run)
                    (expected_run_tags model task metric environment epochs batch)) o
         :: rest) /\
  (forall d workspace data_dir path files,
     globals k !! "datastore" = Some (VObj d) ->
     globals k !! "workspace" = Some workspace ->
     dict_get settings "data_dir" = Some data_dir ->
     respond (trace k) (datastore_path_request (VObj d) data_dir) = Returns path ->
     respond (trace k ++ [EReq (datastore_path_request (VObj d) data_dir) (Returns path)])
       (from_files_request path) = Returns (VObj files) ->
     exists o,
       since (length (trace k)) (trace (exec PrepareData.register k))
       = [EReq (datastore_path_request (VObj d) data_dir) (Returns path);
          EReq (from_files_request path) (Returns (VObj files));
          EReq (register_dataset_request (VObj files) workspace task model) o]).
Proof.
  destruct k as [g im t]. cbn [globals imported trace]. intros.
  split; [| split; [| split; [| split]]].
  - by eapply run_tags_value.
  - by eapply set_tags_argument.
  - by eapply dataset_tags_argument.
  - intros. by eapply run_tagged.
  - intros. by eapply dataset_tagged.
Qed.

Lemma tags_from_settings_witness :
  let W := obliging in
  let shipped := match config_yml with VDict entries => entries | _ => [] end in
  let arguments := match at_path ["training_args"] config_yml with
                   | Some (VDict entries) => entries
                   | _ => []
                   end in
  let k := exec (run_all (take 7 TrainModel.cells)) fresh in
  let k' := exec (run_all (take 6 PrepareData.cells)) fresh in
  (exists o rest,
     since (length (trace k)) (trace (exec TrainModel.submit k))
     = EReq (submit_request (VObj 12) (VObj 14)) (Returns (VObj 15))
       :: EReq (set_tags_request (VObj 15)
                  (VDict [("model", VStr "distilbert-base-uncased"); ("task", VStr "cola");
                          ("metric", VStr "matthews_correlation");
                          ("environment", VStr "deepspeed-transformers");
                          ("num_train_epochs", VStr "3"); ("batch_size", VStr "16")])) o
       :: rest) /\
  (exists o,
     since (length (trace k')) (trace (exec PrepareData.register k'))
     = [EReq (datastore_path_request (VObj 13) (VStr "data/glue/cola")) (Returns (VObj 15));
        EReq (from_files_request (VObj 15)) (Returns (VObj 16));
        EReq (RMethod (VObj 16) "register"
                [VObj 12; VStr "cola";
                 VStr "Glue dataset for cola, tokenized for distilbert-base-uncased";
                 VDict [("task", VStr "cola"); ("model", VStr "distilbert-base-uncased")];
                 VBool true] []) o]).
Proof.
  intros W shipped arguments k k'. split.
  - exact (proj1 (proj2 (proj2 (proj2
             (tags_from_settings k shipped arguments
                (VStr "distilbert-base-uncased") (VStr "cola")
                (VStr "matthews_correlation") (VStr "deepspeed-transformers")
                (VInt 3) (VInt 16)
                eq_refl eq_refl eq_refl eq_refl eq_refl eq_refl eq_refl eq_refl eq_refl))))
             12%nat (VObj 14) 15%nat eq_refl eq_refl eq_refl).
  - exact (proj2 (proj2 (proj2 (proj2
             (tags_from_settings k' shipped arguments
                (VStr "distilbert-base-uncased") (VStr "cola")
                (VStr "matthews_correlation") (VStr "deepspeed-transformers")
                (VInt 3) (VInt 16)
                eq_refl eq_refl eq_refl eq_refl eq_refl eq_refl eq_refl eq_refl eq_refl))))
             13%nat (VObj 12) (VStr "data/glue/cola") (VObj 15) 16%nat
             eq_refl eq_refl eq_refl eq_refl eq_refl).
Defined.

(** ** Notebooks 02 and 04: the status of a build and of a run *)

Section Status.
Context {W : World}.
Variables (g : gmap string value) (im : gmap string string) (t : list event).



End Status.

(** No other cell looks at a status. *)
Section StatusUnread.
Context {W : World}.
Variable n : nat.





End StatusUnread.




(** ** Notebook 03: the tokenization function *)

Section TokenizerLength.
Variable encode : string -> list Z.
Variable model_max_length : nat.
Variable pad_token_id : Z.

Lemma pad_truncate_length (ids : list Z) :
  length (pad_to pad_token_id model_max_length (truncate model_max_length (VBool true) ids))
  = model_max_length.
Proof.
  unfold pad_to, truncate. cbn [truthy].
  rewrite length_app, length_replicate, length_take. lia.
Qed.

Lemma tokenize_max_length (sentences : list string) :
  length (tokenize encode model_max_length pad_token_id
            (VStr "max_length") (VBool true) sentences) = length sentences /\
  Forall (fun row => length row = model_max_length)
    (tokenize encode model_max_length pad_token_id
       (VStr "max_length") (VBool true) sentences).
Proof.
  unfold tokenize. cbn [padded_length String.eqb Ascii.eqb Bool.eqb].
  split; [by rewrite !length_map |].
  apply Forall_map, Forall_map, Forall_forall. intros s _. apply pad_truncate_length.
Qed.

Lemma strings_of_strings (sentences : list string) :
  strings_of (VStr <$> sentences) = Some sentences.
Proof. induction sentences as [|s rest IH]; cbn; [done | by rewrite IH]. Qed.
End TokenizerLength.

(** C8: on every batch the tokenization function makes one request, the call
    of the pretrained tokenizer on the batch's sentences with
    [padding="max_length"] and [truncation=True]; with a tokenizer that pads
    and truncates as documented, it returns one sequence per sentence, each of
    the tokenizer's maximum length, whatever the sentences are. *)
Theorem tokenizer_function_fixed_length {W : World}
    (encode : string -> list Z) (model_max_length : nat) (pad_token_id : Z)
    (k : kernel) (tokenizer : nat) (examples : list (string * value))
    (sentences : list string) :
  globals k !! "tokenizer" = Some (VObj tokenizer) ->
  dict_get examples "sentence" = Some (VList (VStr <$> sentences)) ->
  (forall h args kw,
     respond h (RInvoke (VObj tokenizer) args kw)
     = tokenizer_answer encode model_max_length pad_token_id args kw) ->
  requests (since (length (trace k))
              (trace (snd (PrepareData.tokenizer_function (VDict examples) k))))
  = [RInvoke (VObj tokenizer) [VList (VStr <$> sentences)]
       [("padding", VStr "max_length"); ("truncation", VBool true)]] /\
  exists rows,
    fst (PrepareData.tokenizer_function (VDict examples) k) = Ok (batch_encoding rows) /\
    length rows = length sentences /\
    Forall (fun row => length row = model_max_length) rows.
Proof.
  destruct k as [g im t]. cbn [globals imported trace]. intros Htok Hex Hresp.
  unfold PrepareData.tokenizer_function. run_py. rewrite Hresp.
  unfold tokenizer_answer. rewrite strings_of_strings. unfold_py. tidy_trace.
  split; [reflexivity |].
  eexists. split; [reflexivity |]. apply tokenize_max_length.
Qed.

Lemma tokenizer_function_fixed_length_witness :
  let W := with_small_tokenizer in
  let k := Kernel {["tokenizer" := VObj 0]} ∅ [] in
  let examples := [("sentence", VList [VStr "i like pie"; VStr "ok"]);
                   ("label", VList [VInt 1; VInt 1])] in
  exists rows,
    fst (PrepareData.tokenizer_function (VDict examples) k) = Ok (batch_encoding rows) /\
    length rows = 2%nat /\
    Forall (fun row => length row = 8%nat) rows.
Proof.
  intros W k examples.
  exact (proj2 (tokenizer_function_fixed_length
                  (fun s => map (fun _ => 7) (chars s)) 8 0 k 0 examples
                  ["i like pie"; "ok"] eq_refl eq_refl (fun h args kw => eq_refl))).
Defined.

(** ** Notebook 02: the cell that prints the push commands *)

Section PushCommands.
Context {W : World}.

(** No cell of the notebook binds [docker_build_commands]. *)
Lemma docker_build_commands_unbound (k : kernel) :
  session PrepareEnvironment.cells k \/ session PrepareEnvironment.cells_amltmp k ->
  globals k !! "docker_build_commands" = None.
Proof.
  pose proof prepare_environment_keeps as Hall.
  intros [Hs | Hs]; eapply session_inv in Hs as (_ & Hh & _); try exact Hh.
  - unfold PrepareEnvironment.cells_amltmp in Hall.
    apply Forall_app in Hall as [Hall _]. exact Hall.
  - exact Hall.
Qed.

Lemma push_commands_raise (k : kernel) :
  globals k !! "docker_build_commands" = None ->
  (exists x, fst (PrepareEnvironment.print_push_commands k) = Err (NameError x)) /\
  trace (exec PrepareEnvironment.print_push_commands k) = trace k /\
  forall acr_name container_name,
    globals k !! "acr_name" = Some acr_name ->
    globals k !! "container_name" = Some container_name ->
    fst (PrepareEnvironment.print_push_commands k) = Err (NameError "docker_build_commands") /\
    globals (exec PrepareEnvironment.print_push_commands k) !! "cmds"
    = Some (VTuple [VStr "az login";
                    VStr ("az acr login --name " +:+ py_str acr_name);
                    VStr ("docker push " +:+ py_str container_name +:+ ":latest")]).
Proof.
  destruct k as [g im t]. cbn [globals imported trace]. intros Hh.
  unfold PrepareEnvironment.print_push_commands. unfold_py.
  destruct (g !! "acr_name") as [a|] eqn:Ha; unfold_py;
    [destruct (g !! "container_name") as [c|] eqn:Hc; unfold_py |].
  - rewrite lookup_insert_ne by done. rewrite Hh. unfold_py.
    split; [by eexists |]. split; [done |].
    intros ? ? [= <-] [= <-]. by rewrite lookup_insert_eq.
  - split; [by eexists |]. split; [done |]. intros ? ? _ [=].
  - split; [by eexists |]. split; [done |]. intros ? ? [=].
Qed.
End PushCommands.

(** C9: in both copies of the environment notebook, however the cells were
    run before, the cell that defines the tuple [cmds] of push commands and
    then iterates over [docker_build_commands] stops with a [NameError]
    without printing or requesting anything; once [acr_name] and
    [container_name] are bound, [cmds] holds the three push commands and the
    name that is missing is [docker_build_commands]. *)
Theorem push_cell_raises_name_error {W : World} (k : kernel) :
  session PrepareEnvironment.cells k \/ session PrepareEnvironment.cells_amltmp k ->
  (exists x, fst (PrepareEnvironment.print_push_commands k) = Err (NameError x)) /\
  trace (exec PrepareEnvironment.print_push_commands k) = trace k /\
  forall acr_name container_name,
    globals k !! "acr_name" = Some acr_name ->
    globals k !! "container_name" = Some container_name ->
    fst (PrepareEnvironment.print_push_commands k) = Err (NameError "docker_build_commands") /\
    globals (exec PrepareEnvironment.print_push_commands k) !! "cmds"
    = Some (VTuple [VStr "az login";
                    VStr ("az acr login --name " +:+ py_str acr_name);
                    VStr ("docker push " +:+ py_str container_name +:+ ":latest")]).
Proof.
  intros Hs. apply push_commands_raise. by apply docker_build_commands_unbound.
Qed.

Lemma push_cell_raises_name_error_witness :
  let W := obliging in
  let k := exec PrepareEnvironment.name_container
             (exec PrepareEnvironment.connect_workspace
                (exec PrepareEnvironment.read_settings fresh)) in
  fst (PrepareEnvironment.print_push_commands k) = Err (NameError "docker_build_commands") /\
  globals (exec PrepareEnvironment.print_push_commands k) !! "cmds"
  = Some (VTuple [VStr "az login";
                  VStr "az acr login --name acr42";
                  VStr "docker push acr42.azurecr.io/training-quickstart/deepspeed-transformers:latest"]).
Proof.
  intros W k.
  assert (Hs : session PrepareEnvironment.cells k).
  { repeat (apply session_exec; [| cbn; tauto]). apply session_fresh. }
  exact (proj2 (proj2 (push_cell_raises_name_error k (or_introl Hs)))
           (VStr "acr42")
           (VStr "acr42.azurecr.io/training-quickstart/deepspeed-transformers")
           eq_refl eq_refl).
Defined.

(** ** Sequential execution *)

Lemma orderly_requests may_wait (rs : list request) :
  forallb (orderly may_wait) rs = true ->
  existsb spawns rs = false /\ (may_wait = false -> existsb waits rs = false).
Proof.
  induction rs as [|r rs IH]; cbn; [done |].
  intros [Hr Hrs]%andb_prop. destruct (IH Hrs) as [IH1 IH2].
  unfold orderly in Hr. apply andb_prop in Hr as [Hs Hw].
  apply negb_true_iff in Hs. rewrite Hs, IH1. split; [done |].
  intros ->. rewrite orb_false_r in Hw. apply negb_true_iff in Hw.
  rewrite Hw. by apply IH2.
Qed.

Section Sequential.
Context {W : World}.

Lemma bind_ok {A B} (m : py A) (f : A -> py B) (k : kernel) (b : B) :
  fst (bind m f k) = Ok b ->
  exists a, fst (m k) = Ok a /\ bind m f k = f a (snd (m k)).
Proof.
  unfold bind. destruct (m k) as [[a|e] k1]; cbn; [| discriminate].
  intros _. by exists a.
Qed.

(** When the cell completes, the last thing it did was to wait for the
    cluster it bound. *)
Lemma cluster_awaited (k : kernel) :
  fst (CreateCompute.find_or_create_cluster k) = Ok tt ->
  exists c o,
    globals (exec CreateCompute.find_or_create_cluster k) !! "cluster" = Some c /\
    last (trace (exec CreateCompute.find_or_create_cluster k)) = Some (EReq (wait_request c) o).
Proof.
  unfold CreateCompute.find_or_create_cluster, exec. intros Hok.
  destruct (bind_ok _ _ _ _ Hok) as (_ & _ & Heq). rewrite Heq in *. clear Heq.
  destruct (snd _) as [g im t]. revert Hok. unfold wait_request.
  explore_all; intros Hok; try discriminate Hok.
  do 2 eexists. split; [eassumption |]. by rewrite last_snoc.
Qed.
End Sequential.

Lemma spawns_neither (rs : list request) :
  existsb spawns rs = false ->
  existsb concurrent rs = false /\ existsb starts_process rs = false.
Proof.
  induction rs as [|r rs IH]; cbn; [done |].
  intros [Hr Hrs]%orb_false_elim. unfold spawns in Hr.
  apply orb_false_elim in Hr as [-> ->]. by apply IH.
Qed.

(** Which modules a notebook imports. *)
Section ImportsOnly.
Context {W : World}.
Variable modules : list string.

Lemma imports_only_store k x v :
  (fun _ : string => true) x = true -> imports_only modules k ->
  imports_only modules (Kernel (<[x:=v]> (globals k)) (imported k) (trace k)).
Proof. by intros _. Qed.

Lemma imports_only_print k s :
  imports_only modules k ->
  imports_only modules (Kernel (globals k) (imported k) (trace k ++ [EPrint s])).
Proof. unfold imports_only. cbn [trace]. by rewrite requests_snoc_print. Qed.

Lemma imports_only_request k r o :
  imports_within modules r = true -> imports_only modules k ->
  imports_only modules (Kernel (globals k) (imported k) (trace k ++ [EReq r o])).
Proof.
  unfold imports_only. cbn [trace]. intros Hr Hk.
  rewrite requests_snoc_req, forallb_app, Hk. cbn. by rewrite Hr.
Qed.

Lemma imports_only_import k x q :
  import_table !! x = Some q -> imports_only modules k ->
  imports_only modules (Kernel (globals k) (<[x:=q]> (imported k)) (trace k)).
Proof. by intros _. Qed.
End ImportsOnly.

Ltac imports_of_cells :=
  let Hs := fresh in let Hp := fresh in let Hr := fresh in let Hi := fresh in
  match goal with
  | |- Forall (keeps (imports_only ?modules)) _ =>
      pose proof (imports_only_store modules) as Hs;
      pose proof (imports_only_print modules) as Hp;
      pose proof (imports_only_request modules) as Hr;
      pose proof (imports_only_import modules) as Hi
  end;
  each_cell; preserve.

Section NotebooksImport.
Context {W : World}.

Lemma create_compute_imports :
  Forall (keeps (imports_only modules_of_create_compute)) CreateCompute.cells.
Proof. unfold CreateCompute.cells. imports_of_cells. Qed.

Lemma prepare_environment_imports :
  Forall (keeps (imports_only modules_of_prepare_environment))
    PrepareEnvironment.cells_amltmp.
Proof.
  unfold PrepareEnvironment.cells_amltmp, PrepareEnvironment.cells. cbn [app].
  imports_of_cells.
Qed.

Lemma prepare_data_imports :
  Forall (keeps (imports_only modules_of_prepare_data)) PrepareData.cells.
Proof. unfold PrepareData.cells. imports_of_cells. Qed.

Lemma train_model_imports :
  Forall (keeps (imports_only modules_of_train_model))
    (TrainModel.cells ++ TrainModel.cells_original).
Proof.
  unfold TrainModel.cells, TrainModel.cells_original. cbn [app]. imports_of_cells.
Qed.
End NotebooksImport.

(** C10, second half as stated, fails: run from top to bottom in a world where
    every request succeeds, the environment notebook starts a build and the
    training notebook submits a run, later cells go on, and no blocking call
    ever follows. *)
Lemma build_and_run_not_awaited :
  let W := obliging in
  awaits_operations (trace (exec (run_all PrepareEnvironment.cells) fresh)) = false /\
  awaits_operations (trace (exec (run_all TrainModel.cells) fresh)) = false /\
  In (EReq (RGetAttr (VObj 21) "status") (Returns (VStr "Running")))
     (trace (exec (run_all PrepareEnvironment.cells) fresh)) /\
  In (RMethod (VObj 8) "get_details" [] [])
     (requests (trace (exec (run_all PrepareEnvironment.cells) fresh))).
Proof.
  intros W. split; [vm_compute; reflexivity |]. split; [vm_compute; reflexivity |].
  split; vm_compute; tauto.
Qed.

(** C10, amended: in every session of every notebook no request brings in a
    threading, multiprocessing, asyncio, queue or scheduling module or calls
    into one, and none calls into [subprocess] or [os], so no cell creates a
    thread, a pool, a lock or a process and the cells are one thread of
    sequential calls; the modules each notebook imports are the listed ones,
    among which [subprocess] occurs, in the environment notebook only, and
    is never called; the cluster cell, when it completes, ends on the
    blocking [wait_for_completion] of the cluster it bound; the environment,
    data and training notebooks never make a blocking [wait] call, so a build
    or a run that was started is not awaited by the notebook. *)
Theorem notebooks_sequential {W : World} (k : kernel) :
  (session CreateCompute.cells k \/
   session PrepareEnvironment.cells k \/ session PrepareEnvironment.cells_amltmp k \/
   session PrepareData.cells k \/
   session TrainModel.cells k \/ session TrainModel.cells_original k ->
   existsb concurrent (requests (trace k)) = false /\
   existsb starts_process (requests (trace k)) = false) /\
  (session CreateCompute.cells k -> imports_only modules_of_create_compute k) /\
  (session PrepareEnvironment.cells k \/ session PrepareEnvironment.cells_amltmp k ->
   imports_only modules_of_prepare_environment k) /\
  (session PrepareData.cells k -> imports_only modules_of_prepare_data k) /\
  (session TrainModel.cells k \/ session TrainModel.cells_original k ->
   imports_only modules_of_train_model k) /\
  (fst (CreateCompute.find_or_create_cluster k) = Ok tt ->
   exists c o,
     globals (exec CreateCompute.find_or_create_cluster k) !! "cluster" = Some c /\
     last (trace (exec CreateCompute.find_or_create_cluster k))
     = Some (EReq (wait_request c) o)) /\
  (session PrepareEnvironment.cells k \/ session PrepareEnvironment.cells_amltmp k \/
   session PrepareData.cells k \/
   session TrainModel.cells k \/ session TrainModel.cells_original k ->
   existsb waits (requests (trace k)) = false).
Proof.
  pose proof create_compute_keeps as H1.
  pose proof prepare_environment_keeps as H2.
  pose proof prepare_data_keeps as H3.
  pose proof train_model_keeps as H4.
  assert (H2' : Forall (keeps (inv false)) PrepareEnvironment.cells)
    by (unfold PrepareEnvironment.cells_amltmp in H2; by apply Forall_app in H2 as [? _]).
  apply Forall_app in H4 as [H4 H4'].
  pose proof create_compute_imports as I1.
  pose proof prepare_environment_imports as I2.
  pose proof prepare_data_imports as I3.
  pose proof train_model_imports as I4.
  assert (I2' : Forall (keeps (imports_only modules_of_prepare_environment))
                  PrepareEnvironment.cells)
    by (unfold PrepareEnvironment.cells_amltmp in I2; by apply Forall_app in I2 as [? _]).
  apply Forall_app in I4 as [I4 I4'].
  split; [| split; [| split; [| split; [| split; [| split; [apply cluster_awaited |]]]]]].
  - intros [Hs | [Hs | [Hs | [Hs | [Hs | Hs]]]]];
      eapply session_inv in Hs as (_ & _ & Ht); try eassumption;
      apply orderly_requests in Ht as [Ht _]; by apply spawns_neither.
  - intros Hs. eapply session_kept; [reflexivity | exact I1 | exact Hs].
  - intros [Hs | Hs]; (eapply session_kept; [reflexivity | | exact Hs]); assumption.
  - intros Hs. eapply session_kept; [reflexivity | exact I3 | exact Hs].
  - intros [Hs | Hs]; (eapply session_kept; [reflexivity | | exact Hs]); assumption.
  - intros [Hs | [Hs | [Hs | [Hs | Hs]]]];
      eapply session_inv in Hs as (_ & _ & Ht); try eassumption;
      apply orderly_requests in Ht as [_ Ht]; by apply Ht.
Qed.

Lemma notebooks_sequential_witness :
  let W := obliging in
  let k := exec PrepareEnvironment.print_build_status
             (exec PrepareEnvironment.start_build
                (exec PrepareEnvironment.register_environment
                   (exec PrepareEnvironment.connect_workspace
                      (exec PrepareEnvironment.read_settings fresh)))) in
  In (RImport "subprocess") (requests (trace k)) /\
  existsb starts_process (requests (trace k)) = false /\
  In (RMethod (VObj 16) "build" [VObj 8] []) (requests (trace k)) /\
  existsb waits (requests (trace k)) = false.
Proof.
  intros W k. split; [vm_compute; tauto |].
  assert (Hs : session PrepareEnvironment.cells k).
  { repeat (apply session_exec; [| cbn; tauto]). apply session_fresh. }
  split; [| split; [vm_compute; tauto |]].
  - exact (proj2 (proj1 (notebooks_sequential k)
                    (or_intror (or_introl Hs)))).
  - exact (proj2 (proj2 (proj2 (proj2 (proj2 (proj2 (notebooks_sequential k))))))
             (or_introl Hs)).
Defined.

(** * Further properties of the cells *)

(** ** [str.split] on a separator of one character, and the index [-1] *)

Lemma split_not_empty sep skip s : split_from sep skip s <> [].
Proof.
  revert skip. induction s as [|a r IH]; intros skip; cbn [split_from]; [done |].
  destruct skip; [| apply IH].
  destruct (String.prefix sep (String a r)); [done |].
  by destruct (split_from sep 0 r).
Qed.

Lemma concat_cons sep x xs :
  xs <> [] -> String.concat sep (x :: xs) = x +:+ sep +:+ String.concat sep xs.
Proof. by destruct xs. Qed.

(** Joining the parts with the separator gives the string back. *)
Lemma split_join c s :
  String.concat (String c EmptyString) (split (String c EmptyString) s) = s.
Proof.
  unfold split. induction s as [|a r IH]; [done |].
  cbn [split_from String.prefix String.length Nat.sub].
  destruct (Ascii.ascii_dec c a) as [<- | Hne].
  - destruct r; cbn [String.prefix];
      (rewrite concat_cons by apply split_not_empty); by rewrite IH.
  - pose proof (split_not_empty (String c EmptyString) 0 r) as Hn.
    destruct (split_from (String c EmptyString) 0 r) as [|h parts]; [done |].
    rewrite <- IH. by destruct parts.
Qed.

(** No part contains the separator. *)
Lemma split_parts c s :
  Forall (fun part => contains (String c EmptyString) part = false)
    (split (String c EmptyString) s).
Proof.
  unfold split. induction s as [|a r IH].
  - repeat constructor.
  - cbn [split_from String.prefix String.length Nat.sub].
    destruct (Ascii.ascii_dec c a) as [<- | Hne].
    + destruct r; cbn [String.prefix]; by constructor.
    + pose proof (split_not_empty (String c EmptyString) 0 r) as Hn.
      destruct (split_from (String c EmptyString) 0 r) as [|h parts]; [done |].
      apply Forall_cons in IH as [Hh Hparts]. constructor; [| done].
      cbn. destruct (Ascii.ascii_dec c a); [done |]. cbn. exact Hh.
Qed.

Lemma index_last {A} (xs : list A) : index xs (-1) = last xs.
Proof.
  unfold index. cbn [Z.ltb Z.compare].
  destruct xs as [|x xs _] using rev_ind; [done |].
  rewrite last_snoc, length_app. cbn [length].
  replace (-1 + Z.of_nat (length xs + 1)) with (Z.of_nat (length xs)) by lia.
  rewrite (proj2 (Z.leb_le _ _)) by lia. rewrite (proj2 (Z.ltb_lt _ _)) by lia.
  cbn [andb]. rewrite Nat2Z.id.
  rewrite nth_error_app2 by lia. by rewrite Nat.sub_diag.
Qed.

Lemma last_map {A B} (f : A -> B) (xs : list A) : last (map f xs) = f <$> last xs.
Proof.
  destruct xs as [|x xs _] using rev_ind; [done |].
  rewrite map_app. cbn [map]. by rewrite !last_snoc.
Qed.

Lemma append_assoc (a b c : string) : (a +:+ b) +:+ c = a +:+ (b +:+ c).
Proof.
  induction a as [|x a IH]; [done |].
  change (String x ((a +:+ b) +:+ c) = String x (a +:+ (b +:+ c))). by rewrite IH.
Qed.

Lemma concat_last sep parts a :
  last parts = Some a ->
  String.concat sep parts = a \/
  exists before, String.concat sep parts = before +:+ sep +:+ a.
Proof.
  induction parts as [|x [|y parts] IH]; intros Hl.
  - discriminate.
  - injection Hl as ->. by left.
  - right. destruct (IH Hl) as [E | (before & E)].
    + exists x. change (String.concat sep (x :: y :: parts))
        with (x +:+ sep +:+ String.concat sep (y :: parts)). by rewrite E.
    + exists (x +:+ sep +:+ before).
      change (String.concat sep (x :: y :: parts))
        with (x +:+ sep +:+ String.concat sep (y :: parts)).
      rewrite E. by rewrite !append_assoc.
Qed.

(** The last part of a string split at [/]: it has no [/] in it, and the
    string is that part alone or ends with [/] and that part. *)
Lemma last_segment s :
  exists a,
    last (split "/" s) = Some a /\
    contains "/" a = false /\
    (s = a \/ exists before, s = before +:+ "/" +:+ a).
Proof.
  pose proof (split_not_empty "/" 0 s) as Hn.
  pose proof (split_join "/"%char s) as Hj.
  pose proof (split_parts "/"%char s) as Hp.
  change (split "/" s <> []) in Hn.
  destruct (last (split "/" s)) as [a|] eqn:Hl; [| apply last_None in Hl; congruence].
  exists a. split; [done |]. split.
  - apply last_Some in Hl as (front & Hl). rewrite Hl in Hp.
    rewrite Forall_app, Forall_singleton in Hp. apply Hp.
  - destruct (concat_last "/" _ _ Hl) as [E | (before & E)]; rewrite Hj in E;
      [by left | right; by exists before].
Qed.

(** ** The statement that reads the settings *)

(** X1: once the settings file is opened and entered, the statement that
    reads the settings leaves it through [__exit__] exactly once, as the last
    thing it does, whether the parser returns, raises or is not even
    imported; and [config] is afterwards bound to what it was before or to
    what [yaml.safe_load] returned for the opened file. *)
Theorem settings_file_closed_once {W : World} (k : kernel) (f : nat) (stream : value) :
  respond (trace k) open_request = Returns (VObj f) ->
  respond (trace k ++ [EReq open_request (Returns (VObj f))]) (enter_request (VObj f))
  = Returns stream ->
  let k' := exec load_config k in
  let new := since (length (trace k)) (trace k') in
  (exists args o, last new = Some (EReq (RMethod (VObj f) "__exit__" args []) o)) /\
  length (List.filter leaves (requests new)) = 1%nat /\
  (imported k !! "yaml" = Some "yaml" ->
   forall c, globals k' !! "config" = Some c ->
     globals k !! "config" = Some c \/ In (EReq (parse_request stream) (Returns c)) new).
Proof.
  destruct k as [g im t]. cbn [globals imported trace]. intros Ho He.
  unfold load_config, open_request, enter_request, parse_request in *.
  explore_all;
    repeat match goal with
           | |- context [truthy ?v] => destruct (truthy v); unfold_py
           end;
    tidy_trace.
  all: split; [by do 2 eexists |]; (split; [reflexivity |]).
  all: intros Hy c Hc; try discriminate Hy; injection Hy as ->.
  all: first [ by left
             | left; by rewrite lookup_insert_ne in Hc
             | injection Hc as ->; right; cbn; tauto ].
Qed.

Lemma settings_file_closed_once_witness :
  let W := obliging in
  length (List.filter leaves (requests (trace (exec load_config fresh)))) = 1%nat.
Proof.
  intros W.
  exact (proj1 (proj2 (settings_file_closed_once (W := W) fresh 0 (VObj 1)
                         eq_refl eq_refl))).
Defined.

(** ** Cells out of order *)

(** X2: on a kernel in which no name is bound, every cell of the four
    notebooks other than the ones that import the modules and read the
    settings stops with a [NameError] before it has requested or printed
    anything. *)
Theorem cells_need_their_predecessors {W : World} (t : list event) :
  Forall (fun c => needs_a_name c (restarted t)) dependent_cells.
Proof.
  unfold dependent_cells, CreateCompute.cells, PrepareEnvironment.cells,
    PrepareData.cells, TrainModel.cells, TrainModel.cells_original.
  cbn [drop tail app]. unfold needs_a_name, restarted.
  each_cell; (eexists; split; vm_compute; reflexivity).
Qed.

(** ** Notebook 01: failures while the cluster is looked up or provisioned *)

(** X3: the cluster cell handles one exception only.  A lookup that raises
    anything but [ComputeTargetException] ends the cell with that exception;
    so does a provisioning configuration or a creation that raises, after
    the lookup found no cluster.  In each case the failed request is the last
    one: the cell does not wait for a cluster, and [cluster] is not bound by
    it. *)
Theorem provisioning_failure_ends_cell {W : World} (k : kernel)
    (workspace name vm_size max_nodes : value) (settings : list (string * value)) :
  imported k !! "azureml" = Some "azureml" ->
  globals k !! "workspace" = Some workspace ->
  globals k !! "config" = Some (VDict settings) ->
  dict_get settings "compute_target" = Some name ->
  dict_get settings "compute_size" = Some vm_size ->
  dict_get settings "compute_node_count" = Some max_nodes ->
  let lookup := lookup_request workspace name in
  let configure := configure_request vm_size max_nodes in
  let missing := EReq lookup (Raises cluster_not_found) in
  (forall e,
     isinstance e "azureml.core.compute_target.ComputeTargetException" = false ->
     respond (trace k) lookup = Raises e ->
     CreateCompute.find_or_create_cluster k
     = (Err e, Kernel (globals k) (imported k) (trace k ++ [EReq lookup (Raises e)]))) /\
  (forall e,
     respond (trace k) lookup = Raises cluster_not_found ->
     respond (trace k ++ [missing]) configure = Raises e ->
     CreateCompute.find_or_create_cluster k
     = (Err e, Kernel (globals k) (imported k)
                 (trace k ++ [missing; EReq configure (Raises e)]))) /\
  (forall compute_config e,
     respond (trace k) lookup = Raises cluster_not_found ->
     respond (trace k ++ [missing]) configure = Returns compute_config ->
     respond ((trace k ++ [missing]) ++ [EReq configure (Returns compute_config)])
       (create_request workspace name compute_config) = Raises e ->
     CreateCompute.find_or_create_cluster k
     = (Err e, Kernel (<["compute_config" := compute_config]> (globals k)) (imported k)
                 (trace k ++ [missing; EReq configure (Returns compute_config);
                              EReq (create_request workspace name compute_config)
                                (Raises e)]))).
Proof.
  destruct k as [g im t]. cbn [globals imported trace].
  intros Hazureml Hworkspace Hconfig Hname Hsize Hcount.
  unfold CreateCompute.find_or_create_cluster, CreateCompute.find_cluster,
    CreateCompute.create_cluster, lookup_request, configure_request,
    create_request, cluster_not_found.
  split; [| split].
  - intros e He Hl. by run_py.
  - intros e Hl Hc. run_py. cbn [isinstance]. run_py. by tidy_trace.
  - intros compute_config e Hl Hc Hcr. run_py. cbn [isinstance]. run_py.
    by tidy_trace.
Qed.

Lemma provisioning_failure_ends_cell_witness :
  let W := out_of_quota in
  let k := exec CreateCompute.connect_workspace
             (exec CreateCompute.read_settings
                (exec CreateCompute.check_requirements fresh)) in
  fst (CreateCompute.find_or_create_cluster k) = Err (Raised "QuotaExceeded") /\
  existsb waits (requests (trace (exec CreateCompute.find_or_create_cluster k))) = false.
Proof.
  intros W k.
  pose proof (proj2 (proj2 (provisioning_failure_ends_cell (W := W) k
                (VObj 8) (VStr "gpu-K80-1") (VStr "STANDARD_NC4AS_T4_V3") (VInt 2)
                match config_yml with VDict entries => entries | _ => [] end
                eq_refl eq_refl eq_refl eq_refl eq_refl eq_refl))
              (VObj 10) (Raised "QuotaExceeded") eq_refl eq_refl eq_refl) as H.
  unfold exec. rewrite H. split; reflexivity.
Defined.

(** ** Notebook 01 from top to bottom *)

(** X4: run from top to bottom in a world where the cluster does not exist
    yet and every other request is answered, the first notebook completes,
    and what happens is, in this order and with nothing else: the four
    imports, the reading of the settings, the connection to the workspace,
    the failed lookup of [config['compute_target']] in the workspace that
    was returned, the provisioning configuration with the size and the node
    count of the settings, the creation in that workspace, under that name
    and with the configuration that was returned, and the wait for the
    cluster that the creation returned, which is the one bound to
    [cluster]. *)
Theorem create_compute_operations {W : World}
    (settings : list (string * value)) (name vm_size max_nodes : value) :
  dict_get settings "compute_target" = Some name ->
  dict_get settings "compute_size" = Some vm_size ->
  dict_get settings "compute_node_count" = Some max_nodes ->
  (forall h args kw, respond h (RCall "yaml.safe_load" args kw) = Returns (VDict settings)) ->
  (forall h args kw,
     respond h (RCall "azureml.core.compute.ComputeTarget" args kw)
     = Raises cluster_not_found) ->
  (forall h r, names_one_of receivers_of_create_compute r = true ->
     exists n, respond h r = Returns (VObj n)) ->
  (forall h r, names r "azureml.core.compute.ComputeTarget" = false ->
     exists v, respond h r = Returns v) ->
  fst (run_all CreateCompute.cells fresh) = Ok tt /\
  exists onnx transformers yaml azureml file stream closed workspace compute_config
         cluster waited,
    trace (exec (run_all CreateCompute.cells) fresh)
    = create_compute_events settings name vm_size max_nodes
        onnx transformers yaml azureml file stream closed workspace compute_config
        cluster waited /\
    globals (exec (run_all CreateCompute.cells) fresh) !! "workspace" = Some workspace /\
    globals (exec (run_all CreateCompute.cells) fresh) !! "compute_config"
    = Some compute_config /\
    globals (exec (run_all CreateCompute.cells) fresh) !! "cluster" = Some (VObj cluster).
Proof.
  intros Hname Hsize Hcount Hload Hmissing Hobj Hret.
  assert (exists onnx transformers yaml azureml file stream closed workspace
                 compute_config cluster waited g im,
            run_all CreateCompute.cells fresh
            = (Ok tt,
               Kernel g im
                 (create_compute_events settings name vm_size max_nodes
                    onnx transformers yaml azureml file stream closed workspace
                    compute_config cluster waited)) /\
            g !! "workspace" = Some workspace /\
            g !! "compute_config" = Some compute_config /\
            g !! "cluster" = Some (VObj cluster))
    as (onnx & transformers & yaml & azureml & file & stream & closed & workspace &
        compute_config & cluster & waited & g & im & Hrun & Hw & Hc & Hcl).
  { unfold CreateCompute.cells, fresh, cluster_not_found in *.
    repeat first
      [ progress run_py
      | rewrite Hmissing
      | progress cbn [isinstance]
      | rewrite Hload
      | match goal with
        | |- context [match respond ?h ?r with _ => _ end] =>
            let n := fresh "n" in
            let E := fresh "E" in
            first [ destruct (Hobj h r eq_refl) as [n E]
                  | destruct (Hret h r eq_refl) as [n E] ];
            rewrite E; clear E
        end ].
    tidy_trace. do 13 eexists. split; [reflexivity |].
    repeat split; by run_py. }
  unfold exec. rewrite Hrun. cbn [fst snd globals trace]. split; [reflexivity |].
  exists onnx, transformers, yaml, azureml, file, stream, closed, workspace,
    compute_config, cluster, waited.
  by repeat split.
Qed.

Lemma create_compute_operations_witness :
  let W := without_cluster_answering in
  fst (run_all CreateCompute.cells fresh) = Ok tt /\
  last (trace (exec (run_all CreateCompute.cells) fresh))
  = Some (answered (wait_request (VObj 11)) VNone).
Proof.
  intros W.
  assert (Hobj : forall h r, names_one_of receivers_of_create_compute r = true ->
                   exists n, respond h r = Returns (VObj n)).
  { intros h r Hr. exists (length h).
    unfold respond, W, without_cluster_answering. by rewrite Hr. }
  assert (Hret : forall h r, names r "azureml.core.compute.ComputeTarget" = false ->
                   exists v, respond h r = Returns v).
  { intros h r Hr. unfold respond, W, without_cluster_answering. rewrite Hr.
    repeat case_match; by eexists. }
  split.
  - exact (proj1 (create_compute_operations (W := W)
                    match config_yml with VDict entries => entries | _ => [] end
                    (VStr "gpu-K80-1") (VStr "STANDARD_NC4AS_T4_V3") (VInt 2)
                    eq_refl eq_refl eq_refl (fun h args kw => eq_refl)
                    (fun h args kw => eq_refl) Hobj Hret)).
  - vm_compute. reflexivity.
Defined.

(** ** Notebook 02: what the registration reports *)

(** X5: the cell that registers the environment builds it from the text of
    the file [config['environment_dockerfile']] under the name
    [config['environment']], and what it prints afterwards is read from the
    environment that [register] returned, which is also the one bound to
    [environment]: its name, its version, and the name of the workspace. *)
Theorem registered_environment_reported {W : World} (k : kernel)
    (settings : list (string * value)) (name file : value)
    (w path e python registered : nat) (dockerfile reg_name reg_version ws_name : value) :
  imported k !! "azureml" = Some "azureml" ->
  imported k !! "Path" = Some "pathlib.Path" ->
  globals k !! "config" = Some (VDict settings) ->
  globals k !! "workspace" = Some (VObj w) ->
  dict_get settings "environment" = Some name ->
  dict_get settings "environment_dockerfile" = Some file ->
  (forall h, respond h (path_request file) = Returns (VObj path)) ->
  (forall h, respond h (read_text_request (VObj path)) = Returns dockerfile) ->
  (forall h, respond h (from_dockerfile_request name dockerfile) = Returns (VObj e)) ->
  (forall h, respond h (RGetAttr (VObj e) "python") = Returns (VObj python)) ->
  (forall h a v, respond h (RSetAttr (VObj python) a v) = Returns VNone) ->
  (forall h, respond h (register_request (VObj e) (VObj w)) = Returns (VObj registered)) ->
  (forall h, respond h (RGetAttr (VObj registered) "name") = Returns reg_name) ->
  (forall h, respond h (RGetAttr (VObj registered) "version") = Returns reg_version) ->
  (forall h, respond h (RGetAttr (VObj w) "name") = Returns ws_name) ->
  let k' := exec PrepareEnvironment.register_environment k in
  fst (PrepareEnvironment.register_environment k) = Ok tt /\
  globals k' !! "environment" = Some (VObj registered) /\
  printed (since (length (trace k)) (trace k'))
  = [py_str reg_name +:+ " version " +:+ py_str reg_version +:+ " registered in " +:+
     py_str ws_name] /\
  requests (since (length (trace k)) (trace k'))
  = [path_request file; read_text_request (VObj path);
     from_dockerfile_request name dockerfile;
     RGetAttr (VObj e) "python";
     RSetAttr (VObj python) "user_managed_dependencies" (VBool true);
     RGetAttr (VObj e) "python";
     RSetAttr (VObj python) "interpreter_path" (VStr "/opt/miniconda/bin/python");
     register_request (VObj e) (VObj w);
     RGetAttr (VObj registered) "name"; RGetAttr (VObj registered) "version";
     RGetAttr (VObj w) "name"].
Proof.
  destruct k as [g im t]. cbn [globals imported trace].
  intros Ha Hp Hc Hw Hn Hf H1 H2 H3 H4 H5 H6 H7 H8 H9.
  unfold PrepareEnvironment.register_environment,
    PrepareEnvironment.configure_and_register, path_request, read_text_request,
    from_dockerfile_request, register_request in *.
  repeat first
    [ progress run_py
    | rewrite H1 | rewrite H2 | rewrite H3 | rewrite H4 | rewrite H5
    | rewrite H6 | rewrite H7 | rewrite H8 | rewrite H9 ].
  tidy_trace. by repeat split.
Qed.

Lemma registered_environment_reported_witness :
  let W := registry_of_environments in
  let k := Kernel {["config" := config_yml; "workspace" := VObj 0]}
             {["azureml" := "azureml"; "Path" := "pathlib.Path"]} [] in
  printed (trace (exec PrepareEnvironment.register_environment k))
  = ["deepspeed-transformers version 7 registered in ws"].
Proof.
  intros W k.
  pose proof (registered_environment_reported (W := W) k
                match config_yml with VDict entries => entries | _ => [] end
                (VStr "deepspeed-transformers") (VStr "src/dockerfile")
                0 1 2 3 4 (VStr "FROM nvidia/cuda") (VStr "deepspeed-transformers")
                (VInt 7) (VStr "ws")
                eq_refl eq_refl eq_refl eq_refl eq_refl eq_refl
                (fun h => eq_refl) (fun h => eq_refl) (fun h => eq_refl)
                (fun h => eq_refl) (fun h a v => eq_refl) (fun h => eq_refl)
                (fun h => eq_refl) (fun h => eq_refl) (fun h => eq_refl))
    as (_ & _ & H & _).
  change (trace (exec PrepareEnvironment.register_environment k))
    with (since (length (trace k))
            (trace (exec PrepareEnvironment.register_environment k))).
  by rewrite H.
Defined.

(** ** Notebook 02: what is registered *)

(** X6: in whatever kernel and world they run, the two cells that register
    an environment call [register] only after [user_managed_dependencies]
    was set to [True] and [interpreter_path] to [/opt/miniconda/bin/python],
    both with success; a failure on the way means nothing is registered. *)
Theorem environment_registered_as_configured {W : World} (k : kernel) :
  registered_as_configured false false
    (since (length (trace k)) (trace (exec PrepareEnvironment.register_environment k)))
  = true /\
  registered_as_configured false false
    (since (length (trace k)) (trace (exec PrepareEnvironment.environment_from_image k)))
  = true.
Proof.
  destruct k as [g im t]. cbn [globals imported trace].
  unfold PrepareEnvironment.register_environment,
    PrepareEnvironment.environment_from_image,
    PrepareEnvironment.configure_and_register.
  split.
  - explore_all; tidy_trace; reflexivity.
  - explore_all; tidy_trace; reflexivity.
Qed.

(** ** Notebook 02: the name of the container *)

(** X7: when the workspace's details hold a text under [containerRegistry],
    the cell that names the container completes whatever that text is (the
    index [-1] of the split never fails): [acr_name] is the part of the
    registry's id after its last [/], with no [/] in it, [container_name] is
    [<acr_name>.azurecr.io/<experiment>/<environment>] with the two names of
    the settings, and the details are the only thing requested. *)
Theorem container_name_from_registry {W : World} (k : kernel) (w : nat)
    (settings details : list (string * value)) (registry : string)
    (experiment environment : value) :
  globals k !! "workspace" = Some (VObj w) ->
  globals k !! "config" = Some (VDict settings) ->
  dict_get settings "experiment" = Some experiment ->
  dict_get settings "environment" = Some environment ->
  respond (trace k) (details_request (VObj w)) = Returns (VDict details) ->
  dict_get details "containerRegistry" = Some (VStr registry) ->
  let k' := exec PrepareEnvironment.name_container k in
  exists acr_name,
    fst (PrepareEnvironment.name_container k) = Ok tt /\
    globals k' !! "acr_name" = Some (VStr acr_name) /\
    globals k' !! "container_name"
    = Some (VStr (acr_name +:+ ".azurecr.io/" +:+ py_str experiment +:+ "/" +:+
                  py_str environment)) /\
    contains "/" acr_name = false /\
    (registry = acr_name \/ exists before, registry = before +:+ "/" +:+ acr_name) /\
    since (length (trace k)) (trace k')
    = [EReq (details_request (VObj w)) (Returns (VDict details))].
Proof.
  destruct k as [g im t]. cbn [globals imported trace].
  intros Hw Hc He Hn Hd Hr.
  destruct (last_segment registry) as (acr_name & Hlast & Hslash & Hshape).
  exists acr_name.
  unfold PrepareEnvironment.name_container, details_request in *. run_py.
  rewrite index_last, last_map, Hlast. cbn [fmap option_fmap option_map]. run_py.
  tidy_trace. repeat split; try done.
Qed.

Lemma container_name_from_registry_witness :
  let W := obliging in
  let k := exec PrepareEnvironment.connect_workspace
             (exec PrepareEnvironment.read_settings fresh) in
  exists acr_name,
    fst (PrepareEnvironment.name_container k) = Ok tt /\
    globals (exec PrepareEnvironment.name_container k) !! "acr_name"
    = Some (VStr acr_name) /\
    contains "/" acr_name = false.
Proof.
  intros W k.
  destruct (container_name_from_registry (W := W) k 8
              match config_yml with VDict entries => entries | _ => [] end
              [("containerRegistry", VStr "/subscriptions/s/registries/acr42")]
              "/subscriptions/s/registries/acr42"
              (VStr "training-quickstart") (VStr "deepspeed-transformers")
              eq_refl eq_refl eq_refl eq_refl eq_refl eq_refl)
    as (acr_name & H1 & H2 & _ & H4 & _).
  exists acr_name. by repeat split.
Defined.

(** X8: when the workspace's details have no [containerRegistry], the same
    cell stops with a [KeyError] for that key and binds neither [acr_name]
    nor [container_name]: the kernel's names are as they were. *)
Theorem container_name_needs_registry {W : World} (k : kernel) (w : nat)
    (details : list (string * value)) :
  globals k !! "workspace" = Some (VObj w) ->
  respond (trace k) (details_request (VObj w)) = Returns (VDict details) ->
  dict_get details "containerRegistry" = None ->
  PrepareEnvironment.name_container k
  = (Err (KeyError (VStr "containerRegistry")),
     Kernel (globals k) (imported k)
       (trace k ++ [EReq (details_request (VObj w)) (Returns (VDict details))])).
Proof.
  destruct k as [g im t]. cbn [globals imported trace]. intros Hw Hd Hr.
  unfold PrepareEnvironment.name_container, details_request in *. by run_py.
Qed.

Lemma container_name_needs_registry_witness :
  let W := without_registry in
  let k := Kernel {["workspace" := VObj 0]} ∅ [] in
  fst (PrepareEnvironment.name_container k) = Err (KeyError (VStr "containerRegistry")).
Proof.
  intros W k.
  exact (f_equal fst
           (container_name_needs_registry k 0 [("id", VStr "ws")]
              eq_refl eq_refl eq_refl)).
Defined.

(** ** Notebook 02: one name for the image *)

(** X9: the cells that deal with the container image agree on its name and
    only print the docker commands.  The build commands are three printed
    lines, the last of which tags the image with [container_name]; the run
    command is one printed line; neither cell requests anything.  The image
    the last cell sets as [base_image] of the new environment is
    [<container_name>:latest], which is what the push commands push. *)
Theorem image_name_agrees {W : World} (k : kernel) (settings : list (string * value))
    (source_directory container_name name : value) (e d : nat) :
  imported k !! "azureml" = Some "azureml" ->
  globals k !! "config" = Some (VDict settings) ->
  dict_get settings "source_directory" = Some source_directory ->
  dict_get settings "environment" = Some name ->
  globals k !! "container_name" = Some container_name ->
  (forall h, respond h (image_request name) = Returns (VObj e)) ->
  (forall h, respond h (docker_request (VObj e)) = Returns (VObj d)) ->
  let image := py_str container_name +:+ ":latest" in
  since (length (trace k)) (trace (exec PrepareEnvironment.print_build_commands k))
  = [EPrint ("docker build " +:+ py_str source_directory +:+ " .");
     EPrint ("LATEST=`docker images --format " +:+ dq +:+ "{{.ID}}" +:+ dq +:+
             " | head -n 1`");
     EPrint ("docker tag $LATEST " +:+ py_str container_name)] /\
  since (length (trace k)) (trace (exec PrepareEnvironment.print_run_command k))
  = [EPrint ("docker run -it " +:+ py_str container_name +:+ " bash")] /\
  (forall acr_name,
     globals k !! "acr_name" = Some acr_name ->
     globals k !! "docker_build_commands" = None ->
     exists login,
       globals (exec PrepareEnvironment.print_push_commands k) !! "cmds"
       = Some (VTuple [VStr "az login"; login; VStr ("docker push " +:+ image)])) /\
  requests (since (length (trace k))
              (trace (exec PrepareEnvironment.environment_from_image k))) !! 2%nat
  = Some (base_image_request (VObj d) image).
Proof.
  destruct k as [g im t]. cbn [globals imported trace].
  intros Ha Hc Hs Hn Hcn He Hd.
  unfold image_request, docker_request, base_image_request in *.
  split; [| split; [| split]].
  - unfold PrepareEnvironment.print_build_commands, PrepareEnvironment.print_line.
    run_py. by tidy_trace.
  - unfold PrepareEnvironment.print_run_command. run_py. by tidy_trace.
  - intros acr_name Hacr Hnone. unfold PrepareEnvironment.print_push_commands.
    eexists. run_py. reflexivity.
  - unfold PrepareEnvironment.environment_from_image,
      PrepareEnvironment.configure_and_register.
    run_py. rewrite He. run_py. rewrite Hd. run_py.
    explore_all; by tidy_trace.
Qed.

Lemma image_name_agrees_witness :
  let W := single_object in
  let k := Kernel {["config" := config_yml;
                    "container_name" := VStr "acr42.azurecr.io/training-quickstart/env"]}
             {["azureml" := "azureml"]} [] in
  printed (trace (exec PrepareEnvironment.print_run_command k))
  = ["docker run -it acr42.azurecr.io/training-quickstart/env bash"] /\
  requests (trace (exec PrepareEnvironment.environment_from_image k)) !! 2%nat
  = Some (base_image_request (VObj 0) "acr42.azurecr.io/training-quickstart/env:latest").
Proof.
  intros W k.
  pose proof (image_name_agrees (W := W) k
                match config_yml with VDict entries => entries | _ => [] end
                (VStr "src") (VStr "acr42.azurecr.io/training-quickstart/env")
                (VStr "deepspeed-transformers") 0 0
                eq_refl eq_refl eq_refl eq_refl eq_refl
                (fun h => eq_refl) (fun h => eq_refl)) as (_ & H2 & _ & H4).
  change (trace (exec PrepareEnvironment.print_run_command k))
    with (since (length (trace k)) (trace (exec PrepareEnvironment.print_run_command k))).
  rewrite H2. split; [reflexivity |]. exact H4.
Defined.

(** ** Notebook 02: the environment made from the pushed image *)

(** X10: run before [container_name] is bound, the last cell of the
    environment notebook has already made a new [Environment] and bound it
    to [environment], in place of the registered one, when it stops with a
    [NameError]; nothing is registered or built. *)
Theorem image_cell_needs_container_name {W : World} (k : kernel)
    (settings : list (string * value)) (name environment : value) :
  imported k !! "azureml" = Some "azureml" ->
  globals k !! "config" = Some (VDict settings) ->
  dict_get settings "environment" = Some name ->
  globals k !! "container_name" = None ->
  respond (trace k) (image_request name) = Returns environment ->
  PrepareEnvironment.environment_from_image k
  = (Err (NameError "container_name"),
     Kernel (<["environment" := environment]> (globals k)) (imported k)
       (trace k ++ [EReq (image_request name) (Returns environment)])).
Proof.
  destruct k as [g im t]. cbn [globals imported trace]. intros Ha Hc Hn Hu Hr.
  unfold PrepareEnvironment.environment_from_image, image_request in *. by run_py.
Qed.

Lemma image_cell_needs_container_name_witness :
  let W := obliging in
  let k := exec PrepareEnvironment.register_environment
             (exec PrepareEnvironment.connect_workspace
                (exec PrepareEnvironment.read_settings fresh)) in
  globals k !! "environment" = Some (VObj 16) /\
  fst (PrepareEnvironment.environment_from_image k) = Err (NameError "container_name") /\
  globals (exec PrepareEnvironment.environment_from_image k) !! "environment"
  = Some (VObj 21).
Proof.
  intros W k.
  pose proof (image_cell_needs_container_name k
                match config_yml with VDict entries => entries | _ => [] end
                (VStr "deepspeed-transformers") (VObj 21)
                eq_refl eq_refl eq_refl eq_refl eq_refl) as H.
  split; [reflexivity |]. unfold exec. rewrite H. split; [reflexivity |].
  apply lookup_insert_eq.
Defined.

(** ** Notebook 02 from top to bottom *)

Section RunAll.
Context {W : World}.

Lemma run_all_app (front back : notebook) (k : kernel) :
  run_all (front ++ back)%list k
  = match run_all front k with
    | (Ok _, k') => run_all back k'
    | (Err e, k') => (Err e, k')
    end.
Proof.
  revert k. induction front as [|c front IH]; intros k; [done |].
  cbn [app]. rewrite !run_all_cons. destruct (c k) as [[[]|e] k1]; [apply IH | done].
Qed.

(** Run All of some of the notebook's cells is one more way to use it. *)
Lemma session_run_all (nb cells : notebook) (k : kernel) :
  session nb k -> (forall c, In c cells -> In c nb) ->
  session nb (exec (run_all cells) k).
Proof.
  revert k. induction cells as [|c cells IH]; intros k Hs Hin; [done |].
  unfold exec. rewrite run_all_cons.
  assert (Hc : session nb (exec c k)) by (apply session_exec; [done | apply Hin; by left]).
  unfold exec in Hc. destruct (c k) as [[[]|e] k1]; cbn in *; [| done].
  apply IH; [done |]. intros c' Hc'. apply Hin. by right.
Qed.
End RunAll.

(** X11: Run All of the environment notebook, in either copy and from
    whatever its cells left in the kernel, never completes and never reaches
    the cell after the push commands: it does exactly what running the cells
    up to and including the push cell does, and that ends in an exception. *)
Theorem run_all_ends_at_push_cell {W : World} (k : kernel) :
  session PrepareEnvironment.cells k \/ session PrepareEnvironment.cells_amltmp k ->
  (exists e, fst (run_all PrepareEnvironment.cells k) = Err e) /\
  run_all PrepareEnvironment.cells k = run_all (take 9 PrepareEnvironment.cells) k /\
  run_all PrepareEnvironment.cells_amltmp k = run_all (take 9 PrepareEnvironment.cells) k.
Proof.
  intros Hs.
  assert (Hpush : forall k', 
            k' = exec (run_all (take 8 PrepareEnvironment.cells)) k ->
            exists x, fst (PrepareEnvironment.print_push_commands k') = Err (NameError x)).
  { intros k' ->. apply push_commands_raise, docker_build_commands_unbound.
    destruct Hs as [Hs | Hs]; [left | right]; (apply session_run_all; [done |]);
      unfold PrepareEnvironment.cells_amltmp, PrepareEnvironment.cells;
      cbn [take app]; intros c Hc; cbn in Hc |- *; tauto. }
  assert (Hcut : forall rest,
            exists e, run_all (take 8 PrepareEnvironment.cells ++
                               PrepareEnvironment.print_push_commands :: rest)%list k
                      = (Err e, snd (run_all (take 9 PrepareEnvironment.cells) k)) /\
                      fst (run_all (take 9 PrepareEnvironment.cells) k) = Err e).
  { intros rest.
    change (take 9 PrepareEnvironment.cells)
      with (take 8 PrepareEnvironment.cells ++ [PrepareEnvironment.print_push_commands])%list.
    rewrite !run_all_app. specialize (Hpush _ eq_refl). unfold exec in Hpush.
    destruct (run_all (take 8 PrepareEnvironment.cells) k) as [[[]|e] k1];
      [| by exists e].
    rewrite !run_all_cons. cbn [snd] in Hpush. destruct Hpush as [x Hx].
    destruct (PrepareEnvironment.print_push_commands k1) as [[[]|e] k2];
      cbn in Hx; [discriminate |]. by exists e. }
  destruct (Hcut [PrepareEnvironment.environment_from_image]) as (e & H1 & H1').
  destruct (Hcut [PrepareEnvironment.environment_from_image;
                  PrepareEnvironment.empty_cell]) as (e' & H2 & H2').
  change (take 8 PrepareEnvironment.cells ++ _ :: [PrepareEnvironment.environment_from_image])%list
    with PrepareEnvironment.cells in H1.
  change (take 8 PrepareEnvironment.cells ++ _ :: _)%list
    with PrepareEnvironment.cells_amltmp in H2.
  rewrite H1, H2. clear Hcut Hpush H1 H2. split; [by exists e |].
  destruct (run_all (take 9 PrepareEnvironment.cells) k) as [res k9].
  cbn [fst snd] in *. split; congruence.
Qed.

Lemma run_all_ends_at_push_cell_witness :
  let W := obliging in
  exists e, fst (run_all PrepareEnvironment.cells fresh) = Err e.
Proof.
  intros W.
  exact (proj1 (run_all_ends_at_push_cell (W := W) fresh
                  (or_introl (session_fresh _)))).
Defined.

(** ** Notebook 03: the function given to [map] *)

(** X12: [tokenizer_function] looks [tokenizer] up when it is called, not when
    it is defined: without that name it stops with a [NameError] before it
    touches the batch; a batch without a [sentence] column stops it with a
    [KeyError] before the tokenizer is called; and in no case does it bind
    or rebind a name of the kernel. *)
Theorem tokenizer_function_edges {W : World} (k : kernel) (examples : value) :
  (globals k !! "tokenizer" = None ->
   PrepareData.tokenizer_function examples k = (Err (NameError "tokenizer"), k)) /\
  (forall tokenizer columns,
     globals k !! "tokenizer" = Some tokenizer ->
     examples = VDict columns ->
     dict_get columns "sentence" = None ->
     PrepareData.tokenizer_function examples k = (Err (KeyError (VStr "sentence")), k)) /\
  globals (snd (PrepareData.tokenizer_function examples k)) = globals k /\
  imported (snd (PrepareData.tokenizer_function examples k)) = imported k.
Proof.
  destruct k as [g im t]. cbn [globals imported trace].
  unfold PrepareData.tokenizer_function.
  split; [| split].
  - intros Hn. by run_py.
  - intros tokenizer columns Ht -> Hs. by run_py.
  - explore_all; by split.
Qed.

(** ** Notebook 03: settings that are missing *)

(** X13: with the datastore at hand, the cells that upload and register the
    dataset read the settings before they request anything.  Without
    [data_dir] the upload cell stops with a [KeyError] and leaves the kernel
    as it was; without [task], [model] or [data_dir] the registration cell
    stops with a [KeyError] for a missing one, and nothing was uploaded,
    looked up or registered. *)
Theorem nothing_stored_without_settings {W : World} (k : kernel)
    (settings : list (string * value)) (datastore : value) :
  globals k !! "config" = Some (VDict settings) ->
  globals k !! "datastore" = Some datastore ->
  (dict_get settings "data_dir" = None ->
   PrepareData.upload k = (Err (KeyError (VStr "data_dir")), k)) /\
  (forall key, In key ["task"; "model"; "data_dir"] -> dict_get settings key = None ->
   exists missing,
     dict_get settings missing = None /\
     fst (PrepareData.register k) = Err (KeyError (VStr missing)) /\
     trace (exec PrepareData.register k) = trace k).
Proof.
  destruct k as [g im t]. cbn [globals imported trace]. intros Hc Hd.
  unfold PrepareData.upload, PrepareData.register.
  split.
  - intros Hm. by run_py.
  - intros key Hin Hkey.
    destruct (dict_get settings "task") eqn:E1;
      [| exists "task"; split; [done |]; by run_py].
    destruct (dict_get settings "model") eqn:E2;
      [| exists "model"; split; [done |]; by run_py].
    destruct (dict_get settings "data_dir") eqn:E3;
      [| exists "data_dir"; split; [done |]; by run_py].
    cbn in Hin. destruct Hin as [<- | [<- | [<- | []]]]; congruence.
Qed.

Lemma nothing_stored_without_settings_witness :
  let W := obliging in
  let k := Kernel {["config" := VDict [("task", VStr "cola")]; "datastore" := VObj 0]}
             ∅ [] in
  PrepareData.upload k = (Err (KeyError (VStr "data_dir")), k).
Proof.
  intros W k.
  exact (proj1 (nothing_stored_without_settings (W := W) k [("task", VStr "cola")]
                  (VObj 0) eq_refl eq_refl) eq_refl).
Defined.

(** X14: the cell that tokenizes the dataset reads [data_dir] only when it
    saves.  Without that setting it stops with a [KeyError] after the
    tokenizer was loaded and the whole dataset mapped: [data] is already the
    tokenized dataset, and nothing is saved. *)
Theorem data_dir_read_after_tokenizing {W : World} (k : kernel)
    (settings : list (string * value)) (model tokenizer tokenized : value) (d : nat) :
  imported k !! "transformers" = Some "transformers" ->
  globals k !! "config" = Some (VDict settings) ->
  dict_get settings "model" = Some model ->
  dict_get settings "data_dir" = None ->
  globals k !! "data" = Some (VObj d) ->
  respond (trace k) (tokenizer_request model) = Returns tokenizer ->
  respond (trace k ++ [EReq (tokenizer_request model) (Returns tokenizer)])
    (map_request (VObj d)) = Returns tokenized ->
  PrepareData.tokenize_and_save k
  = (Err (KeyError (VStr "data_dir")),
     Kernel (<["data" := tokenized]>
               (<["tokenizer_function" := VFun "tokenizer_function"]>
                  (<["tokenizer" := tokenizer]> (globals k))))
       (imported k)
       (trace k ++ [EReq (tokenizer_request model) (Returns tokenizer);
                    EReq (map_request (VObj d)) (Returns tokenized)])).
Proof.
  destruct k as [g im t]. cbn [globals imported trace].
  intros Ht Hc Hm Hd Hdata Hr1 Hr2.
  unfold PrepareData.tokenize_and_save, tokenizer_request, map_request in *.
  run_py. by tidy_trace.
Qed.

Lemma data_dir_read_after_tokenizing_witness :
  let W := single_object in
  let k := Kernel {["config" := VDict [("model", VStr "distilbert-base-uncased")];
                    "data" := VObj 0]}
             {["transformers" := "transformers"]} [] in
  fst (PrepareData.tokenize_and_save k) = Err (KeyError (VStr "data_dir")) /\
  length (trace (exec PrepareData.tokenize_and_save k)) = 2%nat.
Proof.
  intros W k.
  pose proof (data_dir_read_after_tokenizing (W := W) k
                [("model", VStr "distilbert-base-uncased")]
                (VStr "distilbert-base-uncased") (VObj 0) (VObj 0) 0
                eq_refl eq_refl eq_refl eq_refl eq_refl eq_refl eq_refl) as H.
  unfold exec. rewrite H. split; reflexivity.
Defined.

(** ** Notebook 04: the run and what comes after it *)

(** X15: the run is submitted before the settings for its tags are read.  When
    one of the settings the tags are made of is missing, the cell stops with
    a [KeyError] for a missing setting only after the submission: the run
    exists, is bound to [run], carries no tags, and nothing is printed. *)
Theorem run_submitted_before_tags_are_read {W : World} (k : kernel) (e : nat)
    (aml_config run : value) (settings : list (string * value)) (key : string) :
  globals k !! "experiment" = Some (VObj e) ->
  globals k !! "aml_config" = Some aml_config ->
  globals k !! "config" = Some (VDict settings) ->
  respond (trace k) (submit_request (VObj e) aml_config) = Returns run ->
  In key ["model"; "task"; "metric"; "environment"; "training_args"] ->
  dict_get settings key = None ->
  exists missing,
    dict_get settings missing = None /\
    TrainModel.submit k
    = (Err (KeyError (VStr missing)),
       Kernel (<["run" := run]> (globals k)) (imported k)
         (trace k ++ [EReq (submit_request (VObj e) aml_config) (Returns run)])).
Proof.
  destruct k as [g im t]. cbn [globals imported trace]. intros He Ha Hc Hs Hin Hkey.
  unfold TrainModel.submit, TrainModel.run_tags, submit_request in *.
  run_py.
  destruct (dict_get settings "model") eqn:E1;
    [| exists "model"; split; [done |]; by run_py].
  destruct (dict_get settings "task") eqn:E2;
    [| exists "task"; split; [done |]; by run_py].
  destruct (dict_get settings "metric") eqn:E3;
    [| exists "metric"; split; [done |]; by run_py].
  destruct (dict_get settings "environment") eqn:E4;
    [| exists "environment"; split; [done |]; by run_py].
  destruct (dict_get settings "training_args") eqn:E5;
    [| exists "training_args"; split; [done |]; by run_py].
  cbn in Hin. destruct Hin as [<- | [<- | [<- | [<- | [<- | []]]]]]; congruence.
Qed.

Lemma run_submitted_before_tags_are_read_witness :
  let W := obliging in
  let k := Kernel {["experiment" := VObj 0; "aml_config" := VObj 1;
                    "config" := VDict [("model", VStr "distilbert-base-uncased")]]} ∅ [] in
  exists missing,
    fst (TrainModel.submit k) = Err (KeyError (VStr missing)) /\
    globals (exec TrainModel.submit k) !! "run" = Some (VObj 0).
Proof.
  intros W k.
  destruct (run_submitted_before_tags_are_read (W := W) k 0 (VObj 1) (VObj 0)
              [("model", VStr "distilbert-base-uncased")] "metric"
              eq_refl eq_refl eq_refl eq_refl
              (or_intror (or_intror (or_introl eq_refl))) eq_refl)
    as (missing & _ & H).
  exists missing. unfold exec. rewrite H. split; [reflexivity |].
  apply lookup_insert_eq.
Defined.

(** X16: the cell that reports the metric asks the run for its metrics and
    looks up the series named [eval_<metric>].  Without that series it stops
    with a [KeyError] for that very name, with an empty series it stops with
    an [IndexError], and in both cases prints nothing; otherwise the value it
    formats with [.2f] is the last one of the series. *)
Theorem metric_is_last_of_series {W : World} (k : kernel) (r : nat)
    (settings metrics : list (string * value)) (metric : string) :
  globals k !! "config" = Some (VDict settings) ->
  dict_get settings "metric" = Some (VStr metric) ->
  globals k !! "run" = Some (VObj r) ->
  respond (trace k) (metrics_request (VObj r)) = Returns (VDict metrics) ->
  let asked := EReq (metrics_request (VObj r)) (Returns (VDict metrics)) in
  (dict_get metrics ("eval_" +:+ metric) = None ->
   TrainModel.print_metric k
   = (Err (KeyError (VStr ("eval_" +:+ metric))),
      Kernel (globals k) (imported k) (trace k ++ [asked]))) /\
  (dict_get metrics ("eval_" +:+ metric) = Some (VList []) ->
   TrainModel.print_metric k
   = (Err IndexError, Kernel (globals k) (imported k) (trace k ++ [asked]))) /\
  (forall series final text,
     dict_get metrics ("eval_" +:+ metric) = Some (VList series) ->
     last series = Some final ->
     respond (trace k ++ [asked]) (format_request final ".2f") = Returns (VStr text) ->
     exists rest,
       since (length (trace k)) (trace (exec TrainModel.print_metric k))
       = asked :: EReq (format_request final ".2f") (Returns (VStr text))
         :: EPrint ("Ending " +:+ metric +:+ ": " +:+ text) :: rest).
Proof.
  destruct k as [g im t]. cbn [globals imported trace]. intros Hc Hm Hr Hg.
  unfold TrainModel.print_metric, TrainModel.print_portal_url,
    metrics_request, format_request in *.
  split; [| split].
  - intros Hs. by run_py.
  - intros Hs. by run_py.
  - intros series final text Hs Hl Hf. run_py. rewrite index_last, Hl. run_py.
    explore; tidy_trace; by eexists.
Qed.

Lemma metric_is_last_of_series_witness :
  let W := reporting_metrics in
  let k := Kernel {["config" := config_yml; "run" := VObj 0]} ∅ [] in
  printed (trace (exec TrainModel.print_metric k)) !! 0%nat
  = Some "Ending matthews_correlation: 2.00".
Proof.
  intros W k.
  destruct (proj2 (proj2 (metric_is_last_of_series (W := W) k 0
              match config_yml with VDict entries => entries | _ => [] end
              [("eval_matthews_correlation", VList [VInt 1; VInt 2])]
              "matthews_correlation" eq_refl eq_refl eq_refl eq_refl))
            [VInt 1; VInt 2] (VInt 2) "2.00" eq_refl eq_refl eq_refl) as [rest H].
  change (trace (exec TrainModel.print_metric k))
    with (since (length (trace k)) (trace (exec TrainModel.print_metric k))).
  by rewrite H.
Defined.

(** X17: the cell that downloads the model reads the model's name and version
    from the run's tags.  When the tags have no [registered_model_name] it
    stops with a [KeyError] after reading the tags once, and with the name
    but no [registered_model_version] after reading them twice; in both cases
    no model is asked for.  The tags the notebook itself sets on the run
    have neither key. *)
Theorem download_model_needs_tags {W : World} (k : kernel) (r : nat)
    (workspace : value) (tags : list (string * value)) :
  imported k !! "azureml" = Some "azureml" ->
  globals k !! "workspace" = Some workspace ->
  globals k !! "run" = Some (VObj r) ->
  (forall h, respond h (tags_request (VObj r)) = Returns (VDict tags)) ->
  let read := EReq (tags_request (VObj r)) (Returns (VDict tags)) in
  (dict_get tags "registered_model_name" = None ->
   TrainModel.download_model k
   = (Err (KeyError (VStr "registered_model_name")),
      Kernel (globals k) (imported k) (trace k ++ [read]))) /\
  (forall name, dict_get tags "registered_model_name" = Some name ->
   dict_get tags "registered_model_version" = None ->
   TrainModel.download_model k
   = (Err (KeyError (VStr "registered_model_version")),
      Kernel (globals k) (imported k) (trace k ++ [read; read]))) /\
  (forall model task metric environment epochs batch,
     at_path ["registered_model_name"]
       (expected_run_tags model task metric environment epochs batch) = None /\
     at_path ["registered_model_version"]
       (expected_run_tags model task metric environment epochs batch) = None).
Proof.
  destruct k as [g im t]. cbn [globals imported trace]. intros Ha Hw Hr Ht.
  unfold TrainModel.download_model, tags_request in *.
  split; [| split].
  - intros Hn. run_py. rewrite !Ht. by run_py.
  - intros name Hn Hv. run_py. rewrite !Ht. run_py. rewrite !Ht. run_py.
    by rewrite <- app_assoc.
  - done.
Qed.

Lemma download_model_needs_tags_witness :
  let W := tagged_by_notebook in
  let k := exec (run_all (take 10 TrainModel.cells)) fresh in
  fst (TrainModel.download_model k) = Err (KeyError (VStr "registered_model_name")).
Proof.
  intros W k.
  exact (f_equal fst
           (proj1 (download_model_needs_tags k 15 (VObj 7) _
                     eq_refl eq_refl eq_refl (fun h => eq_refl)) eq_refl)).
Defined.

(** X18: the last cell submits the two sentences to the pipeline one after the
    other, in the order of the tuple, and prints for each the label of the
    first answer; when the pipeline has no answer for the first sentence the
    cell stops with an [IndexError] and the second sentence is never
    submitted. *)
Theorem sentences_classified_in_order {W : World} (k : kernel) (p : nat) :
  globals k !! "pipeline" = Some (VObj p) ->
  let first := classify_request (VObj p) "i like pie" in
  let second := classify_request (VObj p) "books sent other the students" in
  (forall answer1 more1 label1 answer2 more2 label2,
     (forall h, respond h first = Returns (VList (VDict answer1 :: more1))) ->
     (forall h, respond h second = Returns (VList (VDict answer2 :: more2))) ->
     dict_get answer1 "label" = Some label1 ->
     dict_get answer2 "label" = Some label2 ->
     fst (TrainModel.classify k) = Ok tt /\
     since (length (trace k)) (trace (exec TrainModel.classify k))
     = [EReq first (Returns (VList (VDict answer1 :: more1)));
        EPrint ("Is 'i like pie' grammatical?: " +:+ py_str label1);
        EReq second (Returns (VList (VDict answer2 :: more2)));
        EPrint ("Is 'books sent other the students' grammatical?: " +:+ py_str label2)]) /\
  (respond (trace k) first = Returns (VList []) ->
   fst (TrainModel.classify k) = Err IndexError /\
   since (length (trace k)) (trace (exec TrainModel.classify k))
   = [EReq first (Returns (VList []))]).
Proof.
  destruct k as [g im t]. cbn [globals imported trace]. intros Hp.
  unfold TrainModel.classify, TrainModel.classify_sentence, classify_request.
  split.
  - intros answer1 more1 label1 answer2 more2 label2 H1 H2 Hl1 Hl2.
    run_py. rewrite H1. run_py. change (index (VDict answer1 :: more1) 0)
      with (Some (VDict answer1)). run_py. rewrite H2. run_py.
    change (index (VDict answer2 :: more2) 0) with (Some (VDict answer2)).
    run_py. tidy_trace. by split.
  - intros H1. run_py. change (index (@nil value) 0) with (@None value).
    run_py. tidy_trace. by split.
Qed.

Lemma sentences_classified_in_order_witness :
  let W := approving in
  let k := Kernel {["pipeline" := VObj 0]} ∅ [] in
  printed (trace (exec TrainModel.classify k))
  = ["Is 'i like pie' grammatical?: positive";
     "Is 'books sent other the students' grammatical?: positive"].
Proof.
  intros W k.
  destruct (proj1 (sentences_classified_in_order (W := W) k 0 eq_refl)
              [("label", VStr "positive")] [] (VStr "positive")
              [("label", VStr "positive")] [] (VStr "positive")
              (fun h => eq_refl) (fun h => eq_refl) eq_refl eq_refl) as [_ H].
  change (trace (exec TrainModel.classify k))
    with (since (length (trace k)) (trace (exec TrainModel.classify k))).
  by rewrite H.
Defined.

(** ** Run All stops at the first failure *)

(** X19: once the modules are imported and the settings read, Run All of the
    rest of the data, environment and training notebooks handles no failure:
    when a request raises, that request is the last thing the run did and
    its exception is the run's; when the run completes, no request raised.
    So nothing is saved, uploaded or registered after a download, a
    tokenization or an upload that failed. *)
Theorem run_all_stops_at_first_failure {W : World} :
  stops_on_failure (run_all (drop 2 PrepareData.cells)) /\
  stops_on_failure (run_all (tail PrepareEnvironment.cells)) /\
  stops_on_failure (run_all (drop 2 TrainModel.cells)) /\
  stops_on_failure (run_all (drop 2 TrainModel.cells_original)).
Proof.
  pose proof train_model_stops as Ht. apply Forall_app in Ht as [Ht Ht'].
  repeat split; apply stops_run_all;
    first [apply prepare_data_stops | apply prepare_environment_stops | done].
Qed.

(** ** The names of a session *)

Section WellNamed.
Context {W : World}.

Lemma import_names_table x :
  is_Some (import_table !! x) -> mem x import_names = true.
Proof.
  intros [q Hq]. unfold import_table in Hq.
  apply elem_of_list_to_map_2 in Hq.
  repeat (apply elem_of_cons in Hq as [[= -> _] | Hq]; [reflexivity |]).
  by apply elem_of_nil in Hq.
Qed.

Lemma well_named_fresh : well_named fresh.
Proof.
  split; [split |]; [apply map_empty_subseteq | done |].
  intros c Hc. discriminate Hc.
Qed.

Lemma well_named_store k x v :
  assignable x = true -> well_named k ->
  well_named (Kernel (<[x:=v]> (globals k)) (imported k) (trace k)).
Proof.
  unfold assignable. intros [Hc Hm]%andb_prop [[Hi Hn] Hs].
  apply negb_true_iff in Hc, Hm.
  unfold well_named, imports_intact, settings_as_read in *.
  cbn [globals imported trace]. split; [split |].
  - done.
  - intros y Hy. rewrite lookup_insert_ne; [by apply Hn |].
    intros ->. congruence.
  - intros c. rewrite lookup_insert_ne; [apply Hs |].
    intros ->. by rewrite String.eqb_refl in Hc.
Qed.

Lemma well_named_event k ev :
  well_named k -> well_named (Kernel (globals k) (imported k) (trace k ++ [ev])).
Proof.
  intros [Hi Hs]. split; [done |]. intros c Hc.
  destruct (Hs c Hc) as [stream Hin]. exists stream.
  cbn [trace]. apply in_or_app. by left.
Qed.

Lemma well_named_import k x q :
  import_table !! x = Some q -> well_named k ->
  well_named (Kernel (globals k) (<[x:=q]> (imported k)) (trace k)).
Proof.
  intros Hq [[Hi Hn] Hs]. split; [split |]; [| done | done].
  by apply insert_subseteq_l.
Qed.

(** The statement that reads the settings binds [config] to what the parser
    returned. *)
Lemma settings_read_kept : keeps well_named load_config.
Proof.
  unfold load_config.
  apply (kept_with_as well_named assignable (fun _ => true)
           well_named_store (fun k r o _ => well_named_event k (EReq r o)));
    [reflexivity | done | done
    | apply (kept_ask well_named (fun _ => true)
               (fun k r o _ => well_named_event k (EReq r o))); reflexivity |].
  intros [g im t] Hk. unfold_py.
  destruct (im !! "yaml") as [q|] eqn:Hy; [| done]. unfold_py.
  assert (q = "yaml") as ->.
  { destruct Hk as [[Hi _] _]. cbn in Hi.
    pose proof (lookup_weaken _ _ _ _ Hy Hi) as Hq. by injection Hq. }
  destruct (g !! "f") as [f|] eqn:Hf; [| done]. unfold_py. join_names.
  rewrite ask_eq. cbn [globals imported trace].
  destruct (respond t (RCall "yaml.safe_load" [f] [])) as [c|e];
    [| by apply (well_named_event (Kernel g im t))].
  destruct Hk as [[Hi Hn] Hs].
  unfold well_named, imports_intact, settings_as_read in *.
  cbn [globals imported trace] in *. split; [split |].
  - done.
  - intros y Hm. rewrite lookup_insert_ne; [by apply Hn |]. intros <-. discriminate Hm.
  - intros c'. rewrite lookup_insert_eq. intros [= <-]. exists f.
    apply in_or_app. right. by left.
Qed.

Lemma create_compute_well_named : Forall (keeps well_named) CreateCompute.cells.
Proof.
  pose proof well_named_store.
  pose proof (fun k s => well_named_event k (EPrint s)).
  pose proof (fun k r o (_ : (fun _ : request => true) r = true) =>
                well_named_event k (EReq r o)).
  pose proof well_named_import. pose proof settings_read_kept.
  unfold CreateCompute.cells. each_cell; preserve.
Qed.

Lemma prepare_environment_well_named :
  Forall (keeps well_named) PrepareEnvironment.cells_amltmp.
Proof.
  pose proof well_named_store.
  pose proof (fun k s => well_named_event k (EPrint s)).
  pose proof (fun k r o (_ : (fun _ : request => true) r = true) =>
                well_named_event k (EReq r o)).
  pose proof well_named_import. pose proof settings_read_kept.
  unfold PrepareEnvironment.cells_amltmp, PrepareEnvironment.cells. cbn [app].
  each_cell; preserve.
Qed.

Lemma prepare_data_well_named : Forall (keeps well_named) PrepareData.cells.
Proof.
  pose proof well_named_store.
  pose proof (fun k s => well_named_event k (EPrint s)).
  pose proof (fun k r o (_ : (fun _ : request => true) r = true) =>
                well_named_event k (EReq r o)).
  pose proof well_named_import. pose proof settings_read_kept.
  unfold PrepareData.cells. each_cell; preserve.
Qed.

Lemma train_model_well_named :
  Forall (keeps well_named) (TrainModel.cells ++ TrainModel.cells_original).
Proof.
  pose proof well_named_store.
  pose proof (fun k s => well_named_event k (EPrint s)).
  pose proof (fun k r o (_ : (fun _ : request => true) r = true) =>
                well_named_event k (EReq r o)).
  pose proof well_named_import. pose proof settings_read_kept.
  unfold TrainModel.cells, TrainModel.cells_original. cbn [app].
  each_cell; preserve.
Qed.

Lemma session_well_named (k : kernel) :
  session CreateCompute.cells k \/
  session PrepareEnvironment.cells k \/ session PrepareEnvironment.cells_amltmp k \/
  session PrepareData.cells k \/
  session TrainModel.cells k \/ session TrainModel.cells_original k ->
  well_named k.
Proof.
  pose proof create_compute_well_named as H1.
  pose proof prepare_environment_well_named as H2.
  pose proof prepare_data_well_named as H3.
  pose proof train_model_well_named as H4.
  assert (H2' : Forall (keeps well_named) PrepareEnvironment.cells)
    by (unfold PrepareEnvironment.cells_amltmp in H2; by apply Forall_app in H2 as [? _]).
  apply Forall_app in H4 as [H4 H4'].
  intros [Hs | [Hs | [Hs | [Hs | [Hs | Hs]]]]];
    (eapply session_kept; [apply well_named_fresh | | exact Hs]); assumption.
Qed.
End WellNamed.

(** X20: in every session of every notebook, a name bound by [import]
    denotes the module or class it was imported from ([Path] is
    [pathlib.Path], [azureml] is the package [azureml], ...), and no cell has
    assigned to one of these names. *)
Theorem imports_never_shadowed {W : World} (k : kernel) :
  session CreateCompute.cells k \/
  session PrepareEnvironment.cells k \/ session PrepareEnvironment.cells_amltmp k \/
  session PrepareData.cells k \/
  session TrainModel.cells k \/ session TrainModel.cells_original k ->
  imported k ⊆ import_table /\
  forall x, is_Some (import_table !! x) -> globals k !! x = None.
Proof.
  intros Hs. destruct (session_well_named k Hs) as [[Hi Hn] _].
  split; [done |]. intros x Hx. by apply Hn, import_names_table.
Qed.

Lemma imports_never_shadowed_witness :
  let W := obliging in
  let k := exec PrepareEnvironment.name_container
             (exec PrepareEnvironment.connect_workspace
                (exec PrepareEnvironment.read_settings fresh)) in
  globals k !! "Path" = None.
Proof.
  intros W k.
  assert (Hs : session PrepareEnvironment.cells k).
  { repeat (apply session_exec; [| cbn; tauto]). apply session_fresh. }
  apply (proj2 (imports_never_shadowed k (or_intror (or_introl Hs)))).
  by eexists.
Defined.

(** X21: in every session of every notebook, what [config] is bound to is
    something [yaml.safe_load] returned earlier in that session: only the
    statement that reads the settings assigns [config], and no cell replaces
    or rebinds it otherwise. *)
Theorem settings_come_from_the_parser {W : World} (k : kernel) (c : value) :
  session CreateCompute.cells k \/
  session PrepareEnvironment.cells k \/ session PrepareEnvironment.cells_amltmp k \/
  session PrepareData.cells k \/
  session TrainModel.cells k \/ session TrainModel.cells_original k ->
  globals k !! "config" = Some c ->
  exists stream, In (EReq (parse_request stream) (Returns c)) (trace k).
Proof.
  intros Hs. destruct (session_well_named k Hs) as [_ Hc]. apply Hc.
Qed.

Lemma settings_come_from_the_parser_witness :
  let W := obliging in
  let k := exec TrainModel.connect_workspace
             (exec TrainModel.read_settings (exec TrainModel.imports fresh)) in
  exists stream, In (EReq (parse_request stream) (Returns config_yml)) (trace k).
Proof.
  intros W k.
  assert (Hs : session TrainModel.cells k).
  { repeat (apply session_exec; [| cbn; tauto]). apply session_fresh. }
  exact (settings_come_from_the_parser k config_yml
           (or_intror (or_intror (or_intror (or_intror (or_introl Hs))))) eq_refl).
Defined.
